(** * Crisis detection supervisor: a shallow embedding of
      [examples/crisis_detection.py] and the properties of its
      detection-and-decision pipeline.

    Conventions.
    - A Python [str] that is scanned by regular expressions (the message
      text, its context, the matched indicators) is a list of Unicode code
      points, [ustr].  Identifiers that are only compared, hashed or used
      as dictionary keys (user ids, language and country codes, method
      labels) are [string]s.
    - Python [float]s are IEEE binary64 values: Rocq's primitive [float].
    - [datetime.now()] readings are integers (microseconds); a
      [timedelta] is a difference of such readings.  Every reading is an
      explicit argument of the operation that takes it; for a whole
      request they are the fields of [Env], together with what the
      scheduler and the ML service do during that request.
    - Objects are values and every method returns the objects it
      mutates; where two names share one object (a cached result and the
      result returned for it) the update is written to both.
    - The parts of the Python runtime that are not code of the repository
      and are tables too large to restate (Unicode case mapping, the
      Unicode classes behind [\s], [\w] and [re.IGNORECASE]) are the
      fields of the class [PyRuntime]; theorems hold for every such
      runtime, closed examples use [ascii_runtime], which is exact on
      ASCII text. *)

Set Warnings "-inexact-float".
From Stdlib Require Import ZArith NArith List String Ascii Bool Lia.
From Stdlib Require Import Sorting.Sorted Permutation.
From Stdlib Require Import Floats.PrimFloat.
From stdpp Require Import gmap strings.
Import ListNotations.

Local Open Scope Z_scope.

(** ** Text *)

Abbreviation ustr := (list N).

(** Code points of a string literal written in UTF-8 (one to four bytes
    per code point; a malformed byte is kept as it is). *)
Definition cont (b : N) : N := N.land b 63.

Fixpoint utf8_decode_bytes (fuel : nat) (bs : list N) : ustr :=
  match fuel with
  | O => []
  | S f =>
    match bs with
    | [] => []
    | b0 :: r0 =>
      if (b0 <? 128)%N then b0 :: utf8_decode_bytes f r0
      else if (b0 <? 224)%N then
        match r0 with
        | b1 :: r1 =>
            (N.land b0 31 * 64 + cont b1)%N :: utf8_decode_bytes f r1
        | _ => b0 :: utf8_decode_bytes f r0
        end
      else if (b0 <? 240)%N then
        match r0 with
        | b1 :: b2 :: r2 =>
            (N.land b0 15 * 4096 + cont b1 * 64 + cont b2)%N
              :: utf8_decode_bytes f r2
        | _ => b0 :: utf8_decode_bytes f r0
        end
      else
        match r0 with
        | b1 :: b2 :: b3 :: r3 =>
            (N.land b0 7 * 262144 + cont b1 * 4096 + cont b2 * 64 + cont b3)%N
              :: utf8_decode_bytes f r3
        | _ => b0 :: utf8_decode_bytes f r0
        end
    end
  end.

Definition bytes_of_string (s : string) : list N :=
  List.map N_of_ascii (list_ascii_of_string s).

(** [u "..."] is the Python [str] written as that literal. *)
Definition u (s : string) : ustr :=
  let bs := bytes_of_string s in utf8_decode_bytes (List.length bs) bs.

(** [str.encode()]: UTF-8. *)
Definition utf8_encode_cp (c : N) : list N :=
  if (c <? 128)%N then [c]
  else if (c <? 2048)%N then [192 + c / 64; 128 + c mod 64]%N
  else if (c <? 65536)%N then
    [224 + c / 4096; 128 + (c / 64) mod 64; 128 + c mod 64]%N
  else
    [240 + c / 262144; 128 + (c / 4096) mod 64;
     128 + (c / 64) mod 64; 128 + c mod 64]%N.

Definition encode (s : ustr) : list N := List.concat (List.map utf8_encode_cp s).

(** ** The Python runtime the program leans on *)

Class PyRuntime := {
  (** [str.lower()] *)
  str_lower : ustr -> ustr;
  (** [\s] of a [str] pattern: [str.isspace] *)
  is_space : N -> bool;
  (** [\w] of a [str] pattern: alphanumeric or underscore *)
  is_word : N -> bool;
  (** a literal of a pattern compiled with [re.IGNORECASE] (first
      argument) against a character of the subject (second) *)
  ci_eq : N -> N -> bool
}.

Definition ascii_lower (c : N) : N :=
  if ((65 <=? c) && (c <=? 90))%N then (c + 32)%N else c.

Definition ascii_is_space (c : N) : bool :=
  (((9 <=? c) && (c <=? 13)) || ((28 <=? c) && (c <=? 32)))%N.

Definition ascii_is_word (c : N) : bool :=
  (((48 <=? c) && (c <=? 57)) || ((65 <=? c) && (c <=? 90))
   || ((97 <=? c) && (c <=? 122)) || (c =? 95))%N.

(** Exact on code points below 128; other code points are taken as
    caseless, non-space and non-word. *)
#[export] Instance ascii_runtime : PyRuntime := {
  str_lower := List.map ascii_lower;
  is_space := ascii_is_space;
  is_word := ascii_is_word;
  ci_eq := fun p c => (ascii_lower p =? ascii_lower c)%N
}.

(** ** Regular expressions: the fragment of [re] the program uses *)

Module re.

Inductive citem :=
| CChar (c : N)
| CRange (lo hi : N)
| CSpace.

Inductive atom :=
| ALit (c : N)
| AAny                       (* [.]: anything but a newline *)
| ASpace                     (* [\s] *)
| ASet (items : list citem). (* [[...]] *)

Inductive quant := QOne | QOpt | QStar | QPlus.

Inductive regex :=
| REps
| RAtom (a : atom) (q : quant)
| RBoundary                  (* [\b] *)
| RSeq (r1 r2 : regex)
| RAlt (r1 r2 : regex).

(** A compiled pattern: [re.compile(src, flags)]. *)
Record Pattern := { rx : regex; ignorecase : bool }.

(** *** Parsing

    Characters are code points; those with a meaning in a pattern:
    36 [$], 40 [(], 41 [)], 42 [*], 43 [+], 45 [-], 46 [.], 63 [?],
    91 and 93 (the brackets), 92 (backslash), 94 [^], 98 [b], 115 [s],
    117 [u], 123 and 125 (the braces), 124 [|]. *)

Definition hexval (c : N) : option N :=
  if ((48 <=? c) && (c <=? 57))%N then Some (c - 48)%N
  else if ((97 <=? c) && (c <=? 102))%N then Some (c - 87)%N
  else if ((65 <=? c) && (c <=? 70))%N then Some (c - 55)%N
  else None.

(** One character of a class: a literal or [\uXXXX]. *)
Definition p_cchar (s : ustr) : option (N * ustr) :=
  match s with
  | 92%N :: 117%N :: h1 :: h2 :: h3 :: h4 :: rest =>
      match hexval h1, hexval h2, hexval h3, hexval h4 with
      | Some a, Some b, Some c, Some d =>
          Some (a * 4096 + b * 256 + c * 16 + d, rest)%N
      | _, _, _, _ => None
      end
  | 92%N :: _ => None
  | 93%N :: _ => None
  | 91%N :: _ => None
  | c :: rest => Some (c, rest)
  | [] => None
  end.

(** The items of a class, up to and including the closing bracket. *)
Fixpoint p_class (fuel : nat) (s : ustr) : option (list citem * ustr) :=
  match fuel with
  | O => None
  | S f =>
    match s with
    | 93%N :: rest => Some ([], rest)
    | 92%N :: 115%N :: rest =>
        match p_class f rest with
        | Some (items, rest') => Some (CSpace :: items, rest')
        | None => None
        end
    | _ =>
        match p_cchar s with
        | Some (lo, 45%N :: 93%N :: rest) =>
            Some ([CChar lo; CChar 45%N], rest)
        | Some (lo, 45%N :: rest) =>
            match p_cchar rest with
            | Some (hi, rest') =>
                match p_class f rest' with
                | Some (items, rest'') => Some (CRange lo hi :: items, rest'')
                | None => None
                end
            | None => None
            end
        | Some (c, rest) =>
            match p_class f rest with
            | Some (items, rest') => Some (CChar c :: items, rest')
            | None => None
            end
        | None => None
        end
    end
  end.

Definition is_meta (c : N) : bool :=
  existsb (N.eqb c) [92; 46; 94; 36; 42; 43; 63; 123; 125; 91; 93; 40; 41; 124]%N.

Definition p_atom (s : ustr) : option (atom * ustr) :=
  match s with
  | 46%N :: rest => Some (AAny, rest)
  | 92%N :: 115%N :: rest => Some (ASpace, rest)
  | 91%N :: 94%N :: _ => None
  | 91%N :: rest =>
      match p_class (S (List.length rest)) rest with
      | Some (items, rest') => Some (ASet items, rest')
      | None => None
      end
  | c :: rest => if is_meta c then None else Some (ALit c, rest)
  | [] => None
  end.

Definition is_quant (c : N) : bool :=
  existsb (N.eqb c) [42; 43; 63; 123]%N.

(** A greedy quantifier; lazy and possessive forms and counted
    repetition are outside the fragment. *)
Definition p_quant (s : ustr) : option (quant * ustr) :=
  match s with
  | c :: rest =>
      if is_quant c then
        match rest with
        | c' :: _ => if is_quant c' then None else
            match c with
            | 42%N => Some (QStar, rest)
            | 43%N => Some (QPlus, rest)
            | 63%N => Some (QOpt, rest)
            | _ => None
            end
        | [] =>
            match c with
            | 42%N => Some (QStar, rest)
            | 43%N => Some (QPlus, rest)
            | 63%N => Some (QOpt, rest)
            | _ => None
            end
        end
      else Some (QOne, s)
  | [] => Some (QOne, s)
  end.

Fixpoint p_alt (fuel : nat) (s : ustr) : option (regex * ustr) :=
    match fuel with
    | O => None
    | S f =>
      match p_seq f s with
      | Some (r1, 124%N :: rest) =>
          match p_alt f rest with
          | Some (r2, rest') => Some (RAlt r1 r2, rest')
          | None => None
          end
      | other => other
      end
    end
  with p_seq (fuel : nat) (s : ustr) : option (regex * ustr) :=
    match fuel with
    | O => None
    | S f =>
      match s with
      | [] => Some (REps, [])
      | 124%N :: _ => Some (REps, s)
      | 41%N :: _ => Some (REps, s)
      | _ =>
          match p_item f s with
          | Some (r1, rest) =>
              match p_seq f rest with
              | Some (REps, rest') => Some (r1, rest')
              | Some (r2, rest') => Some (RSeq r1 r2, rest')
              | None => None
              end
          | None => None
          end
      end
    end
  with p_item (fuel : nat) (s : ustr) : option (regex * ustr) :=
    match fuel with
    | O => None
    | S f =>
      match s with
      | 40%N :: 63%N :: _ => None
      | 40%N :: rest =>
          match p_alt f rest with
          | Some (r, 41%N :: rest') =>
              match rest' with
              | c :: _ => if is_quant c then None else Some (r, rest')
              | [] => Some (r, rest')
              end
          | _ => None
          end
      | 92%N :: 98%N :: rest => Some (RBoundary, rest)
      | _ =>
          match p_atom s with
          | Some (a, rest) =>
              match p_quant rest with
              | Some (q, rest') => Some (RAtom a q, rest')
              | None => None
              end
          | None => None
          end
      end
    end.

Definition parse (src : ustr) : option regex :=
  match p_alt (3 * List.length src + 3) src with
  | Some (r, []) => Some r
  | _ => None
  end.

(** A range inside a class of a case-insensitive pattern would need the
    case table of every code point in it: outside the fragment. *)
Definition item_caseless (i : citem) : bool :=
  match i with CRange _ _ => false | _ => true end.

Fixpoint supported (ic : bool) (r : regex) : bool :=
  match r with
  | RAtom (ASet items) _ => negb ic || forallb item_caseless items
  | RSeq r1 r2 | RAlt r1 r2 => supported ic r1 && supported ic r2
  | _ => true
  end.

(** [re.compile(src, re.IGNORECASE if ic else 0)]; [None] when [src] is
    outside the fragment. *)
Definition compile (src : string) (ic : bool) : option Pattern :=
  match parse (u src) with
  | Some r => if supported ic r then Some {| rx := r; ignorecase := ic |} else None
  | None => None
  end.

(** *** Matching: backtracking, greedy, leftmost alternative first *)

Section Match.
Context `{PyRuntime}.
Variable ic : bool.

Definition lit_ok (p c : N) : bool := if ic then ci_eq p c else (p =? c)%N.

Definition item_ok (i : citem) (c : N) : bool :=
  match i with
  | CChar p => lit_ok p c
  | CRange lo hi => ((lo <=? c) && (c <=? hi))%N
  | CSpace => is_space c
  end.

Definition atom_ok (a : atom) (c : N) : bool :=
  match a with
  | ALit p => lit_ok p c
  | AAny => negb (c =? 10)%N
  | ASpace => is_space c
  | ASet items => existsb (fun i => item_ok i c) items
  end.

Definition word_at (c : option N) : bool :=
  match c with Some c => is_word c | None => false end.

Section Cont.
(** The rest of the match: the character before the position, the
    remaining subject; it answers with what is left after the whole
    match. *)
Variable k : option N -> ustr -> option ustr.

Fixpoint star (a : atom) (prev : option N) (s : ustr) : option ustr :=
  match s with
  | c :: s' =>
      if atom_ok a c then
        match star a (Some c) s' with
        | Some rest => Some rest
        | None => k prev s
        end
      else k prev s
  | [] => k prev s
  end.

Definition rep (a : atom) (q : quant) (prev : option N) (s : ustr)
  : option ustr :=
  match q with
  | QOne =>
      match s with
      | c :: s' => if atom_ok a c then k (Some c) s' else None
      | [] => None
      end
  | QOpt =>
      match s with
      | c :: s' =>
          if atom_ok a c then
            match k (Some c) s' with
            | Some rest => Some rest
            | None => k prev s
            end
          else k prev s
      | [] => k prev s
      end
  | QStar => star a prev s
  | QPlus =>
      match s with
      | c :: s' => if atom_ok a c then star a (Some c) s' else None
      | [] => None
      end
  end.
End Cont.

Fixpoint m (r : regex) (prev : option N) (s : ustr)
    (k : option N -> ustr -> option ustr) : option ustr :=
  match r with
  | REps => k prev s
  | RAtom a q => rep k a q prev s
  | RBoundary =>
      if xorb (word_at prev) (word_at (List.head s)) then k prev s else None
  | RSeq r1 r2 => m r1 prev s (fun p s' => m r2 p s' k)
  | RAlt r1 r2 =>
      match m r1 prev s k with
      | Some rest => Some rest
      | None => m r2 prev s k
      end
  end.

(** The first position, from the left, at which the pattern matches:
    [(start, match.group())]. *)
Fixpoint search_from (r : regex) (prev : option N) (s : ustr) (pos : nat)
  : option (nat * ustr) :=
  match m r prev s (fun _ rest => Some rest) with
  | Some rest => Some (pos, List.firstn (List.length s - List.length rest) s)
  | None =>
      match s with
      | [] => None
      | c :: s' => search_from r (Some c) s' (S pos)
      end
  end.
End Match.

(** [pattern.search(s)] *)
Definition search `{PyRuntime} (p : Pattern) (s : ustr) : option (nat * ustr) :=
  search_from (ignorecase p) (rx p) None s 0.

(** [match.group()] *)
Definition group (mt : nat * ustr) : ustr := snd mt.

(** Never matches; [compiled] falls back on it outside the fragment. *)
Definition never : Pattern := {| rx := RAtom (ASet []) QOne; ignorecase := false |}.

(** [re.compile] of a pattern of the program.  Python raises [re.error]
    on a malformed pattern; every pattern of the program compiles (lemma
    [patterns_compile] below), so the fallback is never taken. *)
Definition compiled (src : string) (ic : bool) : Pattern :=
  match compile src ic with
  | Some p => p
  | None => never
  end.

End re.

(** ** [hashlib.sha256(...).hexdigest()] (FIPS 180-4) *)

Module sha256.
Local Open Scope N_scope.

Definition w32 (x : N) : N := x mod 4294967296.
Definition add32 (x y : N) : N := w32 (x + y).
Definition rotr (n x : N) : N := N.lor (N.shiftr x n) (w32 (N.shiftl x (32 - n))).
Definition not32 (x : N) : N := 4294967295 - x.
Definition xor3 (a b c : N) : N := N.lxor (N.lxor a b) c.

Definition Ch (x y z : N) : N := N.lxor (N.land x y) (N.land (not32 x) z).
Definition Maj (x y z : N) : N := xor3 (N.land x y) (N.land x z) (N.land y z).
Definition Sigma0 (x : N) : N := xor3 (rotr 2 x) (rotr 13 x) (rotr 22 x).
Definition Sigma1 (x : N) : N := xor3 (rotr 6 x) (rotr 11 x) (rotr 25 x).
Definition sigma0 (x : N) : N := xor3 (rotr 7 x) (rotr 18 x) (N.shiftr x 3).
Definition sigma1 (x : N) : N := xor3 (rotr 17 x) (rotr 19 x) (N.shiftr x 10).

Definition round_constants : list N :=
  [1116352408; 1899447441; 3049323471; 3921009573; 961987163; 1508970993;
   2453635748; 2870763221; 3624381080; 310598401; 607225278; 1426881987;
   1925078388; 2162078206; 2614888103; 3248222580; 3835390401; 4022224774;
   264347078; 604807628; 770255983; 1249150122; 1555081692; 1996064986;
   2554220882; 2821834349; 2952996808; 3210313671; 3336571891; 3584528711;
   113926993; 338241895; 666307205; 773529912; 1294757372; 1396182291;
   1695183700; 1986661051; 2177026350; 2456956037; 2730485921; 2820302411;
   3259730800; 3345764771; 3516065817; 3600352804; 4094571909; 275423344;
   430227734; 506948616; 659060556; 883997877; 958139571; 1322822218;
   1537002063; 1747873779; 1955562222; 2024104815; 2227730452; 2361852424;
   2428436474; 2756734187; 3204031479; 3329325298].

Definition initial_hash : list N :=
  [1779033703; 3144134277; 1013904242; 2773480762; 1359893119; 2600822924;
   528734635; 1541459225].

(** Big-endian bytes of [x], [n] of them. *)
Fixpoint be_bytes (n : nat) (x : N) : list N :=
  match n with
  | O => []
  | S k => be_bytes k (x / 256) ++ [x mod 256]
  end.

Definition pad (msg : list N) : list N :=
  let len := N.of_nat (List.length msg) in
  let zeros := (64 - (len + 9) mod 64) mod 64 in
  msg ++ [128] ++ List.repeat 0 (N.to_nat zeros) ++ be_bytes 8 (8 * len).

Fixpoint words (fuel : nat) (bs : list N) : list N :=
  match fuel, bs with
  | S f, a :: b :: c :: d :: rest =>
      (a * 16777216 + b * 65536 + c * 256 + d) :: words f rest
  | _, _ => []
  end.

(** The message schedule, latest word first. *)
Fixpoint schedule (n : nat) (rw : list N) : list N :=
  match n with
  | O => rw
  | S k =>
      let w i := List.nth i rw 0 in
      schedule k
        (add32 (add32 (sigma1 (w 1%nat)) (w 6%nat))
               (add32 (sigma0 (w 14%nat)) (w 15%nat)) :: rw)
  end.

Definition round (st : list N) (kw : N * N) : list N :=
  match st with
  | [a; b; c; d; e; f; g; h] =>
      let t1 := add32 (add32 (add32 h (Sigma1 e)) (add32 (Ch e f g) (fst kw))) (snd kw) in
      let t2 := add32 (Sigma0 a) (Maj a b c) in
      [add32 t1 t2; a; b; c; add32 d t1; e; f; g]
  | _ => st
  end.

Definition compress (hs block : list N) : list N :=
  let ws := List.rev (schedule 48 (List.rev block)) in
  let st := List.fold_left round (List.combine round_constants ws) hs in
  List.map (fun p => add32 (fst p) (snd p)) (List.combine hs st).

Fixpoint blocks (fuel : nat) (hs ws : list N) : list N :=
  match fuel, ws with
  | S f, _ :: _ => blocks f (compress hs (List.firstn 16 ws)) (List.skipn 16 ws)
  | _, _ => hs
  end.

Definition digest (msg : list N) : list N :=
  let bs := pad msg in
  let ws := words (List.length bs) bs in
  List.concat (List.map (be_bytes 4) (blocks (List.length ws) initial_hash ws)).

Definition hexdigit (n : N) : ascii :=
  ascii_of_N (if n <? 10 then 48 + n else 87 + n).

Fixpoint hex (bs : list N) : string :=
  match bs with
  | [] => EmptyString
  | b :: rest => String (hexdigit (b / 16)) (String (hexdigit (b mod 16)) (hex rest))
  end.

Definition hexdigest (msg : list N) : string := hex (digest msg).
End sha256.


(** ** Python built-ins *)

(** [max(x, *xs)] under a [>] test: the first maximal element. *)
Definition py_max {A : Type} (gt : A -> A -> bool) (x : A) (xs : list A) : A :=
  List.fold_left (fun cur y => if gt y cur then y else cur) xs x.

(** [min(a, b)] on floats: [b] only when [b < a]. *)
Definition py_min (a b : float) : float := if PrimFloat.ltb b a then b else a.

(** [float > float] *)
Definition float_gt (a b : float) : bool := PrimFloat.ltb b a.

(** [float(n)] for a list length [n] (exact below 2^53). *)
Fixpoint float_of_nat (n : nat) : float :=
  match n with
  | O => 0%float
  | S k => (float_of_nat k + 1)%float
  end.

(** [sub in s] on strings. *)
Definition contains (sub s : string) : bool :=
  match String.index 0 sub s with
  | Some _ => true
  | None => false
  end.

Definition newline : string := String (ascii_of_nat 10) EmptyString.

(** ** Enums and data classes *)

Inductive CrisisSeverity := NONE | LOW | MODERATE | HIGH | CRITICAL.

Definition level (s : CrisisSeverity) : Z :=
  match s with
  | NONE => 0
  | LOW => 1
  | MODERATE => 2
  | HIGH => 3
  | CRITICAL => 4
  end.

Definition label (s : CrisisSeverity) : string :=
  match s with
  | NONE => "none"
  | LOW => "low"
  | MODERATE => "moderate"
  | HIGH => "high"
  | CRITICAL => "critical"
  end.

(** [CrisisSeverity.__gt__] and [__ge__] *)
Definition sev_gt (a b : CrisisSeverity) : bool := level b <? level a.
Definition sev_ge (a b : CrisisSeverity) : bool := level b <=? level a.

#[export] Instance CrisisSeverity_eq_dec : EqDecision CrisisSeverity.
Proof. solve_decision. Defined.

Inductive CrisisCategory :=
| SUICIDAL_IDEATION
| SELF_HARM
| HOPELESSNESS
| DEATH_IDEATION
| INDIRECT_SUICIDAL
| FAREWELL
| PLANNING
| MEANS.

Definition category_value (c : CrisisCategory) : string :=
  match c with
  | SUICIDAL_IDEATION => "suicidal_ideation"
  | SELF_HARM => "self_harm"
  | HOPELESSNESS => "hopelessness"
  | DEATH_IDEATION => "death_ideation"
  | INDIRECT_SUICIDAL => "indirect_suicidal"
  | FAREWELL => "farewell"
  | PLANNING => "planning"
  | MEANS => "means"
  end.

#[export] Instance CrisisCategory_eq_dec : EqDecision CrisisCategory.
Proof. solve_decision. Defined.

Definition category_index (c : CrisisCategory) : nat :=
  match c with
  | SUICIDAL_IDEATION => 0
  | SELF_HARM => 1
  | HOPELESSNESS => 2
  | DEATH_IDEATION => 3
  | INDIRECT_SUICIDAL => 4
  | FAREWELL => 5
  | PLANNING => 6
  | MEANS => 7
  end.

Definition category_of_index (n : nat) : option CrisisCategory :=
  match n with
  | 0%nat => Some SUICIDAL_IDEATION
  | 1%nat => Some SELF_HARM
  | 2%nat => Some HOPELESSNESS
  | 3%nat => Some DEATH_IDEATION
  | 4%nat => Some INDIRECT_SUICIDAL
  | 5%nat => Some FAREWELL
  | 6%nat => Some PLANNING
  | 7%nat => Some MEANS
  | _ => None
  end.

#[export] Instance CrisisCategory_countable : Countable CrisisCategory.
Proof.
  refine (inj_countable category_index category_of_index _).
  intros []; reflexivity.
Defined.

Inductive RecommendedAction := PROCEED | MONITOR | INTERRUPT.

Definition action_value (a : RecommendedAction) : string :=
  match a with
  | PROCEED => "proceed"
  | MONITOR => "monitor"
  | INTERRUPT => "interrupt"
  end.

Inductive CircuitState := CLOSED | OPEN | HALF_OPEN.

Definition state_value (s : CircuitState) : string :=
  match s with
  | CLOSED => "closed"
  | OPEN => "open"
  | HALF_OPEN => "half_open"
  end.

#[export] Instance CircuitState_eq_dec : EqDecision CircuitState.
Proof. solve_decision. Defined.

Module CrisisPattern.

Record t := {
  pattern : string;
  severity : CrisisSeverity;
  category : CrisisCategory;
  language : string;
  is_direct : bool;
  confidence_weight : float;
  cultural_context : option string;
  requires_context : bool
}.

(** The constructor call with the fields the catalog sets (the others
    keep the dataclass defaults). *)
Definition make (pattern : string) (severity : CrisisSeverity)
    (category : CrisisCategory) (language : string) (is_direct : bool)
    (confidence_weight : float) : t :=
  {| pattern := pattern; severity := severity; category := category;
     language := language; is_direct := is_direct;
     confidence_weight := confidence_weight;
     cultural_context := None; requires_context := false |}.

End CrisisPattern.

Module CrisisDetectionResult.

Record t := {
  severity : CrisisSeverity;
  confidence : float;
  indicators : list ustr;
  categories : gset CrisisCategory;
  requires_resources : bool;
  recommended_action : RecommendedAction;
  detection_method : string;
  latency_ms : float;
  language : string;
  context_modifier : option string;
  reasoning : option string;
  cache_hit : bool
}.

(** [result.latency_ms = v] and [result.cache_hit = v] *)
Definition set_latency_ms (v : float) (r : t) : t :=
  {| severity := severity r; confidence := confidence r;
     indicators := indicators r; categories := categories r;
     requires_resources := requires_resources r;
     recommended_action := recommended_action r;
     detection_method := detection_method r; latency_ms := v;
     language := language r; context_modifier := context_modifier r;
     reasoning := reasoning r; cache_hit := cache_hit r |}.

Definition set_cache_hit (v : bool) (r : t) : t :=
  {| severity := severity r; confidence := confidence r;
     indicators := indicators r; categories := categories r;
     requires_resources := requires_resources r;
     recommended_action := recommended_action r;
     detection_method := detection_method r; latency_ms := latency_ms r;
     language := language r; context_modifier := context_modifier r;
     reasoning := reasoning r; cache_hit := v |}.

End CrisisDetectionResult.

Module CrisisResource.

Record t := {
  name : string;
  phone : option string;
  text : option string;
  web : option string;
  availability : string;
  languages : list string;
  specialties : list string;
  priority : Z
}.

Definition make (name : string) (phone text web : option string)
    (languages specialties : list string) (priority : Z) : t :=
  {| name := name; phone := phone; text := text; web := web;
     availability := "24/7"; languages := languages;
     specialties := specialties; priority := priority |}.

End CrisisResource.

(** A [timedelta], in microseconds. *)
Definition seconds (n : Z) : Z := n * 1000000.
Definition minutes (n : Z) : Z := n * 60000000.

Module UserCrisisState.

Record t := {
  user_id : string;
  state : CircuitState;
  crisis_count : Z;
  last_crisis_time : option Z;
  resources_shown_time : option Z;
  post_crisis_messages : Z;
  severity_history : list CrisisSeverity
}.

(** [UserCrisisState(user_id=user_id)] *)
Definition new (user_id : string) : t :=
  {| user_id := user_id; state := CLOSED; crisis_count := 0;
     last_crisis_time := None; resources_shown_time := None;
     post_crisis_messages := 0; severity_history := [] |}.

(** [now] is the reading of [datetime.now()], taken only when the state
    is not OPEN and a crisis has been recorded. *)
Definition should_bypass_analysis (self : t) (window_minutes : Z) (now : Z) : bool :=
  if decide (state self = OPEN) then true
  else
    match last_crisis_time self with
    | Some last =>
        let time_since_crisis := now - last in
        if time_since_crisis <? minutes window_minutes
        then 3 <=? crisis_count self
        else false
    | None => false
    end.

End UserCrisisState.

(** ** Pattern definitions *)

Module PatternDatabase.

Definition get_patterns : gmap string (list CrisisPattern.t) :=
  list_to_map [
    ("en", [
      CrisisPattern.make
        "\b(kill\s+myself|end\s+my\s+life|commit\s+suicide|take\s+my\s+life)\b"
        CRITICAL SUICIDAL_IDEATION "en" true 1.0;
      CrisisPattern.make
        "\b(want\s+to\s+die|ready\s+to\s+die|better\s+off\s+dead)\b"
        CRITICAL SUICIDAL_IDEATION "en" true 1.0;
      CrisisPattern.make
        "\b(going\s+to\s+kill|about\s+to\s+end|planning\s+to\s+die)\b"
        CRITICAL PLANNING "en" true 1.0;
      CrisisPattern.make
        "\b(overdose|hang\s+myself|jump\s+off|cut\s+my\s+wrists)\b"
        CRITICAL MEANS "en" true 1.0;
      CrisisPattern.make
        "\b(gun\s+to\s+my\s+head|pills\s+to\s+end|poison\s+myself)\b"
        CRITICAL MEANS "en" true 1.0;
      CrisisPattern.make
        "\b(suicidal|want\s+to\s+hurt\s+myself|self[\s-]?harm)\b"
        HIGH SELF_HARM "en" true 1.0;
      CrisisPattern.make
        "\b(no\s+reason\s+to\s+live|life\s+isn't\s+worth|can't\s+go\s+on)\b"
        HIGH HOPELESSNESS "en" true 1.0;
      CrisisPattern.make
        "\b(end\s+it\s+all|end\s+the\s+pain|make\s+it\s+stop)\b"
        HIGH INDIRECT_SUICIDAL "en" true 1.0;
      CrisisPattern.make
        "\b(goodbye\s+forever|this\s+is\s+goodbye|final\s+goodbye)\b"
        HIGH FAREWELL "en" true 1.0;
      CrisisPattern.make
        "\b(won't\s+be\s+around|see\s+you\s+on\s+the\s+other\s+side)\b"
        HIGH FAREWELL "en" true 1.0;
      CrisisPattern.make
        "\b(can't\s+take\s+it|can't\s+cope|breaking\s+point)\b"
        MODERATE HOPELESSNESS "en" true 0.8;
      CrisisPattern.make
        "\b(wish\s+I\s+was\s+dead|rather\s+be\s+dead|death\s+sounds)\b"
        MODERATE DEATH_IDEATION "en" true 0.8;
      CrisisPattern.make
        "\b(no\s+way\s+out|trapped|no\s+escape|hopeless)\b"
        MODERATE HOPELESSNESS "en" true 0.7;
      CrisisPattern.make
        "\b(end\s+of\s+the\s+road|final\s+curtain|last\s+stop)\b"
        MODERATE INDIRECT_SUICIDAL "en" false 0.6;
      CrisisPattern.make
        "\b(disappear\s+forever|cease\s+to\s+exist|fade\s+away)\b"
        MODERATE INDIRECT_SUICIDAL "en" false 0.6 ]);
    ("es", [
      CrisisPattern.make
        "\b(quiero\s+morir|matarme|suicidarme|quitarme\s+la\s+vida)\b"
        CRITICAL SUICIDAL_IDEATION "es" true 1.0;
      CrisisPattern.make
        "\b(no\s+puedo\s+mÃ¡s|no\s+quiero\s+vivir|mejor\s+muerto)\b"
        HIGH HOPELESSNESS "es" true 1.0;
      CrisisPattern.make
        "\b(acabar\s+con\s+todo|terminar\s+con\s+esto)\b"
        HIGH INDIRECT_SUICIDAL "es" true 1.0;
      CrisisPattern.make
        "\b(sin\s+esperanza|desesperado|no\s+hay\s+salida)\b"
        MODERATE HOPELESSNESS "es" true 1.0 ]);
    ("fr", [
      CrisisPattern.make
        "\b(je\s+veux\s+mourir|me\s+suicider|me\s+tuer|en\s+finir)\b"
        CRITICAL SUICIDAL_IDEATION "fr" true 1.0;
      CrisisPattern.make
        "\b(plus\s+de\s+raison\s+de\s+vivre|mieux\s+vaut\s+mourir)\b"
        HIGH HOPELESSNESS "fr" true 1.0;
      CrisisPattern.make
        "\b(dÃ©sespÃ©rÃ©|sans\s+espoir|ne\s+peux\s+plus)\b"
        MODERATE HOPELESSNESS "fr" true 1.0 ]);
    ("zh", [
      CrisisPattern.make
        "(æˆ‘æƒ³æ­»|è‡ªæ€|ç»“æŸç”Ÿå‘½|ä¸æƒ³æ´»)"
        CRITICAL SUICIDAL_IDEATION "zh" true 1.0;
      CrisisPattern.make
        "(æ´»ä¸ä¸‹åŽ»|ç”Ÿä¸å¦‚æ­»|æ²¡æœ‰å¸Œæœ›)"
        HIGH HOPELESSNESS "zh" true 1.0;
      CrisisPattern.make
        "(ç»æœ›|æ’‘ä¸ä¸‹åŽ»|å´©æºƒ)"
        MODERATE HOPELESSNESS "zh" true 1.0 ]);
    ("de", [
      CrisisPattern.make
        "\b(ich\s+will\s+sterben|selbstmord|mich\s+umbringen|mich\s+tÃ¶ten)\b"
        CRITICAL SUICIDAL_IDEATION "de" true 1.0;
      CrisisPattern.make
        "\b(keinen\s+grund\s+zu\s+leben|hoffnungslos|verzweifelt)\b"
        HIGH HOPELESSNESS "de" true 1.0 ]);
    ("pt", [
      CrisisPattern.make
        "\b(quero\s+morrer|me\s+matar|suicidar|tirar\s+minha\s+vida)\b"
        CRITICAL SUICIDAL_IDEATION "pt" true 1.0;
      CrisisPattern.make
        "\b(nÃ£o\s+aguento\s+mais|sem\s+esperanÃ§a|desesperado)\b"
        MODERATE HOPELESSNESS "pt" true 1.0 ]);
    ("ja", [
      CrisisPattern.make
        "(æ­»ã«ãŸã„|è‡ªæ®º|æ¶ˆãˆãŸã„|çµ‚ã‚ã‚Šã«ã—ãŸã„)"
        CRITICAL SUICIDAL_IDEATION "ja" true 1.0;
      CrisisPattern.make
        "(ç”Ÿãã‚‹æ„å‘³ãŒãªã„|å¸Œæœ›ãŒãªã„|çµ¶æœ›)"
        HIGH HOPELESSNESS "ja" true 1.0 ]);
    ("ar", [
      CrisisPattern.make
        "(Ø£Ø±ÙŠØ¯ Ø£Ù† Ø£Ù…ÙˆØª|Ø§Ù†ØªØ­Ø§Ø±|Ø£Ù‚ØªÙ„ Ù†ÙØ³ÙŠ)"
        CRITICAL SUICIDAL_IDEATION "ar" true 1.0;
      CrisisPattern.make
        "(Ù„Ø§ Ø£Ù…Ù„|ÙŠØ§Ø¦Ø³|Ù„Ø§ Ø£Ø³ØªØ·ÙŠØ¹ Ø§Ù„Ø§Ø³ØªÙ…Ø±Ø§Ø±)"
        HIGH HOPELESSNESS "ar" true 1.0 ]);
    ("it", [
      CrisisPattern.make
        "\b(voglio\s+morire|suicidarmi|uccidermi|farla\s+finita)\b"
        CRITICAL SUICIDAL_IDEATION "it" true 1.0;
      CrisisPattern.make
        "\b(non\s+ce\s+la\s+faccio|disperato|senza\s+speranza)\b"
        MODERATE HOPELESSNESS "it" true 1.0 ]);
    ("ko", [
      CrisisPattern.make
        "(ì£½ê³ \s*ì‹¶|ìžì‚´|ì‚¶ì„\s*ëë‚´ê³ \s*ì‹¶)"
        CRITICAL SUICIDAL_IDEATION "ko" true 1.0;
      CrisisPattern.make
        "(í¬ë§ì´\s*ì—†|ì ˆë§ì |ë”\s*ì´ìƒ\s*ëª»)"
        HIGH HOPELESSNESS "ko" true 1.0 ])
  ].

Definition get_false_positive_patterns : list string :=
  [ "deadline.*kill";
    "kill.*time";
    "die.*laugh";
    "die.*embarra";
    "die.*bored";
    "to\s+die\s+for";
    "drop[\s-]?dead";
    "kill.*game";
    "crush.*kill";
    "kill.*performan";
    "die.*hair";
    "battery.*die";
    "phone.*die" ].

End PatternDatabase.

(** ** Detectors *)

Module RegexDetector.

Definition patterns : gmap string (list CrisisPattern.t) :=
  PatternDatabase.get_patterns.

Definition false_positives : list string :=
  PatternDatabase.get_false_positive_patterns.

Definition compiled_false_positives : list re.Pattern :=
  List.map (fun p => re.compiled p true) false_positives.

Definition _is_false_positive `{PyRuntime} (text : ustr) : bool :=
  let text_lower := str_lower text in
  existsb (fun pattern => bool_decide (is_Some (re.search pattern text_lower)))
          compiled_false_positives.

Definition found `{PyRuntime} (src : string) (text : ustr) : bool :=
  bool_decide (is_Some (re.search (re.compiled src false) text)).

Definition _detect_language `{PyRuntime} (text : ustr) : string :=
  if found "[\u4e00-\u9fff]" text then "zh"
  else if found "[\u0600-\u06ff]" text then "ar"
  else if found "[\u3040-\u309f\u30a0-\u30ff]" text then "ja"
  else if found "[\uac00-\ud7af]" text then "ko"
  else "en".

(** The catalog consulted for a language: [self.patterns.get(language,
    self.patterns["en"])]. *)
Definition catalog (language : string) : list CrisisPattern.t :=
  match patterns !! language with
  | Some ps => ps
  | None => default [] (patterns !! "en")
  end.

(** The loop over the catalog: every pattern that matches, with its
    match, in catalog order. *)
Definition matched_patterns `{PyRuntime} (ps : list CrisisPattern.t) (text : ustr)
    : list (CrisisPattern.t * (nat * ustr)) :=
  List.flat_map
    (fun pattern =>
       match re.search (re.compiled (CrisisPattern.pattern pattern) true) text with
       | Some mt => [(pattern, mt)]
       | None => []
       end) ps.

(** [latency_ms] is the elapsed time the call measures with
    [time.time()]; [context] is accepted and not used. *)
Definition detect `{PyRuntime} (latency_ms : float) (text : ustr)
    (context : option (list ustr)) : CrisisDetectionResult.t :=
  if _is_false_positive text then
    {| CrisisDetectionResult.severity := NONE;
       CrisisDetectionResult.confidence := 0.95;
       CrisisDetectionResult.indicators := [u "false_positive"];
       CrisisDetectionResult.categories := ∅;
       CrisisDetectionResult.requires_resources := false;
       CrisisDetectionResult.recommended_action := PROCEED;
       CrisisDetectionResult.detection_method := "regex_false_positive";
       CrisisDetectionResult.latency_ms := latency_ms;
       CrisisDetectionResult.language := "en";
       CrisisDetectionResult.context_modifier := None;
       CrisisDetectionResult.reasoning := None;
       CrisisDetectionResult.cache_hit := false |}
  else
    let language := _detect_language text in
    let patterns := catalog language in
    match matched_patterns patterns text with
    | [] =>
      {| CrisisDetectionResult.severity := NONE;
         CrisisDetectionResult.confidence := 0.90;
         CrisisDetectionResult.indicators := [];
         CrisisDetectionResult.categories := ∅;
         CrisisDetectionResult.requires_resources := false;
         CrisisDetectionResult.recommended_action := PROCEED;
         CrisisDetectionResult.detection_method := "regex_no_match";
         CrisisDetectionResult.latency_ms := latency_ms;
         CrisisDetectionResult.language := language;
         CrisisDetectionResult.context_modifier := None;
         CrisisDetectionResult.reasoning := None;
         CrisisDetectionResult.cache_hit := false |}
    | first :: rest =>
      let matched := first :: rest in
      let max_severity :=
        py_max sev_gt (CrisisPattern.severity (fst first))
               (List.map (fun pm => CrisisPattern.severity (fst pm)) rest) in
      let categories : gset CrisisCategory :=
        list_to_set (List.map (fun pm => CrisisPattern.category (fst pm)) matched) in
      let indicators :=
        List.map (fun pm => re.group (snd pm)) (List.firstn 5 matched) in
      let base_confidence :=
        py_min 0.95 (0.6 + float_of_nat (List.length matched) * 0.15) in
      let weighted_confidence :=
        (base_confidence *
         py_max float_gt (CrisisPattern.confidence_weight (fst first))
                (List.map (fun pm => CrisisPattern.confidence_weight (fst pm)) rest))%float in
      let '(action, requires_resources) :=
        if sev_ge max_severity HIGH then (INTERRUPT, true)
        else if decide (max_severity = MODERATE) then (MONITOR, false)
        else (PROCEED, false) in
      {| CrisisDetectionResult.severity := max_severity;
         CrisisDetectionResult.confidence := weighted_confidence;
         CrisisDetectionResult.indicators := indicators;
         CrisisDetectionResult.categories := categories;
         CrisisDetectionResult.requires_resources := requires_resources;
         CrisisDetectionResult.recommended_action := action;
         CrisisDetectionResult.detection_method := "regex_" +:+ language;
         CrisisDetectionResult.latency_ms := latency_ms;
         CrisisDetectionResult.language := language;
         CrisisDetectionResult.context_modifier := None;
         CrisisDetectionResult.reasoning := None;
         CrisisDetectionResult.cache_hit := false |}
    end.


End RegexDetector.


Module MLDetector.

(** What a call to the ML service comes to: its answer,
    [asyncio.TimeoutError], or any other exception. *)
Inductive reply (A : Type) :=
| Returned (a : A)
| TimedOut
| Failed.
Arguments Returned {A} a.
Arguments TimedOut {A}.
Arguments Failed {A}.

(** The dictionaries the service answers with; a key that may be absent
    is an option. *)
Module Tier1.
Record t := {
  classification : option string;
  confidence : option float
}.
End Tier1.

Module Tier2.
Record t := {
  severity : option string;
  confidence : option float;
  reasoning : option string
}.
End Tier2.

(** The service behind [_tier1_screening] and [_tier2_analysis]. *)
Record Service := {
  _tier1_screening : reply Tier1.t;
  _tier2_analysis : reply Tier2.t
}.

(** The stubs of the repository. *)
Definition stub : Service :=
  {| _tier1_screening :=
       Returned {| Tier1.classification := Some "CONCERN";
                   Tier1.confidence := Some 0.75%float |};
     _tier2_analysis :=
       Returned {| Tier2.severity := Some "moderate";
                   Tier2.confidence := Some 0.82%float;
                   Tier2.reasoning :=
                     Some "User expressing distress but no immediate danger" |} |}.

(** What awaiting a detector task comes to. *)
Inductive outcome :=
| Done (r : CrisisDetectionResult.t)
| Raised.

Definition severity_map : gmap string CrisisSeverity :=
  list_to_map
    [("none", NONE); ("low", LOW); ("moderate", MODERATE);
     ("high", HIGH); ("critical", CRITICAL)].

Definition action_map : gmap string RecommendedAction :=
  list_to_map
    [("none", PROCEED); ("low", PROCEED); ("moderate", MONITOR);
     ("high", INTERRUPT); ("critical", INTERRUPT)].

Definition _convert_ml_result (ml_result : Tier2.t) (latency_ms : float)
    : CrisisDetectionResult.t :=
  let severity :=
    default NONE (severity_map !! default "none" (Tier2.severity ml_result)) in
  {| CrisisDetectionResult.severity := severity;
     CrisisDetectionResult.confidence := default 0.5%float (Tier2.confidence ml_result);
     CrisisDetectionResult.indicators := [];
     CrisisDetectionResult.categories := ∅;
     CrisisDetectionResult.requires_resources := sev_ge severity HIGH;
     CrisisDetectionResult.recommended_action :=
       default PROCEED (action_map !! default "none" (Tier2.severity ml_result));
     CrisisDetectionResult.detection_method := "ml_tier2";
     CrisisDetectionResult.latency_ms := latency_ms;
     CrisisDetectionResult.language := "en";
     CrisisDetectionResult.context_modifier := None;
     CrisisDetectionResult.reasoning := Tier2.reasoning ml_result;
     CrisisDetectionResult.cache_hit := false |}.

(** The result of the [except asyncio.TimeoutError] branch. *)
Definition timeout_fallback (latency_ms : float) : CrisisDetectionResult.t :=
  {| CrisisDetectionResult.severity := MODERATE;
     CrisisDetectionResult.confidence := 0.5;
     CrisisDetectionResult.indicators := [];
     CrisisDetectionResult.categories := ∅;
     CrisisDetectionResult.requires_resources := false;
     CrisisDetectionResult.recommended_action := MONITOR;
     CrisisDetectionResult.detection_method := "ml_timeout_fallback";
     CrisisDetectionResult.latency_ms := latency_ms;
     CrisisDetectionResult.language := "en";
     CrisisDetectionResult.context_modifier := None;
     CrisisDetectionResult.reasoning := None;
     CrisisDetectionResult.cache_hit := false |}.

Definition detect (service : Service) (latency_ms : float) : outcome :=
  match _tier1_screening service with
  | Returned tier1_result =>
      match Tier1.classification tier1_result with
      | None => Raised  (* KeyError *)
      | Some classification =>
          if String.eqb classification "SAFE" then
            Done
              {| CrisisDetectionResult.severity := NONE;
                 CrisisDetectionResult.confidence :=
                   default 0.85%float (Tier1.confidence tier1_result);
                 CrisisDetectionResult.indicators := [];
                 CrisisDetectionResult.categories := ∅;
                 CrisisDetectionResult.requires_resources := false;
                 CrisisDetectionResult.recommended_action := PROCEED;
                 CrisisDetectionResult.detection_method := "ml_tier1_safe";
                 CrisisDetectionResult.latency_ms := latency_ms;
                 CrisisDetectionResult.language := "en";
                 CrisisDetectionResult.context_modifier := None;
                 CrisisDetectionResult.reasoning := None;
                 CrisisDetectionResult.cache_hit := false |}
          else
            match _tier2_analysis service with
            | Returned tier2_result => Done (_convert_ml_result tier2_result latency_ms)
            | TimedOut => Done (timeout_fallback latency_ms)
            | Failed => Raised
            end
      end
  | TimedOut => Done (timeout_fallback latency_ms)
  | Failed => Raised
  end.

End MLDetector.

(** ** Cache manager *)

Module CacheManager.

Record t := {
  cache : gmap string (CrisisDetectionResult.t * Z);
  ttl : Z
}.

Definition new (ttl_seconds : Z) : t :=
  {| cache := ∅; ttl := seconds ttl_seconds |}.

(** [get]: the entry's result object is the one whose [cache_hit] is set,
    so the stored entry changes with it. *)
Definition get (self : t) (key : string) (now : Z)
    : option CrisisDetectionResult.t * t :=
  match cache self !! key with
  | Some (result, timestamp) =>
      if now - timestamp <? ttl self then
        let result' := CrisisDetectionResult.set_cache_hit true result in
        (Some result',
         {| cache := <[key := (result', timestamp)]> (cache self); ttl := ttl self |})
      else (None, {| cache := delete key (cache self); ttl := ttl self |})
  | None => (None, self)
  end.

Definition set (self : t) (key : string) (result : CrisisDetectionResult.t) (now : Z) : t :=
  {| cache := <[key := (result, now)]> (cache self); ttl := ttl self |}.

(** [sep.join(parts)] *)
Fixpoint join (sep : ustr) (parts : list ustr) : ustr :=
  match parts with
  | [] => []
  | [p] => p
  | p :: rest => p ++ sep ++ join sep rest
  end.

(** [l[-3:]] *)
Definition last3 {A : Type} (l : list A) : list A :=
  List.skipn (List.length l - 3) l.

Definition create_key (text : ustr) (context : option (list ustr)) : string :=
  let content :=
    match context with
    | Some (c :: cs) => text ++ u "|||" ++ join (u "|||") (last3 (c :: cs))
    | _ => text
    end in
  sha256.hexdigest (encode content).

End CacheManager.

(** ** Circuit breaker *)

Module CircuitBreaker.

Record t := {
  threshold : Z;
  window : Z;
  recovery : Z;
  states : gmap string UserCrisisState.t
}.

Definition new (threshold window_seconds recovery_seconds : Z) : t :=
  {| threshold := threshold; window := seconds window_seconds;
     recovery := seconds recovery_seconds; states := ∅ |}.

(** [self.states[user_id]], created on first reference. *)
Definition entry (self : t) (user_id : string) : UserCrisisState.t :=
  default (UserCrisisState.new user_id) (states self !! user_id).

Definition store (self : t) (user_id : string) (state : UserCrisisState.t) : t :=
  {| threshold := threshold self; window := window self;
     recovery := recovery self; states := <[user_id := state]> (states self) |}.

Definition record_crisis (self : t) (user_id : string) (severity : CrisisSeverity)
    (now : Z) : UserCrisisState.t * t :=
  let state := entry self user_id in
  (* Reset counter if outside window *)
  let outside :=
    match UserCrisisState.last_crisis_time state with
    | Some last => self.(window) <? now - last
    | None => false
    end in
  let crisis_count := if outside then 0 else UserCrisisState.crisis_count state in
  let severity_history := if outside then [] else UserCrisisState.severity_history state in
  (* Record new crisis *)
  let crisis_count := crisis_count + 1 in
  let last_crisis_time := now in
  let severity_history := severity_history ++ [severity] in
  (* Update circuit state *)
  let circuit :=
    if self.(threshold) <=? crisis_count then OPEN
    else if bool_decide (UserCrisisState.state state = OPEN)
            && (self.(recovery) <? now - last_crisis_time)
    then HALF_OPEN
    else UserCrisisState.state state in
  let state' :=
    {| UserCrisisState.user_id := UserCrisisState.user_id state;
       UserCrisisState.state := circuit;
       UserCrisisState.crisis_count := crisis_count;
       UserCrisisState.last_crisis_time := Some last_crisis_time;
       UserCrisisState.resources_shown_time := UserCrisisState.resources_shown_time state;
       UserCrisisState.post_crisis_messages := UserCrisisState.post_crisis_messages state;
       UserCrisisState.severity_history := severity_history |} in
  (state', store self user_id state').

(** [now] is read only when the state is OPEN and a crisis is on
    record. *)
Definition get_state (self : t) (user_id : string) (now : Z)
    : UserCrisisState.t * t :=
  let state := entry self user_id in
  let recovered :=
    match UserCrisisState.last_crisis_time state with
    | Some last =>
        bool_decide (UserCrisisState.state state = OPEN) && (self.(recovery) <? now - last)
    | None => false
    end in
  let state' :=
    if recovered then
      {| UserCrisisState.user_id := UserCrisisState.user_id state;
         UserCrisisState.state := HALF_OPEN;
         UserCrisisState.crisis_count := UserCrisisState.crisis_count state;
         UserCrisisState.last_crisis_time := UserCrisisState.last_crisis_time state;
         UserCrisisState.resources_shown_time := UserCrisisState.resources_shown_time state;
         UserCrisisState.post_crisis_messages := UserCrisisState.post_crisis_messages state;
         UserCrisisState.severity_history := UserCrisisState.severity_history state |}
    else state in
  (state', store self user_id state').

Definition reset (self : t) (user_id : string) : t :=
  match states self !! user_id with
  | Some _ => store self user_id (UserCrisisState.new user_id)
  | None => self
  end.

End CircuitBreaker.

(** ** Resource manager *)

Module ResourceManager.

Definition _load_resources : gmap string (list CrisisResource.t) :=
  list_to_map [
    ("US", [
      CrisisResource.make "988 Suicide & Crisis Lifeline"
        (Some "988") (Some "988")
        (Some "https://988lifeline.org")
        ["en"; "es"] [] 1;
      CrisisResource.make "Crisis Text Line"
        None (Some "HOME to 741741")
        (Some "https://crisistextline.org")
        ["en"] [] 2;
      CrisisResource.make "SAMHSA National Helpline"
        (Some "1-800-662-4357") None
        (Some "https://samhsa.gov")
        ["en"; "es"] [] 3;
      CrisisResource.make "National Domestic Violence Hotline"
        (Some "1-800-799-7233") (Some "START to 22522")
        (Some "https://thehotline.org")
        ["en"; "es"] ["domestic_violence"] 4;
      CrisisResource.make "LÃ­nea de Crisis Hispana"
        (Some "1-888-628-9454") None
        (Some "https://suicidioprevencion.org")
        ["es"] [] 5;
      CrisisResource.make "Asian LifeNet Hotline"
        (Some "1-877-990-8585") None
        (Some "https://aalp.org/lifenet")
        ["zh"; "ko"; "ja"; "hi"; "vi"; "en"] ["asian_community"] 6;
      CrisisResource.make "Mental Health Association for Chinese Communities"
        (Some "1-800-881-8502") None
        (Some "https://mhacc.org")
        ["zh"; "en"] ["chinese_community"] 7;
      CrisisResource.make "Trevor Lifeline"
        (Some "1-866-488-7386") (Some "START to 678678")
        (Some "https://thetrevorproject.org")
        ["en"; "es"] ["lgbtq"; "youth"] 8;
      CrisisResource.make "Trans Lifeline"
        (Some "1-877-565-8860") None
        (Some "https://translifeline.org")
        ["en"; "es"] ["transgender"] 9;
      CrisisResource.make "Veterans Crisis Line"
        (Some "1-800-273-8255") (Some "838255")
        (Some "https://veteranscrisisline.net")
        ["en"; "es"] ["veterans"] 10;
      CrisisResource.make "StrongHearts Native Helpline"
        (Some "1-844-762-8483") None
        (Some "https://strongheartshelpline.org")
        ["en"] ["native_american"; "domestic_violence"] 11 ]);
    ("GB", [
      CrisisResource.make "Samaritans"
        (Some "116 123") None
        (Some "https://samaritans.org")
        ["en"] [] 1;
      CrisisResource.make "Shout Crisis Text Line"
        None (Some "SHOUT to 85258")
        (Some "https://giveusashout.org")
        ["en"] [] 2 ]);
    ("UK", [
      CrisisResource.make "Samaritans"
        (Some "116 123") None
        (Some "https://samaritans.org")
        ["en"] [] 1;
      CrisisResource.make "Shout Crisis Text Line"
        None (Some "SHOUT to 85258")
        (Some "https://giveusashout.org")
        ["en"] [] 2 ]);
    ("CA", [
      CrisisResource.make "Talk Suicide Canada"
        (Some "1-833-456-4566") (Some "TALK to 45645")
        (Some "https://talksuicide.ca")
        ["en"; "fr"] [] 1;
      CrisisResource.make "Kids Help Phone"
        (Some "1-800-668-6868") (Some "CONNECT to 686868")
        (Some "https://kidshelpphone.ca")
        ["en"; "fr"] ["youth"] 2 ]);
    ("AU", [
      CrisisResource.make "Lifeline Australia"
        (Some "13 11 14") (Some "0477 13 11 14")
        (Some "https://lifeline.org.au")
        ["en"] [] 1 ]);
    ("FR", [
      CrisisResource.make "3114 - NumÃ©ro National de PrÃ©vention du Suicide"
        (Some "3114") None
        (Some "https://3114.fr")
        ["fr"] [] 1;
      CrisisResource.make "SOS AmitiÃ©"
        (Some "09 72 39 40 50") None
        (Some "https://sos-amitie.com")
        ["fr"] [] 2 ]);
    ("DE", [
      CrisisResource.make "Telefonseelsorge"
        (Some "0800 111 0 111") None
        (Some "https://telefonseelsorge.de")
        ["de"] [] 1;
      CrisisResource.make "Nummer gegen Kummer"
        (Some "116 111") None
        (Some "https://nummergegenkummer.de")
        ["de"] ["youth"; "parents"] 2 ]);
    ("ES", [
      CrisisResource.make "024 - LÃ­nea de AtenciÃ³n a la Conducta Suicida"
        (Some "024") None
        (Some "https://024.es")
        ["es"] [] 1;
      CrisisResource.make "TelÃ©fono de la Esperanza"
        (Some "717 003 717") None
        (Some "https://telefonodelaesperanza.org")
        ["es"] [] 2 ]);
    ("IT", [
      CrisisResource.make "Telefono Amico Italia"
        (Some "02 2327 2327") None
        (Some "https://telefonoamico.it")
        ["it"] [] 1 ]);
    ("NL", [
      CrisisResource.make "113 Zelfmoordpreventie"
        (Some "113") None
        (Some "https://113.nl")
        ["nl"] [] 1 ]);
    ("BE", [
      CrisisResource.make "Centre de PrÃ©vention du Suicide"
        (Some "0800 32 123") None
        (Some "https://preventionsuicide.be")
        ["fr"; "nl"] [] 1 ]);
    ("AT", [
      CrisisResource.make "Telefonseelsorge Ã–sterreich"
        (Some "142") None
        (Some "https://telefonseelsorge.at")
        ["de"] [] 1 ]);
    ("CH", [
      CrisisResource.make "Die Dargebotene Hand"
        (Some "143") None
        (Some "https://143.ch")
        ["de"; "fr"; "it"] [] 1 ]);
    ("IE", [
      CrisisResource.make "Samaritans Ireland"
        (Some "116 123") None
        (Some "https://samaritans.ie")
        ["en"] [] 1 ]);
    ("SE", [
      CrisisResource.make "Mind SjÃ¤lvmordslinjen"
        (Some "90101") None
        (Some "https://mind.se")
        ["sv"] [] 1 ]);
    ("DK", [
      CrisisResource.make "Kirkens SOS"
        (Some "70 201 201") None
        (Some "https://kirkens-sos.dk")
        ["da"] [] 1 ]);
    ("NO", [
      CrisisResource.make "Mental Helse"
        (Some "116 123") None
        (Some "https://mentalhelse.no")
        ["no"] [] 1 ]);
    ("FI", [
      CrisisResource.make "Crisis Line"
        (Some "09 2525 0111") None
        (Some "https://mieli.fi")
        ["fi"; "sv"] [] 1 ]);
    ("PL", [
      CrisisResource.make "Fundacja ITAKA"
        (Some "22 654 11 11") None
        (Some "https://itaka.org.pl")
        ["pl"] [] 1 ]);
    ("CZ", [
      CrisisResource.make "Linka bezpeÄÃ­"
        (Some "116 111") None
        (Some "https://linkabezpeci.cz")
        ["cs"] ["youth"] 1 ]);
    ("HU", [
      CrisisResource.make "KÃ©k Vonal"
        (Some "116 123") None
        (Some "https://kek-vonal.hu")
        ["hu"] [] 1 ]);
    ("JP", [
      CrisisResource.make "TELL Lifeline"
        (Some "03-5774-0992") None
        (Some "https://telljp.com")
        ["en"; "ja"] [] 1 ]);
    ("KR", [
      CrisisResource.make "Korea Suicide Prevention Center"
        (Some "1393") None
        (Some "https://spckorea.or.kr")
        ["ko"] [] 1 ]);
    ("IN", [
      CrisisResource.make "AASRA"
        (Some "91-22-27546669") None
        (Some "https://aasra.info")
        ["en"; "hi"] [] 1 ]);
    ("SG", [
      CrisisResource.make "Samaritans of Singapore"
        (Some "1767") None
        (Some "https://sos.org.sg")
        ["en"] [] 1 ]);
    ("NZ", [
      CrisisResource.make "Lifeline Aotearoa"
        (Some "0800 543 354") (Some "HELP to 4357")
        (Some "https://lifeline.org.nz")
        ["en"] [] 1 ]);
    ("MX", [
      CrisisResource.make "LÃ­nea de la Vida"
        (Some "800 911 2000") None
        (Some "https://lineadelavida.gob.mx")
        ["es"] [] 1 ]);
    ("BR", [
      CrisisResource.make "Centro de ValorizaÃ§Ã£o da Vida"
        (Some "188") None
        (Some "https://cvv.org.br")
        ["pt"] [] 1 ]);
    ("AR", [
      CrisisResource.make "Centro de Asistencia al Suicida"
        (Some "135") None
        (Some "https://casbuenosaires.com.ar")
        ["es"] [] 1 ])
  ].

(** [list.sort(key=lambda x: x.priority)]: stable. *)
Fixpoint insert_by_priority (x : CrisisResource.t) (l : list CrisisResource.t)
    : list CrisisResource.t :=
  match l with
  | [] => [x]
  | y :: rest =>
      if CrisisResource.priority x <=? CrisisResource.priority y
      then x :: y :: rest
      else y :: insert_by_priority x rest
  end.

Definition sort_by_priority (l : list CrisisResource.t) : list CrisisResource.t :=
  List.fold_right insert_by_priority [] l.

(** The order of the sort. *)
Definition by_priority (a b : CrisisResource.t) : Prop :=
  CrisisResource.priority a <= CrisisResource.priority b.

Definition speaks (language : string) (r : CrisisResource.t) : bool :=
  bool_decide (language ∈ CrisisResource.languages r)
  || bool_decide ("en" ∈ CrisisResource.languages r).

Definition get_resources (resources : gmap string (list CrisisResource.t))
    (country_code language : string) (severity : CrisisSeverity)
    : list CrisisResource.t :=
  let country :=
    match resources !! country_code with
    | Some l => l
    | None => default [] (resources !! "US")
    end in
  let filtered := List.filter (speaks language) country in
  let sorted := sort_by_priority filtered in
  let limit := if sev_ge severity HIGH then 3%nat else 2%nat in
  List.firstn limit sorted.

Definition templates : gmap string (list (CrisisSeverity * string)) :=
  list_to_map
    [("en",
      [(CRITICAL, "I'm very concerned about your safety. Please reach out for immediate support:");
       (HIGH, "I hear you're in pain. Please consider reaching out for support:");
       (MODERATE, "If you're feeling overwhelmed, support is available:")]);
     ("es",
      [(CRITICAL, "Estoy muy preocupado por tu seguridad. Por favor busca apoyo inmediato:");
       (HIGH, "Escucho que estÃ¡s sufriendo. Por favor considera buscar apoyo:");
       (MODERATE, "Si te sientes abrumado, hay apoyo disponible:")])].

Definition intro_for (table : list (CrisisSeverity * string)) (severity : CrisisSeverity)
    : string :=
  match List.find (fun e => bool_decide (fst e = severity)) table with
  | Some e => snd e
  | None => "Support is available:"
  end.

Definition resource_lines (resource : CrisisResource.t) : list string :=
  ["â€¢ " +:+ CrisisResource.name resource]
  ++ match CrisisResource.phone resource with
     | Some p => if String.eqb p "" then [] else ["  ðŸ“ž Call: " +:+ p]
     | None => []
     end
  ++ match CrisisResource.text resource with
     | Some p => if String.eqb p "" then [] else ["  ðŸ’¬ Text: " +:+ p]
     | None => []
     end
  ++ match CrisisResource.web resource with
     | Some p => if String.eqb p "" then [] else ["  ðŸŒ Web: " +:+ p]
     | None => []
     end
  ++ [""].

Definition format_resources (resources : list CrisisResource.t)
    (severity : CrisisSeverity) (language : string) : string :=
  let table :=
    match templates !! language with
    | Some tb => tb
    | None => default [] (templates !! "en")
    end in
  let intro := intro_for table severity in
  String.concat newline ([intro; ""] ++ List.concat (List.map resource_lines resources)).

End ResourceManager.

(** ** Analytics *)

Module AnalyticsLogger.

Module Event.
Record t := {
  timestamp : Z;
  user_hash : string;
  severity : string;
  confidence : float;
  categories : gset CrisisCategory;
  action : string;
  detection_method : string;
  language : string;
  latency_ms : float;
  cache_hit : bool;
  message_excerpt : ustr
}.
End Event.

Module Metrics.
Record t := {
  total_detections : Z;
  crisis_detections : Z;
  false_positives : Z;
  cache_hits : Z;
  avg_latency_ms : float;
  detections_by_severity : gmap string Z
}.
End Metrics.

Record t := {
  events : list Event.t;       (* a deque: oldest first *)
  buffer_size : nat;
  metrics : Metrics.t
}.

Definition new (buffer_size : nat) : t :=
  {| events := []; buffer_size := buffer_size;
     metrics :=
       {| Metrics.total_detections := 0; Metrics.crisis_detections := 0;
          Metrics.false_positives := 0; Metrics.cache_hits := 0;
          Metrics.avg_latency_ms := 0;
          Metrics.detections_by_severity :=
            list_to_map (List.map (fun s => (label s, 0))
                                  [NONE; LOW; MODERATE; HIGH; CRITICAL]) |} |}.

(** [deque(maxlen=n).append(x)] *)
Definition deque_append {A : Type} (maxlen : nat) (d : list A) (x : A) : list A :=
  let d' := d ++ [x] in
  List.skipn (List.length d' - maxlen) d'.

Definition _update_metrics (m : Metrics.t) (result : CrisisDetectionResult.t)
    : Metrics.t :=
  let n := Metrics.total_detections m + 1 in
  {| Metrics.total_detections := n;
     Metrics.crisis_detections :=
       if sev_ge (CrisisDetectionResult.severity result) MODERATE
       then Metrics.crisis_detections m + 1 else Metrics.crisis_detections m;
     Metrics.false_positives := Metrics.false_positives m;
     Metrics.cache_hits :=
       if CrisisDetectionResult.cache_hit result
       then Metrics.cache_hits m + 1 else Metrics.cache_hits m;
     Metrics.avg_latency_ms :=
       ((Metrics.avg_latency_ms m * float_of_nat (Z.to_nat (n - 1))
         + CrisisDetectionResult.latency_ms result)
        / float_of_nat (Z.to_nat n))%float;
     Metrics.detections_by_severity :=
       alter Z.succ (label (CrisisDetectionResult.severity result))
             (Metrics.detections_by_severity m) |}.

Definition log_detection (self : t) (user_id : string)
    (result : CrisisDetectionResult.t) (message_excerpt : ustr) (now : Z) : t :=
  let user_hash :=
    String.substring 0 16 (sha256.hexdigest (bytes_of_string user_id)) in
  let event :=
    {| Event.timestamp := now;
       Event.user_hash := user_hash;
       Event.severity := label (CrisisDetectionResult.severity result);
       Event.confidence := CrisisDetectionResult.confidence result;
       Event.categories := CrisisDetectionResult.categories result;
       Event.action := action_value (CrisisDetectionResult.recommended_action result);
       Event.detection_method := CrisisDetectionResult.detection_method result;
       Event.language := CrisisDetectionResult.language result;
       Event.latency_ms := CrisisDetectionResult.latency_ms result;
       Event.cache_hit := CrisisDetectionResult.cache_hit result;
       Event.message_excerpt := List.firstn 100 message_excerpt |} in
  {| events := deque_append (buffer_size self) (events self) event;
     buffer_size := buffer_size self;
     metrics := _update_metrics (metrics self) result |}.

Definition get_metrics (self : t) : Metrics.t := metrics self.

End AnalyticsLogger.

(** ** Main supervisor *)

(** The response dictionaries; a key that may be absent is an option. *)
Module Response.

Record Detection := {
  severity : string;
  confidence : option float;
  action : string;
  categories : option (gset CrisisCategory);
  latency_ms : option float;
  cache_hit : option bool;
  method : option string;
  reasoning : option string;
  bypassed_analysis : option bool
}.

Record Resource := {
  name : string;
  phone : option string;
  text : option string;
  web : option string
}.

Record t := {
  detection : Detection;
  resources : option (list Resource);
  message : option string;
  circuit_state : string;      (* [user_state.circuit_state] *)
  metrics : option AnalyticsLogger.Metrics.t
}.

Definition of_resource (r : CrisisResource.t) : Resource :=
  {| name := CrisisResource.name r; phone := CrisisResource.phone r;
     text := CrisisResource.text r; web := CrisisResource.web r |}.

End Response.

Module CrisisDetectionSupervisor.

(** The configuration dictionary; an absent key is [None].  The key
    [ml_config] only sets the timeouts of the ML stages, which are part of
    the service's behaviour here ([MLDetector.Service]). *)
Record Config := {
  cache_ttl : option Z;
  circuit_threshold : option Z;
  circuit_window : option Z;
  cfg_enable_ml : option bool;
  cfg_target_latency_ms : option Z
}.

Definition no_config : Config :=
  {| cache_ttl := None; circuit_threshold := None; circuit_window := None;
     cfg_enable_ml := None; cfg_target_latency_ms := None |}.

Record t := {
  cache_manager : CacheManager.t;
  circuit_breaker : CircuitBreaker.t;
  resource_manager : gmap string (list CrisisResource.t);
  analytics : AnalyticsLogger.t;
  enable_ml : bool;
  target_latency_ms : Z
}.

Definition new (config : Config) : t :=
  {| cache_manager := CacheManager.new (default 300 (cache_ttl config));
     circuit_breaker :=
       CircuitBreaker.new (default 3 (circuit_threshold config))
                          (default 1800 (circuit_window config)) 900;
     resource_manager := ResourceManager._load_resources;
     analytics := AnalyticsLogger.new 100;
     enable_ml := default true (cfg_enable_ml config);
     target_latency_ms := default 300 (cfg_target_latency_ms config) |}.

(** What one request meets outside the program: the clock, the
    scheduler and the ML service. *)
Record Env := {
  (* readings of [datetime.now()], by the call that takes them *)
  now_state : Z;       (* [get_state] at the start of [detect] *)
  now_bypass : Z;      (* [should_bypass_analysis] *)
  now_cache : Z;       (* [cache_manager.get] *)
  now_store : Z;       (* [cache_manager.set] *)
  now_log : Z;         (* [analytics.log_detection] *)
  now_record : Z;      (* [record_crisis] *)
  now_response : Z;    (* [get_state] while the response is built *)
  (* elapsed times measured with [time.time()], in milliseconds *)
  regex_latency_ms : float;
  ml_latency_ms : float;
  latency_ms : float;
  (* the tasks [asyncio.wait] reports done at the deadline
     ([target_latency_ms]); the others are cancelled *)
  regex_done : bool;
  ml_done : bool;
  ml_service : MLDetector.Service
}.

(** The component calls a request makes, in order: what an observer of
    the detectors, the cache, the breaker, the logger and the resolver
    sees of it. *)
Inductive Call :=
| GetState
| CacheGet
| RegexDetect
| MLDetect
| CacheSet
| LogDetection
| RecordCrisis
| GetResources.

(** [x or d] on an optional string. *)
Definition str_or (x : option string) (d : string) : string :=
  match x with
  | Some s => if String.eqb s "" then d else s
  | None => d
  end.

Definition _create_fallback_result : CrisisDetectionResult.t :=
  {| CrisisDetectionResult.severity := MODERATE;
     CrisisDetectionResult.confidence := 0.5;
     CrisisDetectionResult.indicators := [];
     CrisisDetectionResult.categories := ∅;
     CrisisDetectionResult.requires_resources := false;
     CrisisDetectionResult.recommended_action := MONITOR;
     CrisisDetectionResult.detection_method := "fallback";
     CrisisDetectionResult.latency_ms := 0;
     CrisisDetectionResult.language := "en";
     CrisisDetectionResult.context_modifier := None;
     CrisisDetectionResult.reasoning := None;
     CrisisDetectionResult.cache_hit := false |}.

(** [[r for r in results if "ml" in r.detection_method]] *)
Definition ml_results (results : list CrisisDetectionResult.t)
    : list CrisisDetectionResult.t :=
  List.filter (fun r => contains "ml" (CrisisDetectionResult.detection_method r)) results.

Definition _fuse_results (results : list CrisisDetectionResult.t)
    : CrisisDetectionResult.t :=
  match results with
  | [] => _create_fallback_result
  | first :: rest =>
    (* Get highest severity *)
    let max_severity :=
      py_max sev_gt (CrisisDetectionResult.severity first)
             (List.map CrisisDetectionResult.severity rest) in
    (* Get highest confidence *)
    let max_confidence :=
      py_max float_gt (CrisisDetectionResult.confidence first)
             (List.map CrisisDetectionResult.confidence rest) in
    (* Combine indicators and categories *)
    let all_indicators := List.concat (List.map CrisisDetectionResult.indicators results) in
    let all_categories : gset CrisisCategory :=
      List.fold_left (fun acc r => acc ∪ CrisisDetectionResult.categories r) results ∅ in
    (* ML override *)
    let '(max_severity, reasoning) :=
      match ml_results results with
      | ml0 :: _ =>
          if float_gt (CrisisDetectionResult.confidence ml0) 0.85
          then (CrisisDetectionResult.severity ml0, CrisisDetectionResult.reasoning ml0)
          else (max_severity, None)
      | [] => (max_severity, None)
      end in
    (* Determine action *)
    let '(action, requires_resources) :=
      if sev_ge max_severity HIGH then (INTERRUPT, true)
      else if decide (max_severity = MODERATE) then (MONITOR, false)
      else (PROCEED, false) in
    {| CrisisDetectionResult.severity := max_severity;
       CrisisDetectionResult.confidence := max_confidence;
       CrisisDetectionResult.indicators := List.firstn 5 all_indicators;
       CrisisDetectionResult.categories := all_categories;
       CrisisDetectionResult.requires_resources := requires_resources;
       CrisisDetectionResult.recommended_action := action;
       CrisisDetectionResult.detection_method := "fusion";
       CrisisDetectionResult.latency_ms := 0;
       CrisisDetectionResult.language := "en";
       CrisisDetectionResult.context_modifier := None;
       CrisisDetectionResult.reasoning := reasoning;
       CrisisDetectionResult.cache_hit := false |}
  end.

(** [results.append(await task)] when the task is in [done]: [None] when
    the await raises. *)
Definition awaited (done : bool) (task : MLDetector.outcome)
    : option (list CrisisDetectionResult.t) :=
  if done then
    match task with
    | MLDetector.Done r => Some [r]
    | MLDetector.Raised => None
    end
  else Some [].

(** The results gathered inside the [try]: [None] when it raises. *)
Definition gather `{PyRuntime} (env : Env) (text : ustr) (context : option (list ustr))
    : option (list CrisisDetectionResult.t) :=
  let regex_task :=
    MLDetector.Done (RegexDetector.detect (regex_latency_ms env) text context) in
  let ml_task := MLDetector.detect (ml_service env) (ml_latency_ms env) in
  match awaited (regex_done env) regex_task with
  | Some from_regex =>
      match awaited (ml_done env) ml_task with
      | Some from_ml => Some (from_regex ++ from_ml)
      | None => None
      end
  | None => None
  end.

(** The branch [if self.enable_ml:] of [detect]. *)
Definition run_tiers `{PyRuntime} (env : Env) (text : ustr) (context : option (list ustr))
    : CrisisDetectionResult.t :=
  match gather env text context with
  | Some [] => _create_fallback_result
  | Some results => _fuse_results results
  | None => _create_fallback_result
  end.

Definition with_breaker (self : t) (cb : CircuitBreaker.t) : t :=
  {| cache_manager := cache_manager self; circuit_breaker := cb;
     resource_manager := resource_manager self; analytics := analytics self;
     enable_ml := enable_ml self; target_latency_ms := target_latency_ms self |}.

Definition with_cache (self : t) (cm : CacheManager.t) : t :=
  {| cache_manager := cm; circuit_breaker := circuit_breaker self;
     resource_manager := resource_manager self; analytics := analytics self;
     enable_ml := enable_ml self; target_latency_ms := target_latency_ms self |}.

Definition with_analytics (self : t) (an : AnalyticsLogger.t) : t :=
  {| cache_manager := cache_manager self; circuit_breaker := circuit_breaker self;
     resource_manager := resource_manager self; analytics := an;
     enable_ml := enable_ml self; target_latency_ms := target_latency_ms self |}.

Definition _create_crisis_response (self : t) (user_id : string)
    (severity : CrisisSeverity) (country_code language : string) (bypassed : bool)
    (now : Z) : Response.t * t * list Call :=
  let resources :=
    ResourceManager.get_resources (resource_manager self) country_code language severity in
  let message := ResourceManager.format_resources resources severity language in
  let '(state, cb) := CircuitBreaker.get_state (circuit_breaker self) user_id now in
  ({| Response.detection :=
        {| Response.severity := label severity;
           Response.confidence := None;
           Response.action := action_value INTERRUPT;
           Response.categories := None;
           Response.latency_ms := None;
           Response.cache_hit := None;
           Response.method := None;
           Response.reasoning := None;
           Response.bypassed_analysis := Some bypassed |};
      Response.resources := Some (List.map Response.of_resource resources);
      Response.message := Some message;
      Response.circuit_state := state_value (UserCrisisState.state state);
      Response.metrics := None |},
   with_breaker self cb,
   [GetResources; GetState]).

Definition _format_response (self : t) (result : CrisisDetectionResult.t)
    (user_id country_code : string) (language : option string) (now : Z)
    : Response.t * t * list Call :=
  let lang := str_or language (CrisisDetectionResult.language result) in
  let resources :=
    ResourceManager.get_resources (resource_manager self) country_code lang
                                  (CrisisDetectionResult.severity result) in
  let needed := CrisisDetectionResult.requires_resources result in
  let '(state, cb) := CircuitBreaker.get_state (circuit_breaker self) user_id now in
  ({| Response.detection :=
        {| Response.severity := label (CrisisDetectionResult.severity result);
           Response.confidence := Some (CrisisDetectionResult.confidence result);
           Response.action := action_value (CrisisDetectionResult.recommended_action result);
           Response.categories := Some (CrisisDetectionResult.categories result);
           Response.latency_ms := Some (CrisisDetectionResult.latency_ms result);
           Response.cache_hit := Some (CrisisDetectionResult.cache_hit result);
           Response.method := Some (CrisisDetectionResult.detection_method result);
           Response.reasoning :=
             match CrisisDetectionResult.reasoning result with
             | Some s => if String.eqb s "" then None else Some s
             | None => None
             end;
           Response.bypassed_analysis := None |};
      Response.resources :=
        if needed then Some (List.map Response.of_resource resources) else None;
      Response.message :=
        if needed
        then Some (ResourceManager.format_resources
                     resources (CrisisDetectionResult.severity result) lang)
        else None;
      Response.circuit_state := state_value (UserCrisisState.state state);
      Response.metrics := Some (AnalyticsLogger.get_metrics (analytics self)) |},
   with_breaker self cb,
   (if needed then [GetResources] else []) ++ [GetState]).

Definition prefixed (calls : list Call) (r : Response.t * t * list Call)
    : Response.t * t * list Call :=
  (r.1.1, r.1.2, calls ++ r.2).

Definition detect `{PyRuntime} (self : t) (text : ustr) (user_id : string)
    (context : option (list ustr)) (country_code : string)
    (language : option string) (env : Env) : Response.t * t * list Call :=
  (* Check circuit breaker *)
  let '(user_state, cb) :=
    CircuitBreaker.get_state (circuit_breaker self) user_id (now_state env) in
  let self := with_breaker self cb in
  if UserCrisisState.should_bypass_analysis user_state 30 (now_bypass env) then
    (* Go straight to resources *)
    prefixed [GetState]
      (_create_crisis_response self user_id HIGH country_code (str_or language "en")
                               true (now_response env))
  else
    (* Check cache *)
    let cache_key := CacheManager.create_key text context in
    let '(cached_result, cm) :=
      CacheManager.get (cache_manager self) cache_key (now_cache env) in
    let self := with_cache self cm in
    match cached_result with
    | Some cached =>
        let self :=
          with_analytics self
            (AnalyticsLogger.log_detection (analytics self) user_id cached text
                                           (now_log env)) in
        prefixed [GetState; CacheGet; LogDetection]
          (_format_response self cached user_id country_code language (now_response env))
    | None =>
        (* Run detection (parallel if ML enabled) *)
        let final_result :=
          if enable_ml self then run_tiers env text context
          else RegexDetector.detect (regex_latency_ms env) text context in
        let tiers := if enable_ml self then [RegexDetect; MLDetect] else [RegexDetect] in
        (* Update latency *)
        let final_result :=
          CrisisDetectionResult.set_latency_ms (latency_ms env) final_result in
        (* Cache result *)
        let self :=
          with_cache self
            (CacheManager.set (cache_manager self) cache_key final_result (now_store env)) in
        (* Log analytics *)
        let self :=
          with_analytics self
            (AnalyticsLogger.log_detection (analytics self) user_id final_result text
                                           (now_log env)) in
        (* Record crisis if detected *)
        let crisis := sev_ge (CrisisDetectionResult.severity final_result) MODERATE in
        let self :=
          if crisis then
            with_breaker self
              (CircuitBreaker.record_crisis (circuit_breaker self) user_id
                 (CrisisDetectionResult.severity final_result) (now_record env)).2
          else self in
        prefixed ([GetState; CacheGet] ++ tiers ++ [CacheSet; LogDetection]
                  ++ (if crisis then [RecordCrisis] else []))
          (_format_response self final_result user_id country_code language
                            (now_response env))
    end.

(** The test of the first [if] of [detect]: the state read at the start
    of the request mandates bypass. *)
Definition bypasses (self : t) (user_id : string) (env : Env) : bool :=
  UserCrisisState.should_bypass_analysis
    (CircuitBreaker.get_state (circuit_breaker self) user_id (now_state env)).1
    30 (now_bypass env).


(** The decision computed on a cache miss, before its latency is set. *)
Definition decided `{PyRuntime} (self : t) (text : ustr) (context : option (list ustr))
    (env : Env) : CrisisDetectionResult.t :=
  if enable_ml self then run_tiers env text context
  else RegexDetector.detect (regex_latency_ms env) text context.




End CrisisDetectionSupervisor.

Import CrisisDetectionSupervisor.

(** ** Example inputs *)

(** A request all of whose clock readings fall on second [t]; the tasks
    done at the deadline and the ML service are as given. *)
Definition env_at (t : Z) (regex_done ml_done : bool) (service : MLDetector.Service)
    : Env :=
  {| now_state := seconds t; now_bypass := seconds t; now_cache := seconds t;
     now_store := seconds t; now_log := seconds t; now_record := seconds t;
     now_response := seconds t;
     regex_latency_ms := 1; ml_latency_ms := 300; latency_ms := 301;
     regex_done := regex_done; ml_done := ml_done; ml_service := service |}.

(** The regex task is done at the deadline, the ML task (the stub of the
    repository) is still pending. *)
Definition regex_only_env (t : Z) : Env := env_at t true false MLDetector.stub.

(** A fresh supervisor with the default configuration, after one, two and
    three requests of one user, ten seconds apart, each of moderate
    severity. *)
Definition after_first : t :=
  (detect (new no_config) (u "I can't cope") "user1" None "US" None
          (regex_only_env 0)).1.2.

Definition after_second : t :=
  (detect after_first (u "there is no way out") "user1" None "US" None
          (regex_only_env 10)).1.2.

Definition after_third : t :=
  (detect after_second (u "I'm at my breaking point") "user1" None "US" None
          (regex_only_env 20)).1.2.

(** An ML service whose contextual stage is confident that a message is
    of low severity. *)
Definition confident_low : MLDetector.Tier2.t :=
  {| MLDetector.Tier2.severity := Some "low";
     MLDetector.Tier2.confidence := Some 0.9%float;
     MLDetector.Tier2.reasoning := Some "quoting a song lyric" |}.

Definition confident_service : MLDetector.Service :=
  {| MLDetector._tier1_screening :=
       MLDetector.Returned {| MLDetector.Tier1.classification := Some "CONCERN";
                              MLDetector.Tier1.confidence := Some 0.75%float |};
     MLDetector._tier2_analysis := MLDetector.Returned confident_low |}.

(** A user after three crises, the last at second 100. *)
Definition tripped (state : CircuitState) : UserCrisisState.t :=
  {| UserCrisisState.user_id := "user1"; UserCrisisState.state := state;
     UserCrisisState.crisis_count := 3;
     UserCrisisState.last_crisis_time := Some (seconds 100);
     UserCrisisState.resources_shown_time := None;
     UserCrisisState.post_crisis_messages := 0;
     UserCrisisState.severity_history := [MODERATE; HIGH; MODERATE] |}.

(** ** Well-formed results and reachable supervisors *)

(** The action that goes with a severity: the rule that
    [RegexDetector.detect] and [_fuse_results] apply, and the table of
    [_convert_ml_result]. *)
Definition action_for (s : CrisisSeverity) : RecommendedAction :=
  if sev_ge s HIGH then INTERRUPT
  else if decide (s = MODERATE) then MONITOR
  else PROCEED.

(** A result whose action and resource flag follow its severity. *)
Definition consistent (r : CrisisDetectionResult.t) : Prop :=
  CrisisDetectionResult.recommended_action r
  = action_for (CrisisDetectionResult.severity r)
  /\ CrisisDetectionResult.requires_resources r
     = sev_ge (CrisisDetectionResult.severity r) HIGH.

(** A breaker entry that keeps its books: the count is the length of the
    history, a crisis time is on record exactly when the count is not
    zero, and an entry without one is CLOSED. *)
Definition tracked (st : UserCrisisState.t) : Prop :=
  UserCrisisState.crisis_count st
  = Z.of_nat (List.length (UserCrisisState.severity_history st))
  /\ (UserCrisisState.last_crisis_time st = None <-> UserCrisisState.crisis_count st = 0)
  /\ (UserCrisisState.last_crisis_time st = None -> UserCrisisState.state st = CLOSED).

(** The counter of one severity in the metrics. *)
Definition count_of (m : AnalyticsLogger.Metrics.t) (s : CrisisSeverity) : Z :=
  default 0 (AnalyticsLogger.Metrics.detections_by_severity m !! label s).

(** Metrics that add up. *)
Definition balanced (m : AnalyticsLogger.Metrics.t) : Prop :=
  (forall s, is_Some (AnalyticsLogger.Metrics.detections_by_severity m !! label s)
             /\ 0 <= count_of m s)
  /\ AnalyticsLogger.Metrics.total_detections m
     = count_of m NONE + count_of m LOW + count_of m MODERATE
       + count_of m HIGH + count_of m CRITICAL
  /\ AnalyticsLogger.Metrics.crisis_detections m
     = count_of m MODERATE + count_of m HIGH + count_of m CRITICAL
  /\ 0 <= AnalyticsLogger.Metrics.cache_hits m
       <= AnalyticsLogger.Metrics.total_detections m
  /\ AnalyticsLogger.Metrics.false_positives m = 0.

(** The supervisors a program can hold: a new one, and what a call of
    [detect] leaves of a reachable one. *)
Inductive reachable `{PyRuntime} : t -> Prop :=
| reachable_new config : reachable (new config)
| reachable_detect self text user_id context country_code language env :
    reachable self ->
    reachable (detect self text user_id context country_code language env).1.2.

(** A breaker all of whose entries keep their books, each under the
    identifier it carries. *)
Definition well_kept (cb : CircuitBreaker.t) : Prop :=
  forall user,
    tracked (CircuitBreaker.entry cb user)
    /\ UserCrisisState.user_id (CircuitBreaker.entry cb user) = user.

(** A cache that holds consistent results only. *)
Definition cache_consistent (cm : CacheManager.t) : Prop :=
  forall key result timestamp,
    CacheManager.cache cm !! key = Some (result, timestamp) -> consistent result.

(** A stage that the ML detector consults times out: the screening, or
    the contextual stage after a screening that is not "SAFE". *)
Definition times_out (service : MLDetector.Service) : Prop :=
  MLDetector._tier1_screening service = MLDetector.TimedOut
  \/ (exists tier1 classification,
        MLDetector._tier1_screening service = MLDetector.Returned tier1
        /\ MLDetector.Tier1.classification tier1 = Some classification
        /\ classification <> "SAFE"
        /\ MLDetector._tier2_analysis service = MLDetector.TimedOut).

(** * Properties *)

(** ** Generalities *)

Lemma sev_gt_spec (a b : CrisisSeverity) : sev_gt a b = true <-> level b < level a.
Proof. unfold sev_gt. apply Z.ltb_lt. Qed.

Lemma sev_ge_spec (a b : CrisisSeverity) : sev_ge a b = true <-> level b <= level a.
Proof. unfold sev_ge. apply Z.leb_le. Qed.

(** [max] over severities is the mathematical maximum: an element of the
    list that bounds every element. *)
Lemma py_max_sev_fold (xs : list CrisisSeverity) (x : CrisisSeverity) :
  let m := py_max sev_gt x xs in
  In m (x :: xs) /\ forall y, In y (x :: xs) -> level y <= level m.
Proof.
  unfold py_max. revert x. induction xs as [|a xs IH]; intros x; simpl.
  - split; [now left|]. intros y [->|[]]. lia.
  - specialize (IH (if sev_gt a x then a else x)).
    simpl in IH. destruct IH as [Hin Hmax]. split.
    + destruct Hin as [Hm|Hm]; [|now right; right].
      rewrite <- Hm. destruct (sev_gt a x); [right; now left | now left].
    + intros y Hy.
      assert (Hx : level x <= level (if sev_gt a x then a else x)).
      { destruct (sev_gt a x) eqn:E; [apply sev_gt_spec in E|]; lia. }
      assert (Ha : level a <= level (if sev_gt a x then a else x)).
      { destruct (sev_gt a x) eqn:E; [lia|].
        unfold sev_gt in E. apply Z.ltb_ge in E. lia. }
      pose proof (Hmax _ (or_introl eq_refl)) as H0.
      destruct Hy as [->|[->|Hy]]; [lia | lia | apply Hmax; now right].
Qed.


(** The settings of a supervisor built without configuration; the
    recovery period is 900 seconds whatever the configuration. *)
Lemma default_settings :
  CircuitBreaker.threshold (circuit_breaker (new no_config)) = 3
  /\ CircuitBreaker.window (circuit_breaker (new no_config)) = seconds 1800
  /\ CacheManager.ttl (cache_manager (new no_config)) = seconds 300
  /\ enable_ml (new no_config) = true
  /\ forall config, CircuitBreaker.recovery (circuit_breaker (new config)) = seconds 900.
Proof. repeat split. Qed.

(** ** The three ways through [detect] *)

Lemma detect_bypass `{PyRuntime} self text user_id context country_code language env :
  bypasses self user_id env = true ->
  detect self text user_id context country_code language env =
  prefixed [GetState]
    (_create_crisis_response
       (with_breaker self
          (CircuitBreaker.get_state (circuit_breaker self) user_id (now_state env)).2)
       user_id HIGH country_code (str_or language "en") true (now_response env)).
Proof.
  unfold bypasses, detect. intros Hb.
  destruct (CircuitBreaker.get_state _ _ _) as [user_state cb]. simpl in *.
  now rewrite Hb.
Qed.





(** ** Total tier failure *)





(** ** The pattern matcher *)

(** Every pattern of the program is inside the fragment of [re] modelled
    here: [re.compiled] never falls back. *)
Lemma patterns_compile :
  forallb (fun src => bool_decide (is_Some (re.compile src true)))
    (RegexDetector.false_positives
     ++ List.map CrisisPattern.pattern
          (List.concat (List.map snd (map_to_list RegexDetector.patterns))))
  = true
  /\ forallb (fun src => bool_decide (is_Some (re.compile src false)))
       ["[\u4e00-\u9fff]"; "[\u0600-\u06ff]"; "[\u3040-\u309f\u30a0-\u30ff]";
        "[\uac00-\ud7af]"] = true.
Proof. split; vm_compute; reflexivity. Qed.

Lemma is_false_positive_spec `{PyRuntime} text :
  RegexDetector._is_false_positive text = true <->
  exists p, In p RegexDetector.compiled_false_positives
            /\ is_Some (re.search p (str_lower text)).
Proof.
  unfold RegexDetector._is_false_positive. rewrite existsb_exists.
  split; intros (p & Hin & Hp); exists p; split; auto.
  - now apply bool_decide_eq_true in Hp.
  - now apply bool_decide_eq_true.
Qed.

(** C3.  A text that matches at least one false-positive filter pattern
    gets severity none with confidence 0.95 from the pattern matcher,
    whatever else it contains: the check comes before the language is
    detected and before any catalog pattern is tried. *)
Theorem false_positive_short_circuit `{PyRuntime} latency text context :
  (exists p, In p RegexDetector.compiled_false_positives
             /\ is_Some (re.search p (str_lower text))) ->
  let r := RegexDetector.detect latency text context in
  CrisisDetectionResult.severity r = NONE
  /\ CrisisDetectionResult.confidence r = 0.95%float
  /\ CrisisDetectionResult.detection_method r = "regex_false_positive"
  /\ CrisisDetectionResult.recommended_action r = PROCEED
  /\ CrisisDetectionResult.requires_resources r = false.
Proof.
  intros Hfp. apply is_false_positive_spec in Hfp.
  unfold RegexDetector.detect. rewrite Hfp. simpl. auto.
Qed.

Lemma false_positive_short_circuit_witness :
  let text := u "This deadline is killing me, I want to kill myself" in
  (* a critical-severity pattern of the catalog matches the text *)
  is_Some (re.search
             (re.compiled "\b(kill\s+myself|end\s+my\s+life|commit\s+suicide|take\s+my\s+life)\b" true)
             text)
  /\ CrisisDetectionResult.severity (RegexDetector.detect 1 text None) = NONE
  /\ CrisisDetectionResult.confidence (RegexDetector.detect 1 text None) = 0.95%float.
Proof.
  split; [vm_compute; eauto|].
  assert (Hfp : exists p, In p RegexDetector.compiled_false_positives
             /\ is_Some (re.search p
                  (str_lower (u "This deadline is killing me, I want to kill myself")))).
  { exists (re.compiled "deadline.*kill" true). split; [now left|vm_compute; eauto]. }
  pose proof (false_positive_short_circuit 1
                (u "This deadline is killing me, I want to kill myself") None Hfp) as W.
  cbv zeta in W. destruct W as (Hs & Hc & _). auto.
Defined.

(** ** The ML result converter *)

(** C10.  A tier-2 result whose severity label is none of the five known
    labels is converted to severity none, action proceed, no resources
    required. *)
Theorem unknown_label_least_escalating ml_result latency lbl :
  MLDetector.Tier2.severity ml_result = Some lbl ->
  ~ In lbl ["none"; "low"; "moderate"; "high"; "critical"] ->
  let r := MLDetector._convert_ml_result ml_result latency in
  CrisisDetectionResult.severity r = NONE
  /\ CrisisDetectionResult.recommended_action r = PROCEED
  /\ CrisisDetectionResult.requires_resources r = false.
Proof.
  intros Hs Hnot.
  assert (Hsev : MLDetector.severity_map !! lbl = None).
  { apply not_elem_of_list_to_map_1. rewrite list_elem_of_In. exact Hnot. }
  assert (Hact : MLDetector.action_map !! lbl = None).
  { apply not_elem_of_list_to_map_1. rewrite list_elem_of_In. exact Hnot. }
  unfold MLDetector._convert_ml_result. simpl. rewrite Hs. simpl.
  rewrite Hsev, Hact. simpl. auto.
Qed.

Lemma unknown_label_least_escalating_witness :
  let ml_result :=
    {| MLDetector.Tier2.severity := Some "severe";
       MLDetector.Tier2.confidence := Some 0.99%float;
       MLDetector.Tier2.reasoning := Some "explicit plan and means" |} in
  let r := MLDetector._convert_ml_result ml_result 250 in
  CrisisDetectionResult.severity r = NONE
  /\ CrisisDetectionResult.recommended_action r = PROCEED
  /\ CrisisDetectionResult.requires_resources r = false.
Proof.
  apply (unknown_label_least_escalating
           {| MLDetector.Tier2.severity := Some "severe";
              MLDetector.Tier2.confidence := Some 0.99%float;
              MLDetector.Tier2.reasoning := Some "explicit plan and means" |}
           250 "severe" eq_refl).
  simpl. intuition discriminate.
Defined.

(** ** The circuit breaker *)

(** C6.  Recovery: for a user whose circuit state is OPEN and whose last
    recorded crisis is older than the recovery period, the next
    [get_state] returns (and stores) a state that is HALF_OPEN, the other
    fields unchanged. *)
Theorem recovery_self_healing cb user_id st last now :
  CircuitBreaker.states cb !! user_id = Some st ->
  UserCrisisState.state st = OPEN ->
  UserCrisisState.last_crisis_time st = Some last ->
  CircuitBreaker.recovery cb < now - last ->
  let st' := (CircuitBreaker.get_state cb user_id now).1 in
  let cb' := (CircuitBreaker.get_state cb user_id now).2 in
  UserCrisisState.state st' = HALF_OPEN
  /\ CircuitBreaker.states cb' !! user_id = Some st'
  /\ UserCrisisState.crisis_count st' = UserCrisisState.crisis_count st
  /\ UserCrisisState.last_crisis_time st' = Some last
  /\ UserCrisisState.severity_history st' = UserCrisisState.severity_history st.
Proof.
  intros Hst Hopen Hlast Hrec.
  unfold CircuitBreaker.get_state, CircuitBreaker.entry. rewrite Hst. simpl.
  rewrite Hlast, Hopen. simpl.
  apply Z.ltb_lt in Hrec. rewrite Hrec. simpl.
  rewrite lookup_insert_eq. auto.
Qed.

Lemma recovery_self_healing_witness :
  UserCrisisState.state
    (CircuitBreaker.get_state
       (CircuitBreaker.store (CircuitBreaker.new 3 1800 900) "user1" (tripped OPEN))
       "user1" (seconds 1001)).1
  = HALF_OPEN.
Proof.
  refine (proj1 (recovery_self_healing _ "user1" (tripped OPEN) (seconds 100)
                   (seconds 1001) _ eq_refl eq_refl _)).
  - reflexivity.
  - vm_compute. reflexivity.
Defined.

(** C5, as the code has it.  For a user whose circuit state is HALF_OPEN
    the bypass check answers false exactly when no crisis is on record,
    or the last one is at least [window_minutes] old, or fewer than three
    crises are counted; with three or more crises and the last one inside
    the window, a HALF_OPEN user is still bypassed. *)
Theorem half_open_bypass st window_minutes now :
  UserCrisisState.state st = HALF_OPEN ->
  (UserCrisisState.should_bypass_analysis st window_minutes now = false <->
   (UserCrisisState.last_crisis_time st = None
    \/ exists last,
         UserCrisisState.last_crisis_time st = Some last
         /\ (minutes window_minutes <= now - last
             \/ UserCrisisState.crisis_count st < 3))).
Proof.
  intros Hhalf. unfold UserCrisisState.should_bypass_analysis.
  rewrite Hhalf. destruct (decide (HALF_OPEN = OPEN)) as [E|_]; [discriminate|].
  destruct (UserCrisisState.last_crisis_time st) as [last|].
  - destruct (now - last <? minutes window_minutes) eqn:Hw.
    + apply Z.ltb_lt in Hw. rewrite Z.leb_gt. split.
      * intros Hc. right. exists last. split; [reflexivity|]. now right.
      * intros [Hn|(l & Hl & [Hge|Hc])]; [discriminate | | ].
        -- inversion Hl; subst. lia.
        -- exact Hc.
    + apply Z.ltb_ge in Hw. split; [|reflexivity].
      intros _. right. exists last. split; [reflexivity|]. now left.
  - split; [|reflexivity]. intros _. now left.
Qed.

Lemma half_open_bypass_witness :
  UserCrisisState.should_bypass_analysis (tripped HALF_OPEN) 30 (minutes 32) = false.
Proof.
  refine (proj2 (half_open_bypass (tripped HALF_OPEN) 30 (minutes 32) eq_refl) _).
  right. exists (seconds 100). split; [reflexivity|]. left. vm_compute. discriminate.
Defined.

(** C5 as stated fails: three crises open the circuit; sixteen minutes
    after the last one [get_state] moves the user to HALF_OPEN, and the
    bypass check still answers true. *)
Lemma half_open_user_bypassed :
  let cb0 := CircuitBreaker.new 3 1800 900 in
  let cb1 := (CircuitBreaker.record_crisis cb0 "user1" MODERATE (seconds 0)).2 in
  let cb2 := (CircuitBreaker.record_crisis cb1 "user1" MODERATE (seconds 60)).2 in
  let cb3 := (CircuitBreaker.record_crisis cb2 "user1" HIGH (seconds 120)).2 in
  let st := (CircuitBreaker.get_state cb3 "user1" (minutes 18)).1 in
  UserCrisisState.state st = HALF_OPEN
  /\ UserCrisisState.should_bypass_analysis st 30 (minutes 18) = true.
Proof. vm_compute. split; reflexivity. Qed.

(** One [record_crisis] inside the rolling window. *)
Lemma record_crisis_in_window cb user_id severity now :
  match UserCrisisState.last_crisis_time (CircuitBreaker.entry cb user_id) with
  | Some last => now - last <= CircuitBreaker.window cb
  | None => True
  end ->
  let old := CircuitBreaker.entry cb user_id in
  let st := (CircuitBreaker.record_crisis cb user_id severity now).1 in
  let cb' := (CircuitBreaker.record_crisis cb user_id severity now).2 in
  UserCrisisState.crisis_count st = UserCrisisState.crisis_count old + 1
  /\ UserCrisisState.severity_history st
     = UserCrisisState.severity_history old ++ [severity]
  /\ UserCrisisState.last_crisis_time st = Some now
  /\ CircuitBreaker.states cb' !! user_id = Some st
  /\ (CircuitBreaker.threshold cb <= UserCrisisState.crisis_count st ->
      UserCrisisState.state st = OPEN).
Proof.
  intros Hwin. unfold CircuitBreaker.record_crisis. simpl.
  assert (Hout :
    match UserCrisisState.last_crisis_time (CircuitBreaker.entry cb user_id) with
    | Some last => CircuitBreaker.window cb <? now - last
    | None => false
    end = false).
  { destruct (UserCrisisState.last_crisis_time _); [|reflexivity].
    apply Z.ltb_ge. exact Hwin. }
  rewrite Hout. rewrite lookup_insert_eq. repeat split.
  intros Hth. apply Z.leb_le in Hth. now rewrite Hth.
Qed.

(** A bypassed request: straight to resources. *)
Lemma bypassed_request `{PyRuntime} self text user_id context country_code language env :
  bypasses self user_id env = true ->
  let out := detect self text user_id context country_code language env in
  let d := Response.detection out.1.1 in
  Response.severity d = "high"
  /\ Response.action d = "interrupt"
  /\ Response.bypassed_analysis d = Some true
  /\ Response.resources out.1.1
     = Some (List.map Response.of_resource
               (ResourceManager.get_resources (resource_manager self) country_code
                  (str_or language "en") HIGH))
  /\ out.2 = [GetState; GetResources; GetState]
  /\ cache_manager out.1.2 = cache_manager self
  /\ analytics out.1.2 = analytics self.
Proof.
  intros Hb. cbv zeta. rewrite (detect_bypass _ _ _ _ _ _ _ Hb).
  unfold _create_crisis_response, prefixed.
  match goal with
  | |- context [CircuitBreaker.get_state ?a ?b (now_response env)] =>
      destruct (CircuitBreaker.get_state a b (now_response env)) as [state cb]
  end.
  simpl. auto 10.
Qed.

(** Its outcome depends on the request only through the user, the
    country, the language and the three clock readings it takes. *)
Lemma bypassed_request_any `{PyRuntime} self text user_id context country_code language
    env text' context' env' :
  bypasses self user_id env = true ->
  now_state env' = now_state env ->
  now_bypass env' = now_bypass env ->
  now_response env' = now_response env ->
  detect self text' user_id context' country_code language env'
  = detect self text user_id context country_code language env.
Proof.
  intros Hb H1 H2 H3.
  rewrite (detect_bypass _ text _ _ _ _ _ Hb).
  rewrite (detect_bypass _ text' _ _ _ _ env').
  - now rewrite H1, H3.
  - unfold bypasses in *. now rewrite H1, H2.
Qed.

(** C4.  Breaker trip and bypass.  A [record_crisis] inside the rolling
    window increments the user's crisis count, appends the severity to
    the history and sets the last-crisis timestamp, and the state is OPEN
    as soon as the count reaches the threshold.  A [detect] for which the
    bypass condition holds goes straight to resources with severity high,
    marked as bypassed: its only component calls are the state reads and
    the resource lookup (no cache lookup, no detector), it leaves the
    cache and the analytics as they were, and its outcome is the same for
    every text, context, scheduling and ML service. *)
Theorem breaker_trip_and_bypass `{PyRuntime} cb user_id severity now
    self text context country_code language env :
  (match UserCrisisState.last_crisis_time (CircuitBreaker.entry cb user_id) with
   | Some last => now - last <= CircuitBreaker.window cb
   | None => True
   end ->
   let old := CircuitBreaker.entry cb user_id in
   let st := (CircuitBreaker.record_crisis cb user_id severity now).1 in
   let cb' := (CircuitBreaker.record_crisis cb user_id severity now).2 in
   UserCrisisState.crisis_count st = UserCrisisState.crisis_count old + 1
   /\ UserCrisisState.severity_history st
      = UserCrisisState.severity_history old ++ [severity]
   /\ UserCrisisState.last_crisis_time st = Some now
   /\ CircuitBreaker.states cb' !! user_id = Some st
   /\ (CircuitBreaker.threshold cb <= UserCrisisState.crisis_count st ->
       UserCrisisState.state st = OPEN))
  /\
  (bypasses self user_id env = true ->
   let out := detect self text user_id context country_code language env in
   let d := Response.detection out.1.1 in
   Response.severity d = "high"
   /\ Response.action d = "interrupt"
   /\ Response.bypassed_analysis d = Some true
   /\ Response.resources out.1.1
      = Some (List.map Response.of_resource
                (ResourceManager.get_resources (resource_manager self) country_code
                   (str_or language "en") HIGH))
   /\ out.2 = [GetState; GetResources; GetState]
   /\ cache_manager out.1.2 = cache_manager self
   /\ analytics out.1.2 = analytics self
   /\ (forall text' context' env',
         now_state env' = now_state env ->
         now_bypass env' = now_bypass env ->
         now_response env' = now_response env ->
         detect self text' user_id context' country_code language env' = out)).
Proof.
  split.
  - apply record_crisis_in_window.
  - intros Hb.
    pose proof (bypassed_request self text user_id context country_code language env Hb)
      as Hout.
    cbv zeta in *. destruct Hout as (H1 & H2 & H3 & H4 & H5 & H6 & H7).
    repeat (split; [assumption|]).
    intros text' context' env'. now apply bypassed_request_any.
Qed.

Lemma breaker_trip_and_bypass_witness :
  UserCrisisState.state
    (CircuitBreaker.record_crisis (circuit_breaker after_second) "user1" MODERATE
       (seconds 20)).1 = OPEN
  /\ Response.severity
       (Response.detection
          (detect after_third (u "I'm at my breaking point") "user1" None "US" None
                  (regex_only_env 30)).1.1) = "high"
  /\ (detect after_third (u "I'm at my breaking point") "user1" None "US" None
             (regex_only_env 30)).2 = [GetState; GetResources; GetState].
Proof.
  destruct (breaker_trip_and_bypass (circuit_breaker after_second) "user1" MODERATE
              (seconds 20) after_third (u "I'm at my breaking point") None "US" None
              (regex_only_env 30)) as [W1 W2].
  cbv zeta in W1, W2.
  assert (H1 : match
            UserCrisisState.last_crisis_time
              (CircuitBreaker.entry (circuit_breaker after_second) "user1")
          with
          | Some last =>
              seconds 20 - last <= CircuitBreaker.window (circuit_breaker after_second)
          | None => True
          end) by (vm_compute; discriminate).
  assert (H2 : bypasses after_third "user1" (regex_only_env 30) = true)
    by (vm_compute; reflexivity).
  specialize (W1 H1). specialize (W2 H2).
  destruct W1 as (Hc & _ & _ & _ & Hopen).
  destruct W2 as (Hs & _ & _ & _ & Hcalls & _).
  split; [|split; assumption].
  apply Hopen. rewrite Hc. vm_compute. discriminate.
Defined.

(** ** The resource resolver *)

Lemma insert_by_priority_perm x l :
  Permutation (ResourceManager.insert_by_priority x l) (x :: l).
Proof.
  induction l as [|y l IH]; simpl; [reflexivity|].
  destruct (_ <=? _); [reflexivity|].
  rewrite IH. apply perm_swap.
Qed.

Lemma sort_by_priority_perm l : Permutation (ResourceManager.sort_by_priority l) l.
Proof.
  induction l as [|x l IH]; simpl; [reflexivity|].
  rewrite insert_by_priority_perm. now constructor.
Qed.

Lemma insert_by_priority_sorted x l :
  StronglySorted ResourceManager.by_priority l ->
  StronglySorted ResourceManager.by_priority (ResourceManager.insert_by_priority x l).
Proof.
  induction 1 as [|y l Hs IH Hall]; simpl.
  - repeat constructor.
  - destruct (CrisisResource.priority x <=? CrisisResource.priority y) eqn:E.
    + apply Z.leb_le in E. constructor; [now constructor|].
      constructor; [exact E|].
      eapply List.Forall_impl; [|exact Hall].
      unfold ResourceManager.by_priority. intros; lia.
    + apply Z.leb_gt in E. constructor; [exact IH|].
      eapply Permutation_Forall; [symmetry; apply insert_by_priority_perm|].
      constructor; [unfold ResourceManager.by_priority; lia | exact Hall].
Qed.

Lemma sort_by_priority_sorted l :
  StronglySorted ResourceManager.by_priority (ResourceManager.sort_by_priority l).
Proof.
  induction l as [|x l IH]; simpl; [constructor|].
  now apply insert_by_priority_sorted.
Qed.

Lemma in_firstn {A} (y : A) n l : In y (List.firstn n l) -> In y l.
Proof.
  intros Hy. rewrite <- (List.firstn_skipn n l). apply in_or_app. now left.
Qed.

Lemma firstn_strongly_sorted {A} (R : A -> A -> Prop) n l :
  StronglySorted R l -> StronglySorted R (List.firstn n l).
Proof.
  intros Hs. revert n. induction Hs as [|x l Hs IH Hall]; intros [|n]; simpl;
    try constructor.
  - apply IH.
  - rewrite List.Forall_forall in *. intros y Hy. apply Hall.
    eapply in_firstn. exact Hy.
Qed.

(** C9.  Resource resolution: whatever the country code, language and
    severity, the resolver returns resources of that country's list (the
    list of "US" when the code is unknown), each supporting the requested
    language or "en", in ascending order of priority, at most 3 of them
    when the severity is high or critical and at most 2 otherwise; they
    are the first entries of the filtered list sorted by priority. *)
Theorem resource_resolution resources country_code language severity :
  let country :=
    match resources !! country_code with
    | Some l => l
    | None => default [] (resources !! "US")
    end in
  let out := ResourceManager.get_resources resources country_code language severity in
  (forall r, In r out ->
     In r country
     /\ (In language (CrisisResource.languages r) \/ In "en" (CrisisResource.languages r)))
  /\ StronglySorted ResourceManager.by_priority out
  /\ (List.length out <= if sev_ge severity HIGH then 3 else 2)%nat
  /\ (exists rest,
        Permutation (out ++ rest)
          (List.filter (ResourceManager.speaks language) country)
        /\ forall a b, In a out -> In b rest ->
             CrisisResource.priority a <= CrisisResource.priority b).
Proof.
  cbv zeta. unfold ResourceManager.get_resources.
  set (country := match resources !! country_code with
                  | Some l => l
                  | None => default [] (resources !! "US")
                  end).
  set (filtered := List.filter (ResourceManager.speaks language) country).
  set (limit := if sev_ge severity HIGH then 3%nat else 2%nat).
  pose proof (sort_by_priority_sorted filtered) as Hsorted.
  pose proof (sort_by_priority_perm filtered) as Hperm.
  repeat split.
  - apply in_firstn in H. eapply Permutation_in in H; [|exact Hperm].
    apply List.filter_In in H. tauto.
  - apply in_firstn in H. eapply Permutation_in in H; [|exact Hperm].
    apply List.filter_In in H. destruct H as [_ H].
    unfold ResourceManager.speaks in H. apply orb_true_iff in H.
    destruct H as [H|H]; apply bool_decide_eq_true in H;
      apply list_elem_of_In in H; tauto.
  - now apply firstn_strongly_sorted.
  - apply List.firstn_le_length.
  - exists (List.skipn limit (ResourceManager.sort_by_priority filtered)). split.
    + rewrite List.firstn_skipn. exact Hperm.
    + intros a b Ha Hb.
      rewrite <- (List.firstn_skipn limit (ResourceManager.sort_by_priority filtered))
        in Hsorted.
      clear - Hsorted Ha Hb.
      induction (List.firstn limit (ResourceManager.sort_by_priority filtered))
        as [|x l IH]; [destruct Ha|].
      simpl in Hsorted. inversion Hsorted as [|? ? Hs Hall]; subst.
      destruct Ha as [->|Ha]; [|now apply IH].
      rewrite List.Forall_forall in Hall. apply Hall. apply in_or_app. now right.
Qed.

Example resources_for_us_spanish_high :
  List.map CrisisResource.priority
    (ResourceManager.get_resources ResourceManager._load_resources "US" "es" HIGH)
  = [1; 2; 3]
  /\ List.map CrisisResource.name
       (ResourceManager.get_resources ResourceManager._load_resources "ZZ" "fr" MODERATE)
     = ["988 Suicide & Crisis Lifeline"; "Crisis Text Line"].
Proof. split; vm_compute; reflexivity. Qed.

(** ** The decision fuser *)

(** What the fuser computes: the first result whose method contains "ml"
    decides, if its confidence is above 0.85; otherwise the maximum. *)
Lemma fuse_results_cons first rest :
  let results := first :: rest in
  let fused := _fuse_results results in
  let highest :=
    py_max sev_gt (CrisisDetectionResult.severity first)
           (List.map CrisisDetectionResult.severity rest) in
  match ml_results results with
  | ml0 :: _ =>
      if float_gt (CrisisDetectionResult.confidence ml0) 0.85 then
        CrisisDetectionResult.severity fused = CrisisDetectionResult.severity ml0
        /\ CrisisDetectionResult.reasoning fused = CrisisDetectionResult.reasoning ml0
      else
        CrisisDetectionResult.severity fused = highest
        /\ CrisisDetectionResult.reasoning fused = None
  | [] =>
      CrisisDetectionResult.severity fused = highest
      /\ CrisisDetectionResult.reasoning fused = None
  end.
Proof.
  cbv zeta. unfold _fuse_results.
  destruct (ml_results (first :: rest)) as [|ml0 others].
  - destruct (sev_ge _ HIGH); [auto|]. destruct (decide _); auto.
  - destruct (float_gt _ _).
    + destruct (sev_ge _ HIGH); [auto|]. destruct (decide _); auto.
    + destruct (sev_ge _ HIGH); [auto|]. destruct (decide _); auto.
Qed.

(** The action and the resource flag follow the fused severity. *)
Lemma fuse_results_action first rest :
  let fused := _fuse_results (first :: rest) in
  CrisisDetectionResult.recommended_action fused =
    (if sev_ge (CrisisDetectionResult.severity fused) HIGH then INTERRUPT
     else if decide (CrisisDetectionResult.severity fused = MODERATE) then MONITOR
     else PROCEED)
  /\ CrisisDetectionResult.requires_resources fused
     = sev_ge (CrisisDetectionResult.severity fused) HIGH
  /\ CrisisDetectionResult.detection_method fused = "fusion"
  /\ CrisisDetectionResult.cache_hit fused = false.
Proof.
  cbv zeta. unfold _fuse_results.
  destruct (ml_results (first :: rest)) as [|ml0 others];
    [|destruct (float_gt _ _)];
    (destruct (sev_ge _ HIGH) eqn:E1; simpl; [rewrite E1; auto|]);
    (destruct (decide _) as [E2|E2]; simpl; rewrite E1;
     destruct (decide _); try contradiction; auto).
Qed.

(** The override rule for any list that holds at most one result of the
    adaptive classifier. *)
Lemma fuse_at_most_one_ml results :
  results <> [] ->
  (List.length (ml_results results) <= 1)%nat ->
  let fused := _fuse_results results in
  (forall r,
     In r results ->
     contains "ml" (CrisisDetectionResult.detection_method r) = true ->
     float_gt (CrisisDetectionResult.confidence r) 0.85 = true ->
     CrisisDetectionResult.severity fused = CrisisDetectionResult.severity r
     /\ CrisisDetectionResult.reasoning fused = CrisisDetectionResult.reasoning r)
  /\
  ((forall r,
      In r results ->
      contains "ml" (CrisisDetectionResult.detection_method r) = true ->
      float_gt (CrisisDetectionResult.confidence r) 0.85 = false) ->
   In (CrisisDetectionResult.severity fused)
      (List.map CrisisDetectionResult.severity results)
   /\ forall r, In r results ->
        level (CrisisDetectionResult.severity r)
        <= level (CrisisDetectionResult.severity fused)).
Proof.
  intros Hne Hone. destruct results as [|first rest]; [contradiction|].
  pose proof (fuse_results_cons first rest) as Hf. cbv zeta in Hf. cbv zeta.
  assert (Hml : forall r, In r (first :: rest) ->
            contains "ml" (CrisisDetectionResult.detection_method r) = true ->
            In r (ml_results (first :: rest))).
  { intros r Hin Hm. apply List.filter_In. auto. }
  assert (Hmax : CrisisDetectionResult.severity (_fuse_results (first :: rest))
                 = py_max sev_gt (CrisisDetectionResult.severity first)
                          (List.map CrisisDetectionResult.severity rest) ->
            In (CrisisDetectionResult.severity (_fuse_results (first :: rest)))
               (List.map CrisisDetectionResult.severity (first :: rest))
            /\ forall r, In r (first :: rest) ->
                 level (CrisisDetectionResult.severity r)
                 <= level (CrisisDetectionResult.severity (_fuse_results (first :: rest)))).
  { intros ->.
    destruct (py_max_sev_fold (List.map CrisisDetectionResult.severity rest)
                (CrisisDetectionResult.severity first)) as [Hin Hle].
    split; [exact Hin|]. intros r Hr. apply Hle.
    change (In (CrisisDetectionResult.severity r)
               (List.map CrisisDetectionResult.severity (first :: rest))).
    now apply List.in_map. }
  destruct (ml_results (first :: rest)) as [|ml0 [|ml1 others]] eqn:Eml.
  - split.
    + intros r Hin Hm _. destruct (Hml r Hin Hm).
    + intros _. apply Hmax. apply Hf.
  - split.
    + intros r Hin Hm Hgt. destruct (Hml r Hin Hm) as [<-|[]].
      rewrite Hgt in Hf. exact Hf.
    + intros Hlow.
      assert (Hin0 : In ml0 (ml_results (first :: rest))) by (rewrite Eml; now left).
      apply List.filter_In in Hin0. destruct Hin0 as [Hin0 Hm0].
      rewrite (Hlow ml0 Hin0 Hm0) in Hf. apply Hmax. apply Hf.
  - simpl in Hone. lia.
Qed.

(** The methods of the pattern matcher's results never contain "ml";
    those of the ML detector's always do. *)
Lemma regex_method_not_ml `{PyRuntime} latency text context :
  contains "ml"
    (CrisisDetectionResult.detection_method (RegexDetector.detect latency text context))
  = false.
Proof.
  unfold RegexDetector.detect.
  destruct (RegexDetector._is_false_positive text); [reflexivity|].
  assert (Hlang : In (RegexDetector._detect_language text) ["zh"; "ar"; "ja"; "ko"; "en"]).
  { unfold RegexDetector._detect_language.
    repeat (destruct (RegexDetector.found _ text); [simpl; tauto|]). simpl; tauto. }
  destruct (RegexDetector.matched_patterns _ text) as [|first rest]; [reflexivity|].
  cbv zeta.
  destruct (sev_ge _ HIGH); [|destruct (decide _)]; simpl;
    destruct Hlang as [<-|[<-|[<-|[<-|[<-|[]]]]]]; reflexivity.
Qed.


Lemma ml_results_single r : (List.length (ml_results [r]) <= 1)%nat.
Proof. unfold ml_results. simpl. destruct (contains _ _); simpl; lia. Qed.

(** The lists the supervisor gives to the fuser hold at most one result
    of the adaptive classifier. *)
Lemma gathered_one_ml `{PyRuntime} env text context results :
  gather env text context = Some results ->
  (List.length (ml_results results) <= 1)%nat.
Proof.
  unfold gather, awaited. intros Hg.
  pose proof (regex_method_not_ml (regex_latency_ms env) text context) as Hr.
  destruct (regex_done env), (ml_done env);
    try (destruct (MLDetector.detect _ _) as [ml|]; [|discriminate]);
    injection Hg as <-.
  - unfold ml_results. simpl. rewrite Hr. apply ml_results_single.
  - unfold ml_results. simpl. rewrite Hr. simpl. lia.
  - apply ml_results_single.
  - simpl. lia.
Qed.

(** C7.  Fuser override rule, for every non-empty list of tier results
    that the supervisor gathers for the fuser.  If a result whose method
    marks it as the adaptive classifier's has confidence above 0.85, the
    fused severity and reasoning are that result's; if no such result
    exceeds 0.85, the fused severity is the maximum severity of the
    results. *)
Theorem fuser_override_rule `{PyRuntime} env text context results :
  gather env text context = Some results ->
  results <> [] ->
  let fused := _fuse_results results in
  (forall r,
     In r results ->
     contains "ml" (CrisisDetectionResult.detection_method r) = true ->
     float_gt (CrisisDetectionResult.confidence r) 0.85 = true ->
     CrisisDetectionResult.severity fused = CrisisDetectionResult.severity r
     /\ CrisisDetectionResult.reasoning fused = CrisisDetectionResult.reasoning r)
  /\
  ((forall r,
      In r results ->
      contains "ml" (CrisisDetectionResult.detection_method r) = true ->
      float_gt (CrisisDetectionResult.confidence r) 0.85 = false) ->
   In (CrisisDetectionResult.severity fused)
      (List.map CrisisDetectionResult.severity results)
   /\ forall r, In r results ->
        level (CrisisDetectionResult.severity r)
        <= level (CrisisDetectionResult.severity fused)).
Proof.
  intros Hg Hne. apply fuse_at_most_one_ml; [exact Hne|].
  eapply gathered_one_ml. exact Hg.
Qed.

Lemma fuser_override_rule_witness :
  let text := u "I want to kill myself" in
  let from_regex := RegexDetector.detect 1 text None in
  let from_ml := MLDetector._convert_ml_result confident_low 300 in
  gather (env_at 0 true true confident_service) text None = Some [from_regex; from_ml]
  /\ CrisisDetectionResult.severity from_regex = CRITICAL
  /\ CrisisDetectionResult.severity (_fuse_results [from_regex; from_ml]) = LOW
  /\ CrisisDetectionResult.reasoning (_fuse_results [from_regex; from_ml])
     = Some "quoting a song lyric".
Proof.
  cbv zeta.
  assert (Hg : gather (env_at 0 true true confident_service)
                 (u "I want to kill myself") None
               = Some [RegexDetector.detect 1 (u "I want to kill myself") None;
                       MLDetector._convert_ml_result confident_low 300])
    by (vm_compute; reflexivity).
  assert (Hne : [RegexDetector.detect 1 (u "I want to kill myself") None;
                 MLDetector._convert_ml_result confident_low 300] <> [])
    by discriminate.
  destruct (fuser_override_rule _ _ _ _ Hg Hne) as [W _].
  destruct (W (MLDetector._convert_ml_result confident_low 300)
              (or_intror (or_introl eq_refl)) eq_refl eq_refl) as [Hs Hr].
  split; [exact Hg|]. split; [vm_compute; reflexivity|].
  split; [rewrite Hs | rewrite Hr]; reflexivity.
Defined.

(** ** Critical phrases, end to end *)








(** The catalogs of the languages that [_detect_language] never answers
    are not consulted: a critical phrase of the Spanish catalog is matched
    against the English one. *)
Example spanish_phrase_not_detected :
  let text := u "quiero morir" in
  is_Some (re.search
             (re.compiled "\b(quiero\s+morir|matarme|suicidarme|quitarme\s+la\s+vida)\b" true)
             text)
  /\ RegexDetector._detect_language text = "en"
  /\ CrisisDetectionResult.severity (RegexDetector.detect 1 text None) = NONE.
Proof. vm_compute. split; [eauto | split; reflexivity]. Qed.

(** ** The result cache *)








(** The TTL runs from the creation of the entry, not from the call that
    reads it: a request that hits an entry 299 seconds old, repeated two
    seconds later, misses. *)
Example repeat_after_entry_expired :
  let text := u "hello" in
  let s1 := (detect (new no_config) text "user1" None "US" None (regex_only_env 0)).1.2 in
  let first := detect s1 text "user1" None "US" None (regex_only_env 299) in
  let second := detect first.1.2 text "user1" None "US" None (regex_only_env 301) in
  Response.cache_hit (Response.detection first.1.1) = Some true
  /\ Response.cache_hit (Response.detection second.1.1) = Some false.
Proof. vm_compute. split; reflexivity. Qed.

(** * More of the pipeline *)

(** ** The cache on its own *)

(** X1.  A result stored in the cache is what a lookup of its key within
    the TTL returns, with the cache-hit flag set; the flag is set on the
    stored entry too, and no other key is touched. *)
Theorem cache_set_then_get self key result now now' :
  now' - now < CacheManager.ttl self ->
  let stored := CacheManager.set self key result now in
  let hit := CrisisDetectionResult.set_cache_hit true result in
  (CacheManager.get stored key now').1 = Some hit
  /\ CacheManager.cache (CacheManager.get stored key now').2 !! key = Some (hit, now)
  /\ (forall key', key' <> key ->
        CacheManager.cache (CacheManager.get stored key now').2 !! key'
        = CacheManager.cache self !! key').
Proof.
  intros Hfresh. cbv zeta. unfold CacheManager.get, CacheManager.set. simpl.
  rewrite lookup_insert_eq. apply Z.ltb_lt in Hfresh. rewrite Hfresh. simpl.
  rewrite lookup_insert_eq. repeat split.
  intros key' Hne. rewrite !lookup_insert_ne by congruence. reflexivity.
Qed.

Lemma cache_set_then_get_witness :
  let stored := CacheManager.set (CacheManager.new 300) "key" _create_fallback_result 0 in
  (CacheManager.get stored "key" (seconds 299)).1
  = Some (CrisisDetectionResult.set_cache_hit true _create_fallback_result).
Proof.
  refine (proj1 (cache_set_then_get (CacheManager.new 300) "key" _create_fallback_result
                   0 (seconds 299) _)).
  reflexivity.
Defined.

(** X2.  A lookup misses exactly when the key is absent or its entry is at
    least as old as the TTL.  A miss leaves no entry under the key, so
    that every later lookup of it misses until a result is stored again;
    no lookup touches another key. *)
Theorem cache_miss_spec self key now :
  ((CacheManager.get self key now).1 = None <->
   CacheManager.cache self !! key = None
   \/ exists result timestamp,
        CacheManager.cache self !! key = Some (result, timestamp)
        /\ CacheManager.ttl self <= now - timestamp)
  /\ ((CacheManager.get self key now).1 = None ->
      CacheManager.cache (CacheManager.get self key now).2 !! key = None
      /\ forall now', (CacheManager.get (CacheManager.get self key now).2 key now').1 = None)
  /\ (forall key', key' <> key ->
        CacheManager.cache (CacheManager.get self key now).2 !! key'
        = CacheManager.cache self !! key').
Proof.
  unfold CacheManager.get.
  destruct (CacheManager.cache self !! key) as [[result ts]|] eqn:E.
  - destruct (now - ts <? CacheManager.ttl self) eqn:Ht; simpl.
    + apply Z.ltb_lt in Ht. repeat split.
      * discriminate.
      * intros [Hn|(r & t & Hs & Hle)]; [discriminate|]. inversion Hs; subst. lia.
      * discriminate.
      * discriminate.
      * intros key' Hne. now rewrite lookup_insert_ne by congruence.
    + apply Z.ltb_ge in Ht. repeat split.
      * intros _. right. eauto.
      * apply lookup_delete_eq.
      * intros now'. now rewrite lookup_delete_eq.
      * intros key' Hne. now rewrite lookup_delete_ne by congruence.
  - simpl. repeat split; auto.
    intros now'. now rewrite E.
Qed.

Lemma last3_app {A} (older recent : list A) :
  List.length recent = 3%nat -> CacheManager.last3 (older ++ recent) = recent.
Proof.
  intros Hlen. unfold CacheManager.last3.
  rewrite List.length_app, Hlen.
  replace (List.length older + 3 - 3)%nat with (List.length older + 0)%nat by lia.
  rewrite List.skipn_app, List.skipn_all2 by lia.
  replace (List.length older + 0 - List.length older)%nat with 0%nat by lia.
  reflexivity.
Qed.

(** X3.  The cache key depends on the text and on the last three messages
    of the context only: older messages do not enter, and an empty
    context gives the key of no context. *)
Theorem key_ignores_older_context text older recent :
  List.length recent = 3%nat ->
  CacheManager.create_key text (Some (older ++ recent))
  = CacheManager.create_key text (Some recent)
  /\ CacheManager.create_key text (Some []) = CacheManager.create_key text None.
Proof.
  intros Hlen. split; [|reflexivity].
  unfold CacheManager.create_key.
  assert (H3 : CacheManager.last3 recent = recent) by (apply (last3_app [] recent Hlen)).
  destruct recent as [|r0 recent']; [discriminate|].
  destruct (older ++ r0 :: recent') as [|c cs] eqn:E.
  - destruct older; discriminate.
  - rewrite <- E, last3_app, H3 by exact Hlen. reflexivity.
Qed.

Lemma key_ignores_older_context_witness :
  CacheManager.create_key (u "hi") (Some ([u "a"] ++ [u "b"; u "c"; u "d"]))
  = CacheManager.create_key (u "hi") (Some [u "b"; u "c"; u "d"]).
Proof.
  exact (proj1 (key_ignores_older_context (u "hi") [u "a"] [u "b"; u "c"; u "d"] eq_refl)).
Defined.

(** ** What [detect] does to the supervisor *)

(** The supervisor and the component calls that a request leaves, by the
    way it takes through [detect]. *)
Lemma detect_state `{PyRuntime} self text user_id context country_code language env :
  let cb1 := (CircuitBreaker.get_state (circuit_breaker self) user_id (now_state env)).2 in
  let key := CacheManager.create_key text context in
  let got := CacheManager.get (cache_manager self) key (now_cache env) in
  let out := detect self text user_id context country_code language env in
  let after cb := (CircuitBreaker.get_state cb user_id (now_response env)).2 in
  if bypasses self user_id env then
    out.1.2 = with_breaker self (after cb1)
    /\ out.2 = [GetState; GetResources; GetState]
  else
    match got.1 with
    | Some cached =>
        out.1.2 =
        {| cache_manager := got.2; circuit_breaker := after cb1;
           resource_manager := resource_manager self;
           analytics :=
             AnalyticsLogger.log_detection (analytics self) user_id cached text (now_log env);
           enable_ml := enable_ml self; target_latency_ms := target_latency_ms self |}
        /\ out.2 = [GetState; CacheGet; LogDetection]
                   ++ (if CrisisDetectionResult.requires_resources cached
                       then [GetResources] else [])
                   ++ [GetState]
    | None =>
        let final :=
          CrisisDetectionResult.set_latency_ms (latency_ms env)
            (decided self text context env) in
        let crisis := sev_ge (CrisisDetectionResult.severity final) MODERATE in
        out.1.2 =
        {| cache_manager := CacheManager.set got.2 key final (now_store env);
           circuit_breaker :=
             after (if crisis
                    then (CircuitBreaker.record_crisis cb1 user_id
                            (CrisisDetectionResult.severity final) (now_record env)).2
                    else cb1);
           resource_manager := resource_manager self;
           analytics :=
             AnalyticsLogger.log_detection (analytics self) user_id final text (now_log env);
           enable_ml := enable_ml self; target_latency_ms := target_latency_ms self |}
        /\ out.2 = [GetState; CacheGet]
                   ++ (if enable_ml self then [RegexDetect; MLDetect] else [RegexDetect])
                   ++ [CacheSet; LogDetection]
                   ++ (if crisis then [RecordCrisis] else [])
                   ++ (if CrisisDetectionResult.requires_resources final
                       then [GetResources] else [])
                   ++ [GetState]
    end.
Proof.
  cbv zeta. unfold bypasses, detect, decided.
  destruct (CircuitBreaker.get_state (circuit_breaker self) user_id (now_state env))
    as [user_state cb1]. cbn [fst snd].
  destruct (UserCrisisState.should_bypass_analysis user_state 30 (now_bypass env)).
  - unfold prefixed, _create_crisis_response. cbn [circuit_breaker with_breaker].
    destruct (CircuitBreaker.get_state cb1 user_id (now_response env)). simpl. auto.
  - cbn [cache_manager with_breaker].
    destruct (CacheManager.get (cache_manager self) _ _) as [[cached|] cm]; cbn [fst snd].
    + unfold prefixed, _format_response.
      cbn [circuit_breaker with_breaker with_analytics with_cache].
      destruct (CircuitBreaker.get_state cb1 user_id (now_response env)). simpl. auto.
    + unfold prefixed, _format_response.
      cbn [circuit_breaker cache_manager analytics enable_ml resource_manager
           target_latency_ms with_breaker with_analytics with_cache].
      destruct (sev_ge _ MODERATE);
        cbn [circuit_breaker cache_manager analytics enable_ml resource_manager
             target_latency_ms with_breaker with_analytics with_cache];
        match goal with
        | |- context [CircuitBreaker.get_state ?c user_id (now_response env)] =>
            destruct (CircuitBreaker.get_state c user_id (now_response env))
        end; cbn [fst snd app]; (split; [reflexivity|]);
        destruct (enable_ml self); reflexivity.
Qed.

(** ** The breaker on its own *)

Lemma entry_store cb user_id st user :
  CircuitBreaker.entry (CircuitBreaker.store cb user_id st) user
  = if decide (user = user_id) then st else CircuitBreaker.entry cb user.
Proof.
  unfold CircuitBreaker.entry, CircuitBreaker.store. simpl.
  destruct (decide (user = user_id)) as [->|Hne].
  - now rewrite lookup_insert_eq.
  - now rewrite lookup_insert_ne by congruence.
Qed.

Lemma get_state_entry cb user_id now :
  CircuitBreaker.entry (CircuitBreaker.get_state cb user_id now).2 user_id
  = (CircuitBreaker.get_state cb user_id now).1.
Proof.
  unfold CircuitBreaker.get_state. cbn [fst snd]. rewrite entry_store.
  destruct (decide (user_id = user_id)); [reflexivity|contradiction].
Qed.

Lemma record_crisis_entry cb user_id severity now :
  CircuitBreaker.entry (CircuitBreaker.record_crisis cb user_id severity now).2 user_id
  = (CircuitBreaker.record_crisis cb user_id severity now).1.
Proof.
  unfold CircuitBreaker.record_crisis. cbn [fst snd]. rewrite entry_store.
  destruct (decide (user_id = user_id)); [reflexivity|contradiction].
Qed.

Lemma get_state_other cb user_id now user :
  user <> user_id ->
  CircuitBreaker.states (CircuitBreaker.get_state cb user_id now).2 !! user
  = CircuitBreaker.states cb !! user.
Proof.
  intros Hne. unfold CircuitBreaker.get_state, CircuitBreaker.store. simpl.
  now rewrite lookup_insert_ne by congruence.
Qed.

Lemma record_crisis_other cb user_id severity now user :
  user <> user_id ->
  CircuitBreaker.states (CircuitBreaker.record_crisis cb user_id severity now).2 !! user
  = CircuitBreaker.states cb !! user.
Proof.
  intros Hne. unfold CircuitBreaker.record_crisis, CircuitBreaker.store. simpl.
  now rewrite lookup_insert_ne by congruence.
Qed.

(** The settings of a breaker never change. *)
Lemma breaker_settings cb user_id severity now :
  let settings b :=
    (CircuitBreaker.threshold b, CircuitBreaker.window b, CircuitBreaker.recovery b) in
  settings (CircuitBreaker.get_state cb user_id now).2 = settings cb
  /\ settings (CircuitBreaker.record_crisis cb user_id severity now).2 = settings cb
  /\ settings (CircuitBreaker.reset cb user_id) = settings cb.
Proof.
  cbv zeta. unfold CircuitBreaker.reset.
  destruct (CircuitBreaker.states cb !! user_id); repeat split.
Qed.

(** What [get_state] returns: the entry, HALF_OPEN instead of OPEN when
    the recovery period has passed since the last crisis. *)
Lemma get_state_fields cb user_id now :
  let before := CircuitBreaker.entry cb user_id in
  let st := (CircuitBreaker.get_state cb user_id now).1 in
  UserCrisisState.user_id st = UserCrisisState.user_id before
  /\ UserCrisisState.crisis_count st = UserCrisisState.crisis_count before
  /\ UserCrisisState.last_crisis_time st = UserCrisisState.last_crisis_time before
  /\ UserCrisisState.severity_history st = UserCrisisState.severity_history before
  /\ (UserCrisisState.state st = UserCrisisState.state before
      \/ (UserCrisisState.state before = OPEN /\ UserCrisisState.state st = HALF_OPEN
          /\ exists last, UserCrisisState.last_crisis_time before = Some last
                          /\ CircuitBreaker.recovery cb < now - last)).
Proof.
  cbv zeta. unfold CircuitBreaker.get_state. cbn [fst].
  destruct (UserCrisisState.last_crisis_time (CircuitBreaker.entry cb user_id))
    as [last|] eqn:El; [|rewrite El; auto 10].
  destruct (bool_decide _) eqn:Eo; cbn [andb]; [|rewrite El; auto 10].
  destruct (_ <? _) eqn:Er; [|rewrite El; auto 10].
  apply bool_decide_eq_true in Eo. apply Z.ltb_lt in Er. cbn.
  repeat split; auto. right. eauto 10.
Qed.

(** X4.  Resetting a user gives a fresh CLOSED entry that mandates no
    bypass at any time; it creates no entry for a user the breaker does
    not know, and touches no other user. *)
Theorem reset_forgets cb user_id :
  CircuitBreaker.entry (CircuitBreaker.reset cb user_id) user_id
  = UserCrisisState.new user_id
  /\ (CircuitBreaker.states cb !! user_id = None -> CircuitBreaker.reset cb user_id = cb)
  /\ (forall now now',
        UserCrisisState.should_bypass_analysis
          (CircuitBreaker.get_state (CircuitBreaker.reset cb user_id) user_id now).1 30 now'
        = false)
  /\ (forall user, user <> user_id ->
        CircuitBreaker.states (CircuitBreaker.reset cb user_id) !! user
        = CircuitBreaker.states cb !! user).
Proof.
  assert (He : CircuitBreaker.entry (CircuitBreaker.reset cb user_id) user_id
               = UserCrisisState.new user_id).
  { unfold CircuitBreaker.reset.
    destruct (CircuitBreaker.states cb !! user_id) eqn:E.
    - rewrite entry_store. destruct (decide (user_id = user_id)); [reflexivity|contradiction].
    - unfold CircuitBreaker.entry. now rewrite E. }
  split; [exact He|]. split; [|split].
  - intros Hn. unfold CircuitBreaker.reset. now rewrite Hn.
  - intros now now'. unfold CircuitBreaker.get_state. cbn [fst]. rewrite He. reflexivity.
  - intros user Hne. unfold CircuitBreaker.reset.
    destruct (CircuitBreaker.states cb !! user_id); [|reflexivity].
    unfold CircuitBreaker.store. simpl. now rewrite lookup_insert_ne by congruence.
Qed.

(** X5.  With a recovery period that is not negative, [record_crisis]
    never moves a user to HALF_OPEN: the state it leaves is OPEN when the
    new count reaches the threshold, and the state it found otherwise. *)
Theorem record_crisis_never_half_opens cb user_id severity now :
  0 <= CircuitBreaker.recovery cb ->
  let before := CircuitBreaker.entry cb user_id in
  let after := (CircuitBreaker.record_crisis cb user_id severity now).1 in
  UserCrisisState.state after
  = (if CircuitBreaker.threshold cb <=? UserCrisisState.crisis_count after
     then OPEN else UserCrisisState.state before)
  /\ (UserCrisisState.state after = HALF_OPEN -> UserCrisisState.state before = HALF_OPEN).
Proof.
  intros Hrec. cbv zeta. unfold CircuitBreaker.record_crisis. cbn.
  assert (Hdead : (CircuitBreaker.recovery cb <? now - now) = false)
    by (apply Z.ltb_ge; lia).
  rewrite Hdead, andb_false_r.
  split; [reflexivity|]. destruct (_ <=? _); [discriminate|auto].
Qed.

Lemma record_crisis_never_half_opens_witness :
  let cb := CircuitBreaker.store (CircuitBreaker.new 5 1800 900) "user1" (tripped HALF_OPEN) in
  UserCrisisState.state
    (CircuitBreaker.record_crisis cb "user1" MODERATE (seconds 2000)).1 = HALF_OPEN
  /\ UserCrisisState.state
       (CircuitBreaker.record_crisis
          (CircuitBreaker.store (CircuitBreaker.new 5 1800 900) "user1" (tripped OPEN))
          "user1" MODERATE (seconds 2000)).1 = OPEN.
Proof.
  cbv zeta. split.
  - destruct (record_crisis_never_half_opens
                (CircuitBreaker.store (CircuitBreaker.new 5 1800 900) "user1"
                   (tripped HALF_OPEN))
                "user1" MODERATE (seconds 2000)) as [Hs _]; [vm_compute; discriminate|].
    cbv zeta in Hs. rewrite Hs. vm_compute. reflexivity.
  - vm_compute. reflexivity.
Defined.

(** X6.  A crisis recorded after the window has lapsed restarts the count
    at one and the history at that crisis; the circuit state is not
    restarted with them. *)
Theorem window_lapse_restarts_count cb user_id severity now last :
  UserCrisisState.last_crisis_time (CircuitBreaker.entry cb user_id) = Some last ->
  CircuitBreaker.window cb < now - last ->
  let after := (CircuitBreaker.record_crisis cb user_id severity now).1 in
  UserCrisisState.crisis_count after = 1
  /\ UserCrisisState.severity_history after = [severity]
  /\ UserCrisisState.last_crisis_time after = Some now
  /\ (1 < CircuitBreaker.threshold cb -> 0 <= CircuitBreaker.recovery cb ->
      UserCrisisState.state after
      = UserCrisisState.state (CircuitBreaker.entry cb user_id)).
Proof.
  intros Hlast Hout. cbv zeta. unfold CircuitBreaker.record_crisis. cbn.
  rewrite Hlast. apply Z.ltb_lt in Hout. rewrite Hout. cbn.
  repeat split. intros Hth Hrec.
  assert (H1 : (CircuitBreaker.threshold cb <=? 1) = false) by (apply Z.leb_gt; lia).
  assert (Hdead : (CircuitBreaker.recovery cb <? now - now) = false)
    by (apply Z.ltb_ge; lia).
  change (0 + 1) with 1. now rewrite H1, Hdead, andb_false_r.
Qed.

Lemma window_lapse_restarts_count_witness :
  let cb := CircuitBreaker.store (CircuitBreaker.new 3 1800 900) "user1" (tripped OPEN) in
  let after := (CircuitBreaker.record_crisis cb "user1" LOW (seconds 2000)).1 in
  UserCrisisState.crisis_count after = 1
  /\ UserCrisisState.severity_history after = [LOW]
  /\ UserCrisisState.state after = OPEN.
Proof.
  cbv zeta.
  destruct (window_lapse_restarts_count
              (CircuitBreaker.store (CircuitBreaker.new 3 1800 900) "user1" (tripped OPEN))
              "user1" LOW (seconds 2000) (seconds 100)) as (Hc & Hh & _ & Hs).
  - vm_compute. reflexivity.
  - vm_compute. reflexivity.
  - cbv zeta in *. split; [exact Hc|]. split; [exact Hh|].
    rewrite Hs; [vm_compute; reflexivity | vm_compute; reflexivity | vm_compute; discriminate].
Defined.

(** X7.  When a request is bypassed, in terms of the entry the breaker
    holds for the user: the entry is OPEN and the recovery period has not
    passed since the last crisis, or at least three crises are counted
    and the last one is less than 30 minutes old.  The configured
    threshold and window do not enter. *)
Theorem bypass_spec self user_id env :
  let st := CircuitBreaker.entry (circuit_breaker self) user_id in
  bypasses self user_id env = true <->
  (UserCrisisState.state st = OPEN
   /\ forall last, UserCrisisState.last_crisis_time st = Some last ->
                   now_state env - last <= CircuitBreaker.recovery (circuit_breaker self))
  \/ (exists last, UserCrisisState.last_crisis_time st = Some last
                   /\ now_bypass env - last < minutes 30
                   /\ 3 <= UserCrisisState.crisis_count st).
Proof.
  cbv zeta. unfold bypasses, CircuitBreaker.get_state. cbn [fst].
  set (st := CircuitBreaker.entry (circuit_breaker self) user_id).
  unfold UserCrisisState.should_bypass_analysis.
  destruct (UserCrisisState.last_crisis_time st) as [last|] eqn:El.
  - destruct (bool_decide (UserCrisisState.state st = OPEN)) eqn:Eo; cbn [andb].
    + apply bool_decide_eq_true in Eo.
      destruct (_ <? now_state env - last) eqn:Er; cbn.
      * apply Z.ltb_lt in Er.
        destruct (decide (HALF_OPEN = OPEN)); [discriminate|].
        destruct (now_bypass env - last <? minutes 30) eqn:Ew.
        -- apply Z.ltb_lt in Ew. rewrite Z.leb_le. split.
           ++ intros H3. right. eauto.
           ++ intros [[_ Hle]|(l & [= <-] & _ & H3)]; [|exact H3].
              specialize (Hle _ eq_refl). lia.
        -- apply Z.ltb_ge in Ew. split; [discriminate|].
           intros [[_ Hle]|(l & [= <-] & Hlt & _)]; [|lia].
           specialize (Hle _ eq_refl). lia.
      * apply Z.ltb_ge in Er.
        destruct (decide (UserCrisisState.state st = OPEN)); [|contradiction].
        split; [|reflexivity]. intros _. left. split; [assumption|].
        intros l [= <-]. exact Er.
    + apply bool_decide_eq_false in Eo.
      destruct (decide (UserCrisisState.state st = OPEN)); [contradiction|].
      try rewrite El.
      destruct (now_bypass env - last <? minutes 30) eqn:Ew.
      * apply Z.ltb_lt in Ew. rewrite Z.leb_le. split.
        -- intros H3. right. eauto.
        -- intros [[Ho _]|(l & [= <-] & _ & H3)]; [contradiction|exact H3].
      * apply Z.ltb_ge in Ew. split; [discriminate|].
        intros [[Ho _]|(l & [= <-] & Hlt & _)]; [contradiction|lia].
  - destruct (decide (UserCrisisState.state st = OPEN)) as [Ho|Ho].
    + split; [|reflexivity]. intros _. left. split; [assumption|]. intros l Hl.
      discriminate.
    + try rewrite El. split; [discriminate|].
      intros [[Ho' _]|(l & Hl & _)]; [contradiction|discriminate].
Qed.

(** ** The breaker inside [detect] *)

(** The breaker a request leaves: the one it found, read twice for the
    user, with at most one crisis recorded in between. *)
Lemma detect_breaker `{PyRuntime} self text user_id context country_code language env :
  let cb1 := (CircuitBreaker.get_state (circuit_breaker self) user_id (now_state env)).2 in
  let out := detect self text user_id context country_code language env in
  circuit_breaker out.1.2 = (CircuitBreaker.get_state cb1 user_id (now_response env)).2
  \/ exists severity,
       circuit_breaker out.1.2
       = (CircuitBreaker.get_state
            (CircuitBreaker.record_crisis cb1 user_id severity (now_record env)).2
            user_id (now_response env)).2.
Proof.
  pose proof (detect_state self text user_id context country_code language env) as Hd.
  cbv zeta in *.
  destruct (bypasses self user_id env).
  - destruct Hd as [-> _]. now left.
  - destruct (CacheManager.get _ _ _).1 as [cached|].
    + destruct Hd as [-> _]. now left.
    + destruct Hd as [-> _]. cbn [circuit_breaker].
      destruct (sev_ge _ MODERATE); [right; eauto | now left].
Qed.

Lemma get_state_tracked cb user_id now :
  tracked (CircuitBreaker.entry cb user_id) ->
  tracked (CircuitBreaker.get_state cb user_id now).1.
Proof.
  intros (Hc & Hl & Hs).
  destruct (get_state_fields cb user_id now) as (_ & Ec & El & Eh & Es).
  cbv zeta in *. unfold tracked. rewrite Ec, El, Eh.
  split; [exact Hc|]. split; [exact Hl|].
  intros Hn. destruct Es as [-> | (_ & _ & last & Hlast & _)]; [auto|congruence].
Qed.

Lemma record_crisis_tracked cb user_id severity now :
  tracked (CircuitBreaker.entry cb user_id) ->
  tracked (CircuitBreaker.record_crisis cb user_id severity now).1.
Proof.
  intros (Hc & Hl & Hs). unfold tracked, CircuitBreaker.record_crisis. cbn.
  destruct (match UserCrisisState.last_crisis_time _ with Some _ => _ | None => _ end).
  - cbn. repeat split; try discriminate; try lia.
  - rewrite List.length_app. cbn. repeat split; try discriminate; lia.
Qed.

Lemma get_state_well_kept cb user_id now :
  well_kept cb -> well_kept (CircuitBreaker.get_state cb user_id now).2.
Proof.
  intros Hk user. destruct (decide (user = user_id)) as [->|Hne].
  - rewrite get_state_entry. split; [apply get_state_tracked, Hk|].
    destruct (get_state_fields cb user_id now) as (-> & _). apply Hk.
  - unfold CircuitBreaker.entry. rewrite get_state_other by exact Hne. apply Hk.
Qed.

Lemma record_crisis_well_kept cb user_id severity now :
  well_kept cb -> well_kept (CircuitBreaker.record_crisis cb user_id severity now).2.
Proof.
  intros Hk user. destruct (decide (user = user_id)) as [->|Hne].
  - rewrite record_crisis_entry. split; [apply record_crisis_tracked, Hk|].
    apply Hk.
  - unfold CircuitBreaker.entry. rewrite record_crisis_other by exact Hne. apply Hk.
Qed.

(** X8.  The books of the breaker are kept by every supervisor a program
    can hold: for every user the crisis count is the length of the
    severity history, a last crisis time is on record exactly when the
    count is not zero, and an entry is CLOSED unless a crisis has been
    recorded. *)
Theorem reachable_breaker_well_kept `{PyRuntime} self :
  reachable self -> well_kept (circuit_breaker self).
Proof.
  induction 1 as [config|self text user_id context country_code language env _ IH].
  - intros user. repeat split; try reflexivity; discriminate.
  - destruct (detect_breaker self text user_id context country_code language env)
      as [-> | (severity & ->)].
    + now apply get_state_well_kept, get_state_well_kept.
    + now apply get_state_well_kept, record_crisis_well_kept, get_state_well_kept.
Qed.

Lemma reachable_breaker_well_kept_witness :
  tracked (CircuitBreaker.entry (circuit_breaker after_third) "user1")
  /\ UserCrisisState.crisis_count (CircuitBreaker.entry (circuit_breaker after_third) "user1")
     = 3.
Proof.
  split; [|vm_compute; reflexivity].
  apply (reachable_breaker_well_kept after_third).
  unfold after_third, after_second, after_first.
  repeat apply reachable_detect. apply reachable_new.
Defined.

(** X9.  A request touches the breaker entry of no user but its own. *)
Theorem detect_other_users_untouched `{PyRuntime} self text user_id context country_code
    language env user :
  user <> user_id ->
  CircuitBreaker.states
    (circuit_breaker (detect self text user_id context country_code language env).1.2)
  !! user
  = CircuitBreaker.states (circuit_breaker self) !! user.
Proof.
  intros Hne.
  destruct (detect_breaker self text user_id context country_code language env)
    as [-> | (severity & ->)].
  - now rewrite !get_state_other by exact Hne.
  - now rewrite get_state_other, record_crisis_other, get_state_other by exact Hne.
Qed.

Lemma detect_other_users_untouched_witness :
  CircuitBreaker.states
    (circuit_breaker
       (detect after_third (u "I want to die") "user2" None "US" None
               (regex_only_env 30)).1.2)
  !! "user1"
  = CircuitBreaker.states (circuit_breaker after_third) !! "user1".
Proof.
  apply (detect_other_users_untouched after_third (u "I want to die") "user2" None "US"
           None (regex_only_env 30) "user1").
  discriminate.
Defined.

Lemma get_state_not_closed cb user_id now :
  UserCrisisState.state (CircuitBreaker.entry cb user_id) <> CLOSED ->
  UserCrisisState.state (CircuitBreaker.get_state cb user_id now).1 <> CLOSED.
Proof.
  intros Hn. destruct (get_state_fields cb user_id now) as (_ & _ & _ & _ & Es).
  cbv zeta in Es. destruct Es as [-> | (_ & -> & _)]; [exact Hn|discriminate].
Qed.

Lemma record_crisis_not_closed cb user_id severity now :
  UserCrisisState.state (CircuitBreaker.entry cb user_id) <> CLOSED ->
  UserCrisisState.state (CircuitBreaker.record_crisis cb user_id severity now).1 <> CLOSED.
Proof.
  intros Hn. unfold CircuitBreaker.record_crisis. cbn.
  destruct (_ <=? _); [discriminate|]. destruct (_ && _); [discriminate|exact Hn].
Qed.

(** X10.  Nothing a request does closes a circuit again: a user whose
    entry is OPEN or HALF_OPEN before a call of [detect], by that user or
    by any other, is not CLOSED after it. *)
Theorem detect_never_recloses `{PyRuntime} self text user_id context country_code
    language env user :
  UserCrisisState.state (CircuitBreaker.entry (circuit_breaker self) user) <> CLOSED ->
  UserCrisisState.state
    (CircuitBreaker.entry
       (circuit_breaker (detect self text user_id context country_code language env).1.2)
       user)
  <> CLOSED.
Proof.
  intros Hn. destruct (decide (user = user_id)) as [->|Hne].
  - destruct (detect_breaker self text user_id context country_code language env)
      as [-> | (severity & ->)].
    + rewrite get_state_entry. apply get_state_not_closed.
      rewrite get_state_entry. now apply get_state_not_closed.
    + rewrite get_state_entry. apply get_state_not_closed.
      rewrite record_crisis_entry. apply record_crisis_not_closed.
      rewrite get_state_entry. now apply get_state_not_closed.
  - unfold CircuitBreaker.entry in *.
    destruct (detect_breaker self text user_id context country_code language env)
      as [-> | (severity & ->)].
    + now rewrite !get_state_other by exact Hne.
    + now rewrite get_state_other, record_crisis_other, get_state_other by exact Hne.
Qed.

Lemma detect_never_recloses_witness :
  UserCrisisState.state (CircuitBreaker.entry (circuit_breaker after_third) "user1") = OPEN
  /\ UserCrisisState.state
       (CircuitBreaker.entry
          (circuit_breaker
             (detect after_third (u "hello") "user2" None "US" None
                     (regex_only_env 4000)).1.2)
          "user1")
     <> CLOSED.
Proof.
  split; [vm_compute; reflexivity|].
  apply (detect_never_recloses after_third (u "hello") "user2" None "US" None
           (regex_only_env 4000) "user1").
  vm_compute. discriminate.
Defined.

(** ** Results whose action follows their severity *)

Lemma regex_consistent `{PyRuntime} latency text context :
  consistent (RegexDetector.detect latency text context).
Proof.
  unfold consistent, RegexDetector.detect.
  destruct (RegexDetector._is_false_positive text); [split; reflexivity|].
  destruct (RegexDetector.matched_patterns _ text) as [|first rest]; [split; reflexivity|].
  cbv zeta. unfold action_for.
  destruct (sev_ge _ HIGH) eqn:E1; cbn; [rewrite E1; auto|].
  destruct (decide _) as [E2|E2]; cbn; rewrite E1;
    destruct (decide _); try contradiction; auto.
Qed.

(** The two tables of [_convert_ml_result] have the same keys, and agree
    with the rule. *)
Lemma ml_tables lbl :
  (exists s, lbl = label s
             /\ MLDetector.severity_map !! lbl = Some s
             /\ MLDetector.action_map !! lbl = Some (action_for s))
  \/ (MLDetector.severity_map !! lbl = None /\ MLDetector.action_map !! lbl = None).
Proof.
  destruct (decide (In lbl ["none"; "low"; "moderate"; "high"; "critical"])) as [Hin|Hnot].
  - left. simpl in Hin.
    destruct Hin as [<-|[<-|[<-|[<-|[<-|[]]]]]];
      [exists NONE | exists LOW | exists MODERATE | exists HIGH | exists CRITICAL];
      repeat split.
  - right. split; apply not_elem_of_list_to_map_1; rewrite list_elem_of_In; exact Hnot.
Qed.

Lemma convert_consistent ml_result latency :
  consistent (MLDetector._convert_ml_result ml_result latency).
Proof.
  unfold consistent, MLDetector._convert_ml_result.
  cbn [CrisisDetectionResult.severity CrisisDetectionResult.recommended_action
       CrisisDetectionResult.requires_resources].
  destruct (ml_tables (default "none" (MLDetector.Tier2.severity ml_result)))
    as [(s & _ & -> & ->) | [-> ->]]; cbn; auto.
Qed.

Lemma ml_consistent service latency r :
  MLDetector.detect service latency = MLDetector.Done r -> consistent r.
Proof.
  unfold MLDetector.detect.
  destruct (MLDetector._tier1_screening service) as [t1| |]; [| |discriminate].
  - destruct (MLDetector.Tier1.classification t1) as [c|]; [|discriminate].
    destruct (String.eqb c "SAFE").
    + intros [= <-]. split; reflexivity.
    + destruct (MLDetector._tier2_analysis service) as [t2| |]; [| |discriminate];
        intros [= <-]; [apply convert_consistent | split; reflexivity].
  - intros [= <-]. split; reflexivity.
Qed.

Lemma fuse_consistent results : consistent (_fuse_results results).
Proof.
  destruct results as [|first rest]; [split; reflexivity|].
  destruct (fuse_results_action first rest) as (Ha & Hr & _). cbv zeta in *.
  split; [exact Ha | exact Hr].
Qed.

Lemma decided_consistent `{PyRuntime} self text context env :
  consistent (decided self text context env).
Proof.
  unfold decided. destruct (enable_ml self); [|apply regex_consistent].
  unfold run_tiers. destruct (gather env text context) as [[|first rest]|];
    [split; reflexivity | apply fuse_consistent | split; reflexivity].
Qed.


Lemma get_cache_consistent cm key now :
  cache_consistent cm -> cache_consistent (CacheManager.get cm key now).2.
Proof.
  intros Hc. unfold CacheManager.get.
  destruct (CacheManager.cache cm !! key) as [[result ts]|] eqn:E; [|exact Hc].
  destruct (_ <? _); intros k r t; cbn.
  - destruct (decide (k = key)) as [->|Hne].
    + rewrite lookup_insert_eq. intros [= <- <-]. exact (Hc _ _ _ E).
    + rewrite lookup_insert_ne by congruence. apply Hc.
  - destruct (decide (k = key)) as [->|Hne].
    + now rewrite lookup_delete_eq.
    + rewrite lookup_delete_ne by congruence. apply Hc.
Qed.

Lemma set_cache_consistent cm key result now :
  cache_consistent cm -> consistent result ->
  cache_consistent (CacheManager.set cm key result now).
Proof.
  intros Hc Hr k r t. unfold CacheManager.set. cbn.
  destruct (decide (k = key)) as [->|Hne].
  - rewrite lookup_insert_eq. now intros [= <- <-].
  - rewrite lookup_insert_ne by congruence. apply Hc.
Qed.

(** The cache of a supervisor that a program can hold has consistent
    results only. *)
Lemma reachable_cache `{PyRuntime} self :
  reachable self -> cache_consistent (cache_manager self).
Proof.
  induction 1 as [config|self text user_id context country_code language env _ IH].
  - intros k r t. cbn. now rewrite lookup_empty.
  - pose proof (detect_state self text user_id context country_code language env) as Hd.
    cbv zeta in Hd. destruct (bypasses self user_id env).
    + destruct Hd as [-> _]. exact IH.
    + destruct (CacheManager.get _ _ _).1 as [cached|] eqn:Eg.
      * destruct Hd as [-> _]. cbn. now apply get_cache_consistent.
      * destruct Hd as [-> _]. cbn. apply set_cache_consistent.
        -- now apply get_cache_consistent.
        -- apply (decided_consistent self text context env).
Qed.

(** X11.  Every result that the supervisor of a running program holds in
    its cache has the action and the resource flag that go with its
    severity: interrupt with resources from high on, monitor for
    moderate, proceed below. *)
Theorem reachable_cache_consistent `{PyRuntime} self key result timestamp :
  reachable self ->
  CacheManager.cache (cache_manager self) !! key = Some (result, timestamp) ->
  CrisisDetectionResult.recommended_action result
  = action_for (CrisisDetectionResult.severity result)
  /\ CrisisDetectionResult.requires_resources result
     = sev_ge (CrisisDetectionResult.severity result) HIGH.
Proof. intros Hr Hk. exact (reachable_cache self Hr _ _ _ Hk). Qed.

Lemma reachable_cache_consistent_witness :
  exists key result timestamp,
    CacheManager.cache (cache_manager after_first) !! key = Some (result, timestamp)
    /\ CrisisDetectionResult.severity result = MODERATE
    /\ CrisisDetectionResult.recommended_action result = MONITOR
    /\ CrisisDetectionResult.requires_resources result = false.
Proof.
  assert (Hreach : reachable after_first)
    by (unfold after_first; apply reachable_detect, reachable_new).
  destruct (CacheManager.cache (cache_manager after_first)
            !! CacheManager.create_key (u "I can't cope") None)
    as [[result timestamp]|] eqn:E; [|vm_compute in E; discriminate].
  assert (Hs : CrisisDetectionResult.severity result = MODERATE).
  { vm_compute in E. injection E as <- _. reflexivity. }
  destruct (reachable_cache_consistent after_first _ result timestamp Hreach E)
    as [Ha Hr].
  exists (CacheManager.create_key (u "I can't cope") None), result, timestamp.
  rewrite Ha, Hr, Hs. repeat split. exact E.
Defined.






(** ** Analytics *)

Lemma label_inj a b : label a = label b -> a = b.
Proof. destruct a, b; simpl; intros E; try discriminate E; reflexivity. Qed.

Lemma count_of_update m result s :
  is_Some (AnalyticsLogger.Metrics.detections_by_severity m
           !! label (CrisisDetectionResult.severity result)) ->
  count_of (AnalyticsLogger._update_metrics m result) s
  = count_of m s + (if decide (s = CrisisDetectionResult.severity result) then 1 else 0).
Proof.
  intros [n Hn]. unfold count_of, AnalyticsLogger._update_metrics. cbn.
  destruct (decide (s = CrisisDetectionResult.severity result)) as [->|Hne].
  - rewrite lookup_alter_eq, Hn. cbn. lia.
  - rewrite lookup_alter_ne; [lia|]. intros E. apply label_inj in E. congruence.
Qed.

Lemma update_balanced m result :
  balanced m -> balanced (AnalyticsLogger._update_metrics m result).
Proof.
  intros (Hkeys & Htotal & Hcrisis & Hhits & Hfp).
  pose proof (fun s => count_of_update m result s
                         (proj1 (Hkeys (CrisisDetectionResult.severity result)))) as Hc.
  unfold balanced. rewrite !Hc.
  split; [|split; [|split; [|split]]].
  - intros s. split.
    + cbn. destruct (decide (label s = label (CrisisDetectionResult.severity result)))
        as [E|E].
      * rewrite E, lookup_alter_eq. destruct (Hkeys (CrisisDetectionResult.severity result))
          as [[n ->] _]. cbn. eauto.
      * rewrite lookup_alter_ne by congruence. apply Hkeys.
    + rewrite Hc. destruct (Hkeys s) as [_ H0]. destruct (decide _); lia.
  - cbn [AnalyticsLogger.Metrics.total_detections AnalyticsLogger._update_metrics].
    destruct (CrisisDetectionResult.severity result);
      repeat (destruct (decide _); try discriminate); try congruence; lia.
  - cbn [AnalyticsLogger.Metrics.crisis_detections AnalyticsLogger._update_metrics].
    destruct (CrisisDetectionResult.severity result); cbn [sev_ge level Z.leb Z.compare];
      repeat (destruct (decide _); try discriminate); try congruence; cbn; lia.
  - cbn [AnalyticsLogger.Metrics.cache_hits AnalyticsLogger.Metrics.total_detections
         AnalyticsLogger._update_metrics].
    destruct (CrisisDetectionResult.cache_hit result); lia.
  - exact Hfp.
Qed.

Lemma new_balanced n : balanced (AnalyticsLogger.metrics (AnalyticsLogger.new n)).
Proof.
  split; [|repeat split; vm_compute; congruence].
  intros s. destruct s; split; vm_compute; eauto; congruence.
Qed.

Lemma deque_append_length {A} maxlen (d : list A) x :
  List.length (AnalyticsLogger.deque_append maxlen d x)
  = Nat.min (S (List.length d)) maxlen.
Proof.
  unfold AnalyticsLogger.deque_append. cbv zeta.
  rewrite List.length_skipn, List.length_app.
  change (List.length [x]) with 1%nat. lia.
Qed.

(** The books of the logger: the metrics add up and the buffer holds the
    last events, as many as were logged up to its size. *)
Lemma log_detection_books self user_id result excerpt now :
  let after := AnalyticsLogger.log_detection self user_id result excerpt now in
  balanced (AnalyticsLogger.metrics self) ->
  Z.of_nat (List.length (AnalyticsLogger.events self))
  = Z.min (AnalyticsLogger.Metrics.total_detections (AnalyticsLogger.metrics self))
          (Z.of_nat (AnalyticsLogger.buffer_size self)) ->
  balanced (AnalyticsLogger.metrics after)
  /\ Z.of_nat (List.length (AnalyticsLogger.events after))
     = Z.min (AnalyticsLogger.Metrics.total_detections (AnalyticsLogger.metrics after))
             (Z.of_nat (AnalyticsLogger.buffer_size after))
  /\ AnalyticsLogger.buffer_size after = AnalyticsLogger.buffer_size self.
Proof.
  cbv zeta. intros Hb Hlen. split; [now apply update_balanced|]. split; [|reflexivity].
  unfold AnalyticsLogger.log_detection.
  cbn [AnalyticsLogger.events AnalyticsLogger.metrics AnalyticsLogger.buffer_size].
  rewrite deque_append_length.
  cbn [AnalyticsLogger.Metrics.total_detections AnalyticsLogger._update_metrics]. lia.
Qed.

Lemma reachable_analytics `{PyRuntime} self :
  reachable self ->
  balanced (AnalyticsLogger.metrics (analytics self))
  /\ Z.of_nat (List.length (AnalyticsLogger.events (analytics self)))
     = Z.min (AnalyticsLogger.Metrics.total_detections
                (AnalyticsLogger.metrics (analytics self)))
             (Z.of_nat (AnalyticsLogger.buffer_size (analytics self)))
  /\ AnalyticsLogger.buffer_size (analytics self) = 100%nat.
Proof.
  induction 1 as [config|self text user_id context country_code language env _ IH].
  - split; [apply new_balanced|]. split; reflexivity.
  - destruct IH as (Hb & Hlen & Hsize).
    pose proof (detect_state self text user_id context country_code language env) as Hd.
    cbv zeta in Hd. destruct (bypasses self user_id env).
    + destruct Hd as [-> _]. auto.
    + destruct (CacheManager.get _ _ _).1 as [cached|];
        destruct Hd as [-> _]; cbn [analytics];
        match goal with
        | |- context [AnalyticsLogger.log_detection ?a ?b ?c ?d ?e] =>
            destruct (log_detection_books a b c d e Hb Hlen) as (Hb' & Hlen' & Hsize')
        end; rewrite Hsize' in *; auto.
Qed.

(** X13.  The metrics of a running program add up: the per-severity
    counters sum to the number of detections, the crisis counter is the
    sum of those from moderate on, the cache hits are at most the
    detections, and the false-positive counter stays at zero; the event
    buffer holds as many events as were logged, up to 100. *)
Theorem reachable_metrics_balanced `{PyRuntime} self :
  reachable self ->
  let m := AnalyticsLogger.get_metrics (analytics self) in
  AnalyticsLogger.Metrics.total_detections m
  = count_of m NONE + count_of m LOW + count_of m MODERATE
    + count_of m HIGH + count_of m CRITICAL
  /\ AnalyticsLogger.Metrics.crisis_detections m
     = count_of m MODERATE + count_of m HIGH + count_of m CRITICAL
  /\ 0 <= AnalyticsLogger.Metrics.cache_hits m <= AnalyticsLogger.Metrics.total_detections m
  /\ AnalyticsLogger.Metrics.false_positives m = 0
  /\ (forall s, 0 <= count_of m s)
  /\ Z.of_nat (List.length (AnalyticsLogger.events (analytics self)))
     = Z.min (AnalyticsLogger.Metrics.total_detections m) 100.
Proof.
  intros Hr. destruct (reachable_analytics self Hr)
    as ((Hkeys & Htotal & Hcrisis & Hhits & Hfp) & Hlen & Hsize).
  cbv zeta. unfold AnalyticsLogger.get_metrics. rewrite Hsize in Hlen.
  repeat split; try assumption; try lia. intros s. apply Hkeys.
Qed.

Lemma reachable_metrics_balanced_witness :
  let m := AnalyticsLogger.get_metrics (analytics after_third) in
  AnalyticsLogger.Metrics.total_detections m = 3
  /\ count_of m MODERATE = 3
  /\ AnalyticsLogger.Metrics.crisis_detections m
     = count_of m MODERATE + count_of m HIGH + count_of m CRITICAL.
Proof.
  assert (Hreach : reachable after_third).
  { unfold after_third, after_second, after_first.
    repeat apply reachable_detect. apply reachable_new. }
  destruct (reachable_metrics_balanced after_third Hreach) as (_ & Hc & _).
  cbv zeta in *. split; [vm_compute; reflexivity|]. split; [vm_compute; reflexivity|].
  exact Hc.
Defined.


(** ** Crises, the cache and the tiers inside [detect] *)







(** X18.  With the ML tier disabled, a request depends on nothing of the
    ML service, of its latency, or of which tasks the scheduler reports
    done: the pattern matcher is called directly. *)
Theorem regex_only_ignores_ml `{PyRuntime} self text user_id context country_code
    language env regex_done' ml_done' ml_service' ml_latency_ms' :
  enable_ml self = false ->
  detect self text user_id context country_code language
    {| now_state := now_state env; now_bypass := now_bypass env;
       now_cache := now_cache env; now_store := now_store env;
       now_log := now_log env; now_record := now_record env;
       now_response := now_response env;
       regex_latency_ms := regex_latency_ms env; ml_latency_ms := ml_latency_ms';
       latency_ms := latency_ms env;
       regex_done := regex_done'; ml_done := ml_done'; ml_service := ml_service' |}
  = detect self text user_id context country_code language env
  /\ decided self text context env
     = RegexDetector.detect (regex_latency_ms env) text context
  /\ ~ In MLDetect (detect self text user_id context country_code language env).2.
Proof.
  intros Hml. split; [|split].
  - unfold detect.
    cbn [now_state now_bypass now_cache now_store now_log now_record now_response
         regex_latency_ms latency_ms].
    destruct (CircuitBreaker.get_state _ _ _) as [user_state cb].
    destruct (UserCrisisState.should_bypass_analysis _ _ _); [reflexivity|].
    destruct (CacheManager.get _ _ _) as [[cached|] cm]; [reflexivity|].
    cbn [enable_ml with_cache with_breaker]. rewrite Hml. reflexivity.
  - unfold decided. now rewrite Hml.
  - pose proof (detect_state self text user_id context country_code language env) as Hd.
    cbv zeta in Hd. destruct (bypasses self user_id env).
    + destruct Hd as [_ ->]. cbn. intuition discriminate.
    + destruct (CacheManager.get _ _ _).1 as [cached|]; destruct Hd as [_ ->];
        rewrite ?Hml;
        repeat match goal with
               | |- context [if ?b then _ else _] => destruct b
               end; cbn; intuition discriminate.
Qed.

Lemma regex_only_ignores_ml_witness :
  let self := new {| cache_ttl := None; circuit_threshold := None;
                     circuit_window := None; cfg_enable_ml := Some false;
                     cfg_target_latency_ms := None |} in
  detect self (u "I can't cope") "user1" None "US" None
         (env_at 0 false true confident_service)
  = detect self (u "I can't cope") "user1" None "US" None (regex_only_env 0).
Proof.
  cbv zeta.
  refine (proj1 (regex_only_ignores_ml
                   (new {| cache_ttl := None; circuit_threshold := None;
                           circuit_window := None; cfg_enable_ml := Some false;
                           cfg_target_latency_ms := None |})
                   (u "I can't cope") "user1" None "US" None (regex_only_env 0)
                   false true confident_service 300%float _)).
  reflexivity.
Defined.



(** ** The pattern matcher on its own *)

(** Searching for one character of a set is looking for a character of
    the subject that is in the set. *)
Lemma search_single_atom `{PyRuntime} ic a prev s pos :
  bool_decide (is_Some (re.search_from ic (re.RAtom a re.QOne) prev s pos))
  = existsb (re.atom_ok ic a) s.
Proof.
  revert prev pos. induction s as [|c s IH]; intros prev pos.
  - apply bool_decide_eq_false. cbn. intros [x Hx]. discriminate.
  - cbn [existsb re.search_from re.m re.rep].
    destruct (re.atom_ok ic a c); cbn [orb].
    + apply bool_decide_eq_true. eauto.
    + apply IH.
Qed.

Lemma existsb_equal {A} (f g : A -> bool) l :
  (forall x, f x = g x) -> existsb f l = existsb g l.
Proof. intros E. induction l as [|x l IH]; cbn; [reflexivity|]. now rewrite E, IH. Qed.

(** X20.  Language detection looks at scripts only, in a fixed order: a
    text with a code point in U+4E00..U+9FFF is "zh"; otherwise one in
    U+0600..U+06FF makes it "ar"; otherwise one in U+3040..U+30FF (the two
    kana ranges) makes it "ja"; otherwise one in U+AC00..U+D7AF makes it
    "ko"; every other text is "en".  So the catalogs of "es", "fr", "de",
    "pt" and "it" are never selected, and a Japanese text that holds one
    kanji is read as Chinese. *)
Theorem detect_language_by_script `{PyRuntime} text :
  let has (lo hi : N) := existsb (fun c => (lo <=? c)%N && (c <=? hi)%N) text in
  RegexDetector._detect_language text
  = (if has 0x4e00%N 0x9fff%N then "zh"
     else if has 0x0600%N 0x06ff%N then "ar"
     else if has 0x3040%N 0x309f%N || has 0x30a0%N 0x30ff%N then "ja"
     else if has 0xac00%N 0xd7af%N then "ko"
     else "en")
  /\ In (RegexDetector._detect_language text) ["zh"; "ar"; "ja"; "ko"; "en"].
Proof.
  cbv zeta.
  assert (Hone : forall lo hi,
            bool_decide (is_Some
              (re.search {| re.rx := re.RAtom (re.ASet [re.CRange lo hi]) re.QOne;
                            re.ignorecase := false |} text))
            = existsb (fun c => (lo <=? c)%N && (c <=? hi)%N) text).
  { intros lo hi. unfold re.search. cbn [re.rx re.ignorecase].
    rewrite search_single_atom. apply existsb_equal. intros c. cbn.
    now rewrite orb_false_r. }
  assert (Htwo : forall lo hi lo' hi',
            bool_decide (is_Some
              (re.search {| re.rx := re.RAtom (re.ASet [re.CRange lo hi; re.CRange lo' hi'])
                                              re.QOne;
                            re.ignorecase := false |} text))
            = existsb (fun c => (lo <=? c)%N && (c <=? hi)%N) text
              || existsb (fun c => (lo' <=? c)%N && (c <=? hi')%N) text).
  { intros lo hi lo' hi'. unfold re.search. cbn [re.rx re.ignorecase].
    rewrite search_single_atom. clear. induction text as [|c text IH]; [reflexivity|].
    cbn [existsb]. rewrite IH. cbn.
    destruct ((lo <=? c)%N && (c <=? hi)%N), ((lo' <=? c)%N && (c <=? hi')%N);
      cbn; rewrite ?orb_true_r; reflexivity. }
  assert (Hspec : RegexDetector._detect_language text
                  = (if existsb (fun c => (0x4e00 <=? c)%N && (c <=? 0x9fff)%N) text
                     then "zh"
                     else if existsb (fun c => (0x0600 <=? c)%N && (c <=? 0x06ff)%N) text
                     then "ar"
                     else if existsb (fun c => (0x3040 <=? c)%N && (c <=? 0x309f)%N) text
                             || existsb (fun c => (0x30a0 <=? c)%N && (c <=? 0x30ff)%N) text
                     then "ja"
                     else if existsb (fun c => (0xac00 <=? c)%N && (c <=? 0xd7af)%N) text
                     then "ko"
                     else "en")).
  { unfold RegexDetector._detect_language, RegexDetector.found.
    repeat match goal with
           | |- context [re.compiled ?s false] =>
               let p := eval vm_compute in (re.compiled s false) in
               change (re.compiled s false) with p
           end.
    rewrite !Hone, Htwo. reflexivity. }
  split; [exact Hspec|]. rewrite Hspec.
  repeat (destruct (existsb _ text); cbn [orb]; [cbn; tauto|]). cbn; tauto.
Qed.

(** The languages that detection can answer. *)
Lemma detect_language_in `{PyRuntime} text :
  In (RegexDetector._detect_language text) ["zh"; "ar"; "ja"; "ko"; "en"].
Proof.
  unfold RegexDetector._detect_language.
  repeat (destruct (RegexDetector.found _ text); [cbn; tauto|]). cbn; tauto.
Qed.

(** No pattern of the catalogs that language detection can select is of
    a severity below moderate. *)
Lemma catalog_severities language p :
  In language ["zh"; "ar"; "ja"; "ko"; "en"] ->
  In p (RegexDetector.catalog language) ->
  sev_ge (CrisisPattern.severity p) MODERATE = true.
Proof.
  intros Hl Hp.
  assert (Hall : forallb (fun q => sev_ge (CrisisPattern.severity q) MODERATE)
                         (RegexDetector.catalog language) = true).
  { cbn in Hl. destruct Hl as [<-|[<-|[<-|[<-|[<-|[]]]]]]; vm_compute; reflexivity. }
  rewrite forallb_forall in Hall. now apply Hall.
Qed.

Lemma matched_patterns_spec `{PyRuntime} ps text p mt :
  In (p, mt) (RegexDetector.matched_patterns ps text) <->
  In p ps /\ re.search (re.compiled (CrisisPattern.pattern p) true) text = Some mt.
Proof.
  unfold RegexDetector.matched_patterns. rewrite List.in_flat_map. split.
  - intros (q & Hq & Hin).
    destruct (re.search (re.compiled (CrisisPattern.pattern q) true) text) as [m'|] eqn:E;
      [|destruct Hin].
    destruct Hin as [[= -> ->]|[]]. auto.
  - intros [Hp Hs]. exists p. split; [exact Hp|]. rewrite Hs. now left.
Qed.

(** X21.  What the pattern matcher reports for a text that passes the
    false-positive filter, with [matched] the patterns of the selected
    catalog that match it: without a match, severity none with
    confidence 0.9; with one, the highest severity among the matched
    patterns, which is never low; the categories of the matched patterns;
    and the matched text of the first five as indicators. *)
Theorem regex_reports_matches `{PyRuntime} latency text context :
  RegexDetector._is_false_positive text = false ->
  let r := RegexDetector.detect latency text context in
  let catalog := RegexDetector.catalog (RegexDetector._detect_language text) in
  let matched := RegexDetector.matched_patterns catalog text in
  (forall p mt, In (p, mt) matched <->
     In p catalog /\ re.search (re.compiled (CrisisPattern.pattern p) true) text = Some mt)
  /\ (matched = [] ->
      CrisisDetectionResult.severity r = NONE
      /\ CrisisDetectionResult.confidence r = 0.9%float)
  /\ (matched <> [] ->
      (exists pm, In pm matched
                  /\ CrisisDetectionResult.severity r = CrisisPattern.severity (fst pm))
      /\ sev_ge (CrisisDetectionResult.severity r) MODERATE = true)
  /\ (forall pm, In pm matched ->
        level (CrisisPattern.severity (fst pm)) <= level (CrisisDetectionResult.severity r))
  /\ (forall c, c ∈ CrisisDetectionResult.categories r <->
        exists pm, In pm matched /\ CrisisPattern.category (fst pm) = c)
  /\ CrisisDetectionResult.indicators r
     = List.map (fun pm => re.group (snd pm)) (List.firstn 5 matched)
  /\ CrisisDetectionResult.language r = RegexDetector._detect_language text.
Proof.
  intros Hfp. cbv zeta.
  split; [intros p mt; apply matched_patterns_spec|].
  pose proof (matched_patterns_spec
                (RegexDetector.catalog (RegexDetector._detect_language text)) text) as Hspec.
  pose proof (detect_language_in text) as Hlang.
  unfold RegexDetector.detect. rewrite Hfp.
  destruct (RegexDetector.matched_patterns _ text) as [|first rest] eqn:Em.
  - cbn. repeat split; try congruence; try tauto.
    + intros Hc. now apply not_elem_of_empty in Hc.
    + intros (pm & [] & _).
  - cbv zeta.
    set (top := py_max sev_gt (CrisisPattern.severity (fst first))
                  (List.map (fun pm => CrisisPattern.severity (fst pm)) rest)).
    destruct (py_max_sev_fold
                (List.map (fun pm : CrisisPattern.t * (nat * ustr) =>
                             CrisisPattern.severity (fst pm)) rest)
                (CrisisPattern.severity (fst first))) as [Hin Hmax].
    fold top in Hin, Hmax.
    change (CrisisPattern.severity (fst first)
            :: List.map (fun pm : CrisisPattern.t * (nat * ustr) =>
                           CrisisPattern.severity (fst pm)) rest)
      with (List.map (fun pm : CrisisPattern.t * (nat * ustr) =>
                        CrisisPattern.severity (fst pm)) (first :: rest)) in Hin, Hmax.
    destruct (if sev_ge top HIGH then (INTERRUPT, true)
              else if decide (top = MODERATE) then (MONITOR, false)
              else (PROCEED, false)) as [action requires_resources].
    cbn [CrisisDetectionResult.severity CrisisDetectionResult.confidence
         CrisisDetectionResult.categories CrisisDetectionResult.indicators
         CrisisDetectionResult.language].
    apply List.in_map_iff in Hin. destruct Hin as (pm & Hpm & Hin).
    split; [discriminate|]. split; [|split; [|split; [|split]]].
    + intros _. split; [exists pm; auto|].
      rewrite <- Hpm. destruct pm as [p mt].
      apply (catalog_severities _ p Hlang). now apply (Hspec p mt).
    + intros pm' Hin'. apply Hmax.
      exact (List.in_map (fun pm : CrisisPattern.t * (nat * ustr) =>
                            CrisisPattern.severity (fst pm)) _ _ Hin').
    + intros c. rewrite elem_of_list_to_set, list_elem_of_In, List.in_map_iff.
      split; intros (x & A & B); exists x; auto.
    + reflexivity.
    + reflexivity.
Qed.

Lemma regex_reports_matches_witness :
  let r := RegexDetector.detect 1 (u "I feel trapped, I can't take it") None in
  sev_ge (CrisisDetectionResult.severity r) MODERATE = true
  /\ List.length (CrisisDetectionResult.indicators r) = 2%nat
  /\ CrisisDetectionResult.language r = "en".
Proof.
  cbv zeta.
  assert (Hfp : RegexDetector._is_false_positive (u "I feel trapped, I can't take it")
                = false) by (vm_compute; reflexivity).
  pose proof (regex_reports_matches 1 (u "I feel trapped, I can't take it") None Hfp) as W.
  cbv zeta in W. destruct W as (_ & _ & Hsome & _ & _ & Hind & Hlang).
  split; [|split].
  - apply Hsome. intros E. vm_compute in E. discriminate.
  - rewrite Hind. vm_compute. reflexivity.
  - rewrite Hlang. vm_compute. reflexivity.
Defined.

(** ** The ML detector on its own *)

(** X22.  When the quick screening answers "SAFE", the contextual stage is
    not consulted: whatever it would answer, and even if it would fail or
    time out, the result is severity none, action proceed, with the
    screening's confidence (0.85 when it gives none). *)
Theorem ml_safe_short_circuit service latency tier1 :
  MLDetector._tier1_screening service = MLDetector.Returned tier1 ->
  MLDetector.Tier1.classification tier1 = Some "SAFE" ->
  exists r,
    MLDetector.detect service latency = MLDetector.Done r
    /\ CrisisDetectionResult.severity r = NONE
    /\ CrisisDetectionResult.recommended_action r = PROCEED
    /\ CrisisDetectionResult.requires_resources r = false
    /\ CrisisDetectionResult.confidence r
       = default 0.85%float (MLDetector.Tier1.confidence tier1)
    /\ CrisisDetectionResult.detection_method r = "ml_tier1_safe"
    /\ forall tier2,
         MLDetector.detect
           {| MLDetector._tier1_screening := MLDetector.Returned tier1;
              MLDetector._tier2_analysis := tier2 |} latency
         = MLDetector.Done r.
Proof.
  intros H1 Hc. unfold MLDetector.detect. rewrite H1, Hc. cbn.
  eexists. split; [reflexivity|]. cbn. repeat split.
  intros tier2. now rewrite Hc.
Qed.

Lemma ml_safe_short_circuit_witness :
  let tier1 := {| MLDetector.Tier1.classification := Some "SAFE";
                  MLDetector.Tier1.confidence := None |} in
  exists r,
    MLDetector.detect
      {| MLDetector._tier1_screening := MLDetector.Returned tier1;
         MLDetector._tier2_analysis := MLDetector.Failed |} 120
    = MLDetector.Done r
    /\ CrisisDetectionResult.severity r = NONE
    /\ CrisisDetectionResult.confidence r = 0.85%float.
Proof.
  cbv zeta.
  destruct (ml_safe_short_circuit
              {| MLDetector._tier1_screening :=
                   MLDetector.Returned
                     {| MLDetector.Tier1.classification := Some "SAFE";
                        MLDetector.Tier1.confidence := None |};
                 MLDetector._tier2_analysis := MLDetector.Failed |}
              120
              {| MLDetector.Tier1.classification := Some "SAFE";
                 MLDetector.Tier1.confidence := None |}
              eq_refl eq_refl) as (r & Hd & Hs & _ & _ & Hc & _).
  exists r. split; [exact Hd|]. split; [exact Hs|exact Hc].
Defined.

Lemma timeout_done service latency :
  times_out service ->
  MLDetector.detect service latency
  = MLDetector.Done (MLDetector.timeout_fallback latency).
Proof.
  intros [H1 | (tier1 & c & H1 & Hc & Hne & H2)]; unfold MLDetector.detect; rewrite H1.
  - reflexivity.
  - rewrite Hc. apply String.eqb_neq in Hne. now rewrite Hne, H2.
Qed.

(** X23.  A timeout of either stage never escapes the ML detector: it
    answers with severity moderate, confidence 0.5, action monitor and no
    resources, under the method "ml_timeout_fallback". *)
Theorem ml_timeout_is_absorbed service latency :
  times_out service ->
  exists r,
    MLDetector.detect service latency = MLDetector.Done r
    /\ CrisisDetectionResult.severity r = MODERATE
    /\ CrisisDetectionResult.confidence r = 0.5%float
    /\ CrisisDetectionResult.recommended_action r = MONITOR
    /\ CrisisDetectionResult.requires_resources r = false
    /\ CrisisDetectionResult.detection_method r = "ml_timeout_fallback".
Proof.
  intros Ht. rewrite (timeout_done service latency Ht).
  eexists. split; [reflexivity|]. cbn. auto 10.
Qed.

Lemma ml_timeout_is_absorbed_witness :
  exists r,
    MLDetector.detect
      {| MLDetector._tier1_screening :=
           MLDetector.Returned {| MLDetector.Tier1.classification := Some "CONCERN";
                                  MLDetector.Tier1.confidence := Some 0.75%float |};
         MLDetector._tier2_analysis := MLDetector.TimedOut |} 400
    = MLDetector.Done r
    /\ CrisisDetectionResult.severity r = MODERATE
    /\ CrisisDetectionResult.recommended_action r = MONITOR.
Proof.
  destruct (ml_timeout_is_absorbed
              {| MLDetector._tier1_screening :=
                   MLDetector.Returned
                     {| MLDetector.Tier1.classification := Some "CONCERN";
                        MLDetector.Tier1.confidence := Some 0.75%float |};
                 MLDetector._tier2_analysis := MLDetector.TimedOut |} 400)
    as (r & Hd & Hs & _ & Ha & _).
  - right. eexists _, "CONCERN". repeat split. discriminate.
  - exists r. auto.
Defined.

(** X24.  The ML detector raises exactly when a stage it consults fails
    with something other than a timeout, or the screening's answer has no
    classification. *)
Theorem ml_raises_iff service latency :
  MLDetector.detect service latency = MLDetector.Raised <->
  MLDetector._tier1_screening service = MLDetector.Failed
  \/ exists tier1,
       MLDetector._tier1_screening service = MLDetector.Returned tier1
       /\ (MLDetector.Tier1.classification tier1 = None
           \/ (MLDetector.Tier1.classification tier1 <> Some "SAFE"
               /\ MLDetector._tier2_analysis service = MLDetector.Failed)).
Proof.
  unfold MLDetector.detect.
  destruct (MLDetector._tier1_screening service) as [tier1| |].
  - destruct (MLDetector.Tier1.classification tier1) as [c|] eqn:Ec.
    + destruct (String.eqb c "SAFE") eqn:E.
      * apply String.eqb_eq in E. subst c. split; [discriminate|].
        intros [Hf | (t & [= <-] & [Hn | [Hn _]])]; try discriminate.
        -- rewrite Ec in Hn. discriminate.
        -- rewrite Ec in Hn. contradiction.
      * apply String.eqb_neq in E.
        destruct (MLDetector._tier2_analysis service) as [tier2| |].
        -- split; [discriminate|].
           intros [Hf | (t & [= <-] & [Hn | [_ Hn]])]; try discriminate.
           rewrite Ec in Hn. discriminate.
        -- split; [discriminate|].
           intros [Hf | (t & [= <-] & [Hn | [_ Hn]])]; try discriminate.
           rewrite Ec in Hn. discriminate.
        -- split; [|reflexivity]. intros _. right. exists tier1.
           split; [reflexivity|]. right. split; [|reflexivity].
           rewrite Ec. congruence.
    + split; [|reflexivity]. intros _. right. exists tier1. rewrite Ec. auto.
  - split; [discriminate|]. intros [Hf | (t & Hf & _)]; discriminate.
  - split; [|reflexivity]. auto.
Qed.

(** X25.  The converter maps each of the five severity labels to its
    severity, with the action and the resource flag that go with it; a
    result without a label counts as "none", one without a confidence as
    0.5. *)
Theorem convert_known_label ml_result latency s :
  MLDetector.Tier2.severity ml_result = Some (label s) ->
  let r := MLDetector._convert_ml_result ml_result latency in
  CrisisDetectionResult.severity r = s
  /\ CrisisDetectionResult.recommended_action r = action_for s
  /\ CrisisDetectionResult.requires_resources r = sev_ge s HIGH
  /\ CrisisDetectionResult.confidence r
     = default 0.5%float (MLDetector.Tier2.confidence ml_result)
  /\ CrisisDetectionResult.reasoning r = MLDetector.Tier2.reasoning ml_result
  /\ CrisisDetectionResult.severity
       (MLDetector._convert_ml_result
          {| MLDetector.Tier2.severity := None;
             MLDetector.Tier2.confidence := MLDetector.Tier2.confidence ml_result;
             MLDetector.Tier2.reasoning := MLDetector.Tier2.reasoning ml_result |}
          latency) = NONE.
Proof.
  intros Hl. cbv zeta. unfold MLDetector._convert_ml_result. rewrite Hl.
  cbn [CrisisDetectionResult.severity CrisisDetectionResult.recommended_action
       CrisisDetectionResult.requires_resources CrisisDetectionResult.confidence
       CrisisDetectionResult.reasoning default MLDetector.Tier2.severity].
  destruct s; repeat split.
Qed.

Lemma convert_known_label_witness :
  let ml_result :=
    {| MLDetector.Tier2.severity := Some "critical";
       MLDetector.Tier2.confidence := None;
       MLDetector.Tier2.reasoning := Some "explicit plan" |} in
  let r := MLDetector._convert_ml_result ml_result 250 in
  CrisisDetectionResult.severity r = CRITICAL
  /\ CrisisDetectionResult.recommended_action r = INTERRUPT
  /\ CrisisDetectionResult.requires_resources r = true
  /\ CrisisDetectionResult.confidence r = 0.5%float.
Proof.
  cbv zeta.
  destruct (convert_known_label
              {| MLDetector.Tier2.severity := Some "critical";
                 MLDetector.Tier2.confidence := None;
                 MLDetector.Tier2.reasoning := Some "explicit plan" |} 250 CRITICAL
              eq_refl) as (Hs & Ha & Hr & Hc & _).
  auto.
Defined.

(** ** The fuser on any list *)

Lemma py_max_in {A} (gt : A -> A -> bool) x xs : In (py_max gt x xs) (x :: xs).
Proof.
  unfold py_max. revert x. induction xs as [|a xs IH]; intros x; cbn; [now left|].
  destruct (IH (if gt a x then a else x)) as [E|Hin]; [|auto].
  rewrite <- E. destruct (gt a x); auto.
Qed.

Lemma fold_union_categories (results : list CrisisDetectionResult.t)
    (init : gset CrisisCategory) c :
  c ∈ List.fold_left (fun acc r => acc ∪ CrisisDetectionResult.categories r) results init
  <-> c ∈ init \/ exists r, In r results /\ c ∈ CrisisDetectionResult.categories r.
Proof.
  revert init. induction results as [|r results IH]; intros init; cbn.
  - split; [auto|]. intros [Hc|(r & [] & _)]. exact Hc.
  - rewrite IH, elem_of_union. split.
    + intros [[Hc|Hc]|(r' & Hin & Hc)]; eauto 6.
    + intros [Hc|(r' & [<-|Hin] & Hc)]; eauto 6.
Qed.

(** The fields that the fuser computes from the whole list. *)
Lemma fuse_results_fields first rest :
  let results := first :: rest in
  let fused := _fuse_results results in
  CrisisDetectionResult.confidence fused
  = py_max float_gt (CrisisDetectionResult.confidence first)
           (List.map CrisisDetectionResult.confidence rest)
  /\ CrisisDetectionResult.categories fused
     = List.fold_left (fun acc r => acc ∪ CrisisDetectionResult.categories r) results ∅
  /\ CrisisDetectionResult.indicators fused
     = List.firstn 5 (List.concat (List.map CrisisDetectionResult.indicators results)).
Proof.
  cbv zeta. unfold _fuse_results.
  destruct (match ml_results (first :: rest) with
            | [] => _
            | ml0 :: _ => _
            end) as [severity reasoning].
  destruct (if sev_ge severity HIGH then _ else _) as [action requires_resources].
  repeat split.
Qed.

(** X26.  On any list of results that is not empty, the fuser invents
    nothing: the fused severity is the severity of one of the results and
    is never above their maximum, the fused confidence is the confidence
    of one of them, the categories are the union of theirs, and at most
    five indicators are kept, the first ones in the order of the list. *)
Theorem fuse_picks_from_results first rest :
  let results := first :: rest in
  let fused := _fuse_results results in
  In (CrisisDetectionResult.severity fused)
     (List.map CrisisDetectionResult.severity results)
  /\ level (CrisisDetectionResult.severity fused)
     <= level (py_max sev_gt (CrisisDetectionResult.severity first)
                      (List.map CrisisDetectionResult.severity rest))
  /\ In (CrisisDetectionResult.confidence fused)
        (List.map CrisisDetectionResult.confidence results)
  /\ (forall c, c ∈ CrisisDetectionResult.categories fused <->
        exists r, In r results /\ c ∈ CrisisDetectionResult.categories r)
  /\ CrisisDetectionResult.indicators fused
     = List.firstn 5 (List.concat (List.map CrisisDetectionResult.indicators results))
  /\ (List.length (CrisisDetectionResult.indicators fused) <= 5)%nat.
Proof.
  cbv zeta.
  pose proof (fuse_results_cons first rest) as Hf. cbv zeta in Hf.
  destruct (py_max_sev_fold (List.map CrisisDetectionResult.severity rest)
              (CrisisDetectionResult.severity first)) as [Hin Hmax].
  assert (Hsev : In (CrisisDetectionResult.severity (_fuse_results (first :: rest)))
                    (List.map CrisisDetectionResult.severity (first :: rest))).
  { destruct (ml_results (first :: rest)) as [|ml0 others] eqn:Eml.
    - destruct Hf as [-> _]. exact Hin.
    - assert (Hml : In ml0 (first :: rest)).
      { assert (Hin0 : In ml0 (ml_results (first :: rest))) by (rewrite Eml; now left).
        apply List.filter_In in Hin0. tauto. }
      destruct (float_gt _ _); destruct Hf as [-> _]; [|exact Hin].
      now apply List.in_map. }
  split; [exact Hsev|]. split; [apply Hmax; exact Hsev|].
  pose proof (fuse_results_fields first rest) as Hfields. cbv zeta in Hfields.
  destruct Hfields as (-> & -> & ->).
  split; [apply (py_max_in float_gt)|]. split; [|split; [reflexivity|]].
  - intros c. rewrite fold_union_categories. split.
    + intros [Hc|Hc]; [now apply not_elem_of_empty in Hc | exact Hc].
    + auto.
  - apply List.firstn_le_length.
Qed.

(** ** The resource resolver and the message *)

(** X27.  Severity enters the resolver through the limit only: the
    resources for a severity below high are the first two of those for a
    severity of high or critical. *)
Theorem fewer_resources_are_a_prefix resources country_code language lower higher :
  sev_ge lower HIGH = false ->
  sev_ge higher HIGH = true ->
  ResourceManager.get_resources resources country_code language lower
  = List.firstn 2 (ResourceManager.get_resources resources country_code language higher).
Proof.
  intros Hl Hh. unfold ResourceManager.get_resources. cbv zeta. rewrite Hl, Hh.
  now rewrite List.firstn_firstn.
Qed.

Lemma fewer_resources_are_a_prefix_witness :
  ResourceManager.get_resources ResourceManager._load_resources "US" "en" MODERATE
  = List.firstn 2
      (ResourceManager.get_resources ResourceManager._load_resources "US" "en" CRITICAL).
Proof.
  apply (fewer_resources_are_a_prefix ResourceManager._load_resources "US" "en"
           MODERATE CRITICAL); reflexivity.
Defined.

Lemma templates_lookup language :
  (language = "en" \/ language = "es") \/ ResourceManager.templates !! language = None.
Proof.
  destruct (decide (In language ["en"; "es"])) as [Hin|Hnot].
  - left. cbn in Hin. destruct Hin as [<-|[<-|[]]]; auto.
  - right. apply not_elem_of_list_to_map_1. rewrite list_elem_of_In. exact Hnot.
Qed.

(** X28.  The message falls back twice: a language without templates is
    answered with the English ones, and a severity without a template
    (none and low, in every language) gets the line "Support is
    available:".  The message always starts with the introduction line,
    followed by an empty line. *)
Theorem format_resources_fallbacks resources severity language :
  (ResourceManager.templates !! language = None ->
   ResourceManager.format_resources resources severity language
   = ResourceManager.format_resources resources severity "en")
  /\ (sev_ge severity MODERATE = false ->
      ResourceManager.format_resources resources severity language
      = String.concat newline
          (["Support is available:"; ""]
           ++ List.concat (List.map ResourceManager.resource_lines resources)))
  /\ exists intro,
       ResourceManager.format_resources resources severity language
       = intro +:+ newline
         +:+ String.concat newline
               ("" :: List.concat (List.map ResourceManager.resource_lines resources)).
Proof.
  split; [|split].
  - intros Hn. unfold ResourceManager.format_resources. rewrite Hn. reflexivity.
  - intros Hs. unfold ResourceManager.format_resources.
    destruct (templates_lookup language) as [[-> | ->] | ->];
      destruct severity; try discriminate Hs; reflexivity.
  - unfold ResourceManager.format_resources. cbv zeta. eexists. reflexivity.
Qed.

(** ** More of [detect] *)

(** A request changes no setting of the supervisor: the TTL, the
    threshold, window and recovery period of the breaker, the resource
    directory, the size of the event buffer, the ML switch and the target
    latency are after the call what they were before it. *)
Lemma detect_keeps_settings `{PyRuntime} self text user_id context country_code
    language env :
  let settings s :=
    (CacheManager.ttl (cache_manager s),
     CircuitBreaker.threshold (circuit_breaker s),
     CircuitBreaker.window (circuit_breaker s),
     CircuitBreaker.recovery (circuit_breaker s),
     resource_manager s,
     AnalyticsLogger.buffer_size (analytics s),
     enable_ml s, target_latency_ms s) in
  settings (detect self text user_id context country_code language env).1.2
  = settings self.
Proof.
  cbv zeta.
  pose proof (detect_state self text user_id context country_code language env) as Hd.
  cbv zeta in Hd.
  assert (Hcm : CacheManager.ttl
                  (CacheManager.get (cache_manager self)
                     (CacheManager.create_key text context) (now_cache env)).2
                = CacheManager.ttl (cache_manager self)).
  { unfold CacheManager.get.
    destruct (CacheManager.cache (cache_manager self) !! _) as [[r ts]|];
      [destruct (_ <? _)|]; reflexivity. }
  destruct (bypasses self user_id env).
  - destruct Hd as [-> _]. reflexivity.
  - destruct (CacheManager.get _ _ _).1 as [cached|]; destruct Hd as [-> _];
      cbn [cache_manager circuit_breaker resource_manager analytics enable_ml
           target_latency_ms CacheManager.set CacheManager.ttl
           AnalyticsLogger.log_detection AnalyticsLogger.buffer_size];
      rewrite Hcm; [reflexivity|].
    destruct (sev_ge _ MODERATE); reflexivity.
Qed.

(** X29.  When both tasks are done and a stage of the ML detector timed
    out, the decision is the higher of the pattern matcher's severity and
    moderate: a timeout never lowers what the patterns found, and raises
    a text without any match to moderate, with action monitor or
    interrupt. *)
Theorem ml_timeout_floors_at_moderate `{PyRuntime} self text context env :
  enable_ml self = true ->
  regex_done env = true ->
  ml_done env = true ->
  times_out (ml_service env) ->
  let regex := RegexDetector.detect (regex_latency_ms env) text context in
  let d := decided self text context env in
  level (CrisisDetectionResult.severity d)
  = Z.max (level (CrisisDetectionResult.severity regex)) (level MODERATE)
  /\ CrisisDetectionResult.recommended_action d <> PROCEED.
Proof.
  intros Hml Hr Hm Ht. cbv zeta.
  pose proof (regex_method_not_ml (regex_latency_ms env) text context) as Hnot.
  set (regex := RegexDetector.detect (regex_latency_ms env) text context) in *.
  set (fb := MLDetector.timeout_fallback (ml_latency_ms env)).
  assert (Hd : decided self text context env = _fuse_results [regex; fb]).
  { unfold decided. rewrite Hml. unfold run_tiers, gather, awaited.
    rewrite Hr, Hm, (timeout_done _ _ Ht). reflexivity. }
  assert (Hone : ml_results [regex; fb] = [fb]).
  { unfold ml_results. cbn [List.filter]. now rewrite Hnot. }
  pose proof (fuse_results_cons regex [fb]) as Hf. cbv zeta in Hf.
  rewrite Hone in Hf. change (float_gt (CrisisDetectionResult.confidence fb) 0.85)
    with false in Hf. destruct Hf as [Hsev _].
  pose proof (fuse_results_action regex [fb]) as Hact. cbv zeta in Hact.
  destruct Hact as (Hact & _).
  rewrite Hd, Hact, Hsev. unfold py_max. cbn.
  destruct (CrisisDetectionResult.severity regex); cbn; split; (reflexivity || discriminate).
Qed.

Lemma ml_timeout_floors_at_moderate_witness :
  let service := {| MLDetector._tier1_screening := MLDetector.TimedOut;
                    MLDetector._tier2_analysis := MLDetector.Failed |} in
  let d := decided (new no_config) (u "hello there") None (env_at 0 true true service) in
  CrisisDetectionResult.severity (RegexDetector.detect 1 (u "hello there") None) = NONE
  /\ level (CrisisDetectionResult.severity d) = level MODERATE
  /\ CrisisDetectionResult.recommended_action d <> PROCEED.
Proof.
  cbv zeta. split; [vm_compute; reflexivity|].
  destruct (ml_timeout_floors_at_moderate (new no_config) (u "hello there") None
              (env_at 0 true true
                 {| MLDetector._tier1_screening := MLDetector.TimedOut;
                    MLDetector._tier2_analysis := MLDetector.Failed |})
              eq_refl eq_refl eq_refl (or_introl eq_refl)) as [Hl Ha].
  cbv zeta in *. split; [|exact Ha]. rewrite Hl. vm_compute. reflexivity.
Defined.

(** X30.  When only the pattern matcher is done at the deadline, its
    result goes through the fuser with its severity, confidence, action,
    resource flag, categories and indicators unchanged; the method
    becomes "fusion". *)
Theorem lone_regex_result_passes_fuser `{PyRuntime} self text context env :
  enable_ml self = true ->
  regex_done env = true ->
  ml_done env = false ->
  let regex := RegexDetector.detect (regex_latency_ms env) text context in
  let d := decided self text context env in
  CrisisDetectionResult.severity d = CrisisDetectionResult.severity regex
  /\ CrisisDetectionResult.confidence d = CrisisDetectionResult.confidence regex
  /\ CrisisDetectionResult.recommended_action d
     = CrisisDetectionResult.recommended_action regex
  /\ CrisisDetectionResult.requires_resources d
     = CrisisDetectionResult.requires_resources regex
  /\ CrisisDetectionResult.categories d = CrisisDetectionResult.categories regex
  /\ CrisisDetectionResult.indicators d = CrisisDetectionResult.indicators regex
  /\ CrisisDetectionResult.detection_method d = "fusion".
Proof.
  intros Hml Hr Hm. cbv zeta.
  pose proof (regex_method_not_ml (regex_latency_ms env) text context) as Hnot.
  pose proof (regex_consistent (regex_latency_ms env) text context) as [Hca Hcr].
  assert (Hind : (List.length (CrisisDetectionResult.indicators
                    (RegexDetector.detect (regex_latency_ms env) text context)) <= 5)%nat).
  { unfold RegexDetector.detect.
    destruct (RegexDetector._is_false_positive text); [cbn; lia|].
    destruct (RegexDetector.matched_patterns _ text) as [|first rest]; [cbn; lia|].
    cbv zeta. destruct (if sev_ge _ HIGH then _ else _) as [action requires_resources].
    cbn [CrisisDetectionResult.indicators]. rewrite List.length_map.
    apply List.firstn_le_length. }
  set (regex := RegexDetector.detect (regex_latency_ms env) text context) in *.
  assert (Hd : decided self text context env = _fuse_results [regex]).
  { unfold decided. rewrite Hml. unfold run_tiers, gather, awaited.
    rewrite Hr, Hm. reflexivity. }
  assert (Hnone : ml_results [regex] = []).
  { unfold ml_results. cbn [List.filter]. now rewrite Hnot. }
  pose proof (fuse_results_cons regex []) as Hf. cbv zeta in Hf.
  rewrite Hnone in Hf. destruct Hf as [Hsev _].
  pose proof (fuse_results_action regex []) as Hact. cbv zeta in Hact.
  destruct Hact as (Hact & Hreq & Hmeth & _).
  rewrite Hd, Hact, Hreq, Hmeth, Hsev.
  change (py_max sev_gt (CrisisDetectionResult.severity regex) (List.map _ []))
    with (CrisisDetectionResult.severity regex).
  pose proof (fuse_results_fields regex []) as Hfields. cbv zeta in Hfields.
  destruct Hfields as (-> & -> & ->).
  split; [reflexivity|]. split; [reflexivity|].
  split; [now rewrite Hca|]. split; [now rewrite Hcr|].
  split; [apply union_empty_l_L|]. split; [|reflexivity].
  cbn [List.map List.concat]. rewrite List.app_nil_r. apply List.firstn_all2. exact Hind.
Qed.

Lemma lone_regex_result_passes_fuser_witness :
  let d := decided (new no_config) (u "I can't cope") None (regex_only_env 0) in
  CrisisDetectionResult.severity d = MODERATE
  /\ CrisisDetectionResult.detection_method d = "fusion"
  /\ CrisisDetectionResult.detection_method (RegexDetector.detect 1 (u "I can't cope") None)
     = "regex_en".
Proof.
  cbv zeta.
  destruct (lone_regex_result_passes_fuser (new no_config) (u "I can't cope") None
              (regex_only_env 0) eq_refl eq_refl eq_refl)
    as (Hs & _ & _ & _ & _ & _ & Hm).
  cbv zeta in *. rewrite Hs, Hm. repeat split; vm_compute; reflexivity.
Defined.
